(** * REX-MH: the multi-project extraction pipeline of [app.py]

    A shallow embedding of the pipeline of [app.py]: the page normaliser
    ([clean_document], [clean_pages]), the wire format produced by
    [json.dumps(..., indent=2)], and the orchestrator [parse_pdf_document]
    with its progress callback, its printed warnings and its calls to the
    OCR and chat-completion services.

    Around it: the caller [process_uploaded_file] with the elements it
    shows, the views of a record ([flatten_project_data],
    [format_expanded_data], the rows and the export name of
    [display_results_table]) and the start of a session ([load_schema],
    [load_prompt], [main]).

    Conventions.
    - A Python [str] is a list of Unicode code points ([pystr]).
    - A Python [int] is a [Z]; a Python [float] read from JSON is a binary64
      [float]. A progress fraction handed to the callback is the rational
      number ([Q]) its binary64 value denotes: a literal such as [0.1] is
      the binary64 number nearest to it, and every operation rounds its
      exact result to the nearest binary64 number, ties to even
      ([Binary64.round64]).
    - The remote services are oracles of the environment; everything the
      function does to the outside (callback, [print], service calls) is
      recorded in an explicit [World]. *)

From Stdlib Require Import ZArith NArith QArith Qround Qpower Qabs List Sorted String
  Ascii Bool Lia Lqa Floats.
Import ListNotations.

Set Warnings "-register-all,-inexact-float".

Local Open Scope string_scope.
Local Open Scope list_scope.
Local Open Scope Z_scope.

(* ------------------------------------------------------------------ *)
(** * Python strings *)

Module PyStr.

(** A Python [str]: its code points, in order. *)
Definition pystr : Type := list N.

Fixpoint bytes_of_string (s : string) : list N :=
  match s with
  | EmptyString => []
  | String a r => N_of_ascii a :: bytes_of_string r
  end.

(** Source literals are written as UTF-8 text; this reads them back as code
    points (sequences of one to four bytes). *)
Fixpoint utf8_decode (bs : list N) : pystr :=
  match bs with
  | [] => []
  | b0 :: r0 =>
    if (b0 <? 128)%N then b0 :: utf8_decode r0
    else
      match r0 with
      | [] => []
      | b1 :: r1 =>
        if (b0 <? 224)%N
        then ((b0 - 192) * 64 + (b1 - 128))%N :: utf8_decode r1
        else
          match r1 with
          | [] => []
          | b2 :: r2 =>
            if (b0 <? 240)%N
            then ((b0 - 224) * 4096 + (b1 - 128) * 64 + (b2 - 128))%N
                   :: utf8_decode r2
            else
              match r2 with
              | [] => []
              | b3 :: r3 =>
                ((b0 - 240) * 262144 + (b1 - 128) * 4096
                 + (b2 - 128) * 64 + (b3 - 128))%N :: utf8_decode r3
              end
          end
      end
  end.

(** A string literal of the source. *)
Definition py (s : string) : pystr := utf8_decode (bytes_of_string s).

(** Decimal digits of [n], most significant first, pushed in front of [acc]. *)
Fixpoint dec_digits (fuel : nat) (n : N) (acc : pystr) : pystr :=
  match fuel with
  | O => acc
  | S f =>
    let acc' := (48 + n mod 10)%N :: acc in
    if (n <? 10)%N then acc' else dec_digits f (n / 10)%N acc'
  end.

(** [str(n)] for a non-negative [int]. *)
Definition str_of_N (n : N) : pystr := dec_digits (S (N.size_nat n)) n [].

(** [str(z)] for an [int]. *)
Definition str_of_Z (z : Z) : pystr :=
  if z <? 0 then 45%N :: str_of_N (Z.abs_N z) else str_of_N (Z.abs_N z).

Definition str_of_nat (n : nat) : pystr := str_of_N (N.of_nat n).

(** Equality of two strings. *)
Fixpoint str_eqb (a b : pystr) : bool :=
  match a, b with
  | [], [] => true
  | x :: a', y :: b' => (x =? y)%N && str_eqb a' b'
  | _, _ => false
  end.

Arguments py : simpl never.
Strategy 100 [py].

End PyStr.
Export PyStr.

(* ------------------------------------------------------------------ *)
(** * JSON values as Python objects *)

Module Json.

(** What [json.loads] builds: [None], [bool], [int], [float], [str], [list]
    and [dict] (a [dict] keeps its keys in insertion order). *)
Inductive json : Type :=
| JNull
| JBool (b : bool)
| JInt (z : Z)
| JFloat (f : float)
| JStr (s : pystr)
| JArr (items : list json)
| JObj (fields : list (pystr * json)).

(** [d.get(k)]: the value under [k], if any. *)
Fixpoint dict_get (k : pystr) (d : list (pystr * json)) : option json :=
  match d with
  | [] => None
  | (k', v) :: d' => if str_eqb k k' then Some v else dict_get k d'
  end.

(** [d.get(k, default)] on a dict. *)
Definition dict_get_default (k : pystr) (d : list (pystr * json)) (default : json)
  : json :=
  match dict_get k d with
  | Some x => x
  | None => default
  end.

(** [d[k] = v]: replaces the value of an existing key in place, appends a new
    key at the end. *)
Fixpoint dict_set (k : pystr) (v : json) (d : list (pystr * json))
  : list (pystr * json) :=
  match d with
  | [] => [(k, v)]
  | (k', v') :: d' =>
    if str_eqb k k' then (k', v) :: d' else (k', v') :: dict_set k v d'
  end.

(** Truth value of an object ([not x] is its negation): [None], [False],
    zero, the empty string, the empty list and the empty dict are false. *)
Definition truthy (v : json) : bool :=
  match v with
  | JNull => false
  | JBool b => b
  | JInt z => negb (z =? 0)
  | JFloat f => negb (PrimFloat.eqb f 0%float)
  | JStr s => match s with [] => false | _ => true end
  | JArr l => match l with [] => false | _ => true end
  | JObj d => match d with [] => false | _ => true end
  end.

(** The exact comparison of a [float] with an [int]; [None] for a NaN, which
    compares false with everything. *)
Definition float_cmp_int (f : float) (z : Z) : option comparison :=
  match Prim2SF f with
  | S754_zero _ => Some (0 ?= z)
  | S754_infinity false => Some Gt
  | S754_infinity true => Some Lt
  | S754_nan => None
  | S754_finite s m e =>
    let sm := if s then Z.neg m else Z.pos m in
    if 0 <=? e then Some (sm * 2 ^ e ?= z)
    else Some (sm ?= z * 2 ^ (- e))
  end.

(** [v <= n] for an [int] [n]: numbers (and [bool], a subclass of [int])
    compare by value, anything else raises [TypeError] ([None]). *)
Definition py_le_int (v : json) (n : Z) : option bool :=
  match v with
  | JInt z => Some (z <=? n)
  | JBool b => Some ((if b then 1 else 0) <=? n)
  | JFloat f =>
    match float_cmp_int f n with
    | Some Gt => Some false
    | Some _ => Some true
    | None => Some false
    end
  | _ => None
  end.

(** [n <= v] for an [int] [n]. *)
Definition py_int_le (n : Z) (v : json) : option bool :=
  match v with
  | JInt z => Some (n <=? z)
  | JBool b => Some (n <=? (if b then 1 else 0))
  | JFloat f =>
    match float_cmp_int f n with
    | Some Lt => Some false
    | Some _ => Some true
    | None => Some false
    end
  | _ => None
  end.

End Json.
Export Json.

(* ------------------------------------------------------------------ *)
(** * The page normaliser *)

Module Normalizer.

(** One page of the OCR response: [page.index] and [page.markdown]. *)
Record OcrPage : Type := mkOcrPage {
  index : Z;
  markdown : pystr
}.

(** [ocr_response.pages]. *)
Definition OcrResponse : Type := list OcrPage.

(** One entry of the ["pages"] list of the payload. *)
Record NormalizedPage : Type := mkPage {
  page_number : Z;
  content : pystr
}.

(** The dict comprehension shared by [clean_document] and [clean_pages]:
    [{"page_number": page.index + 1, "content": page.markdown}]. *)
Definition transform_page (p : OcrPage) : NormalizedPage :=
  mkPage (index p + 1) (markdown p).

(** [transformed["pages"]] in [clean_document]: every page, in the order of
    [ocr_response.pages]. *)
Definition transformed_document (ocr : OcrResponse) : list NormalizedPage :=
  map transform_page ocr.

(** The chained comparison [start_page <= (page.index + 1) <= end_page]:
    the second comparison is evaluated only when the first holds; [None]
    stands for the [TypeError] of an unorderable bound. *)
Definition in_range (start_page end_page : json) (p : OcrPage) : option bool :=
  match py_le_int start_page (index p + 1) with
  | None => None
  | Some false => Some false
  | Some true => py_int_le (index p + 1) end_page
  end.

(** [filtered_pages] of [clean_pages]: the list comprehension, left to
    right; it fails at the first page whose test raises. *)
Fixpoint filtered_pages (start_page end_page : json) (ocr : OcrResponse)
  : option OcrResponse :=
  match ocr with
  | [] => Some []
  | p :: rest =>
    match in_range start_page end_page p with
    | None => None
    | Some keep =>
      match filtered_pages start_page end_page rest with
      | None => None
      | Some ps => Some (if keep then p :: ps else ps)
      end
    end
  end.

(** [transformed["pages"]] in [clean_pages]. *)
Definition transformed_pages (start_page end_page : json) (ocr : OcrResponse)
  : option (list NormalizedPage) :=
  option_map (map transform_page) (filtered_pages start_page end_page ocr).

(** The page test of the range filter on a normalised page. *)
Definition in_page_range (s e : Z) (p : NormalizedPage) : bool :=
  (s <=? page_number p) && (page_number p <=? e).

(** Page numbers strictly increasing along a sequence of pages. *)
Definition increasing_pages (ps : list NormalizedPage) : Prop :=
  StronglySorted (fun p q => page_number p < page_number q) ps.

End Normalizer.
Export Normalizer.

(* ------------------------------------------------------------------ *)
(** * The wire payload: [json.dumps(transformed, indent=2)] *)

Module Wire.

Definition hex_digit (d : N) : N :=
  if (d <? 10)%N then (48 + d)%N else (87 + d)%N.

(** ['{0:04x}'.format(n)] for [n < 0x10000]. *)
Definition hex4 (n : N) : pystr :=
  [ hex_digit ((n / 4096) mod 16); hex_digit ((n / 256) mod 16);
    hex_digit ((n / 16) mod 16); hex_digit (n mod 16) ]%N.

(** ['\\u{0:04x}'.format(n)]. *)
Definition u_escape (n : N) : pystr := 92%N :: 117%N :: hex4 n.

(** The replacement of one character by [py_encode_basestring_ascii]
    ([ensure_ascii] is left at its default): printable ASCII other than the
    quote and the backslash stays, the short escapes of [ESCAPE_DCT], a
    [\uXXXX] escape below 0x10000 and a surrogate pair above. *)
Definition escape_char (c : N) : pystr :=
  if (c =? 34)%N then [92; 34]%N
  else if (c =? 92)%N then [92; 92]%N
  else if (c =? 10)%N then [92; 110]%N
  else if (c =? 13)%N then [92; 114]%N
  else if (c =? 9)%N then [92; 116]%N
  else if (c =? 8)%N then [92; 98]%N
  else if (c =? 12)%N then [92; 102]%N
  else if ((32 <=? c) && (c <=? 126))%N then [c]
  else if (c <? 65536)%N then u_escape c
  else
    let n := (c - 65536)%N in
    let s1 := N.lor 55296 (N.land (N.shiftr n 10) 1023) in
    let s2 := N.lor 56320 (N.land n 1023) in
    u_escape s1 ++ u_escape s2.

(** [json.dumps(s)] for a [str]. *)
Definition dumps_str (s : pystr) : pystr :=
  34%N :: flat_map escape_char s ++ [34%N].

(** [json.dumps(n)] for an [int]. *)
Definition dumps_int (z : Z) : pystr := str_of_Z z.

(** A newline followed by [2 * level] spaces. *)
Definition newline_indent (level : nat) : pystr :=
  10%N :: repeat 32%N (2 * level).

(** One page dict at nesting level 2. *)
Definition dumps_page (p : NormalizedPage) : pystr :=
  py "{" ++ newline_indent 3
  ++ dumps_str (py "page_number") ++ py ": " ++ dumps_int (page_number p)
  ++ py "," ++ newline_indent 3
  ++ dumps_str (py "content") ++ py ": " ++ dumps_str (content p)
  ++ newline_indent 2 ++ py "}".

(** The items of a non-empty list at nesting level 1, separated by a comma
    and a new line. *)
Fixpoint dumps_items (ps : list NormalizedPage) : pystr :=
  match ps with
  | [] => []
  | [p] => dumps_page p
  | p :: rest => dumps_page p ++ py "," ++ newline_indent 2 ++ dumps_items rest
  end.

Definition dumps_page_list (ps : list NormalizedPage) : pystr :=
  match ps with
  | [] => py "[]"
  | _ => py "[" ++ newline_indent 2 ++ dumps_items ps
         ++ newline_indent 1 ++ py "]"
  end.

(** [json.dumps({"pages": ps}, indent=2)]. *)
Definition dumps_payload (ps : list NormalizedPage) : pystr :=
  py "{" ++ newline_indent 1
  ++ dumps_str (py "pages") ++ py ": " ++ dumps_page_list ps
  ++ newline_indent 0 ++ py "}".

(** ** Decoding: [JSONDecoder.decode], which [json.loads] calls

    The decoder follows the scanner of the [json] module on texts whose
    numbers are integers; a text with a fraction, an exponent, [NaN] or
    [Infinity] is outside its domain and yields [None], like a text that
    raises [JSONDecodeError]. *)

Definition is_ws (c : N) : bool :=
  ((c =? 32) || (c =? 9) || (c =? 10) || (c =? 13))%N.

Fixpoint skip_ws (s : pystr) : pystr :=
  match s with
  | [] => []
  | c :: r => if is_ws c then skip_ws r else s
  end.

Definition is_digit (c : N) : bool := ((48 <=? c) && (c <=? 57))%N.

Definition hex_val (c : N) : option N :=
  if is_digit c then Some (c - 48)%N
  else if ((97 <=? c) && (c <=? 102))%N then Some (c - 87)%N
  else if ((65 <=? c) && (c <=? 70))%N then Some (c - 55)%N
  else None.

(** [_decode_uXXXX]: four hexadecimal digits. *)
Definition hex4_val (h1 h2 h3 h4 : N) : option N :=
  match hex_val h1, hex_val h2, hex_val h3, hex_val h4 with
  | Some a, Some b, Some c, Some d => Some (a * 4096 + b * 256 + c * 16 + d)%N
  | _, _, _, _ => None
  end.

(** The [BACKSLASH] table. *)
Definition unescape (e : N) : option N :=
  if (e =? 34)%N then Some 34%N
  else if (e =? 92)%N then Some 92%N
  else if (e =? 47)%N then Some 47%N
  else if (e =? 98)%N then Some 8%N
  else if (e =? 102)%N then Some 12%N
  else if (e =? 110)%N then Some 10%N
  else if (e =? 114)%N then Some 13%N
  else if (e =? 116)%N then Some 9%N
  else None.

Definition is_high_surrogate (u : N) : bool := ((55296 <=? u) && (u <=? 56319))%N.
Definition is_low_surrogate (u : N) : bool := ((56320 <=? u) && (u <=? 57343))%N.

Definition cons_result (c : N) (r : option (pystr * pystr)) : option (pystr * pystr) :=
  match r with
  | Some (x, rest) => Some (c :: x, rest)
  | None => None
  end.

(** [scanstring] (strict), from the character after the opening quote: the
    decoded string and the text after the closing quote. *)
Fixpoint scanstring (s : pystr) : option (pystr * pystr) :=
  match s with
  | [] => None
  | c :: r =>
    if (c =? 34)%N then Some ([], r)
    else if (c =? 92)%N then
      match r with
      | [] => None
      | e :: r1 =>
        if (e =? 117)%N then
          match r1 with
          | h1 :: h2 :: h3 :: h4 :: r2 =>
            match hex4_val h1 h2 h3 h4 with
            | None => None
            | Some uni =>
              match r2 with
              | b :: u :: g1 :: g2 :: g3 :: g4 :: r3 =>
                if (is_high_surrogate uni && (b =? 92) && (u =? 117))%N then
                  match hex4_val g1 g2 g3 g4 with
                  | None => None
                  | Some uni2 =>
                    if is_low_surrogate uni2 then
                      cons_result
                        (65536 + N.lor (N.shiftl (uni - 55296) 10) (uni2 - 56320))%N
                        (scanstring r3)
                    else cons_result uni (scanstring r2)
                  end
                else cons_result uni (scanstring r2)
              | _ => cons_result uni (scanstring r2)
              end
            end
          | _ => None
          end
        else
          match unescape e with
          | Some ch => cons_result ch (scanstring r1)
          | None => None
          end
      end
    else if (c <? 32)%N then None
    else cons_result c (scanstring r)
  end.

Fixpoint scan_digits (s : pystr) (acc : N) : N * pystr :=
  match s with
  | [] => (acc, [])
  | c :: r => if is_digit c then scan_digits r (acc * 10 + (c - 48))%N else (acc, s)
  end.

(** The integer part of [NUMBER_RE] without its sign: [0|[1-9][0-9]*]. *)
Definition scan_nat (s : pystr) : option (N * pystr) :=
  match s with
  | [] => None
  | c :: r =>
    if (c =? 48)%N then Some (0%N, r)
    else if is_digit c then Some (scan_digits r (c - 48)%N)
    else None
  end.

(** A number: an optional minus sign and the integer part; a fraction or an
    exponent after it is outside the decoder's domain. *)
Definition scan_int (s : pystr) : option (Z * pystr) :=
  let signed :=
    match s with
    | c :: r =>
      if (c =? 45)%N
      then match scan_nat r with
           | Some (n, rest) => Some (- Z.of_N n, rest)
           | None => None
           end
      else match scan_nat s with
           | Some (n, rest) => Some (Z.of_N n, rest)
           | None => None
           end
    | [] => None
    end in
  match signed with
  | Some (z, c :: rest) =>
    if ((c =? 46) || (c =? 101) || (c =? 69))%N then None else Some (z, c :: rest)
  | r => r
  end.

(** [s] starts with [lit]: the text after it. *)
Fixpoint strip_prefix (lit s : pystr) : option pystr :=
  match lit, s with
  | [], _ => Some s
  | x :: lit', y :: s' => if (x =? y)%N then strip_prefix lit' s' else None
  | _ :: _, [] => None
  end.

(** [dict(pairs)]: a repeated key keeps its first position and its last
    value. *)
Definition dict_of_pairs (pairs : list (pystr * json)) : list (pystr * json) :=
  fold_left (fun d kv => dict_set (fst kv) (snd kv) d) pairs [].

(** [scan_once] at the first character of a value, with [JSONArray] and
    [JSONObject] after their first item; [fuel] bounds the number of nested
    calls. *)
Fixpoint parse_value (fuel : nat) (s : pystr) : option (json * pystr) :=
  match fuel with
  | O => None
  | S f =>
    match s with
    | [] => None
    | c :: r =>
      if (c =? 34)%N then
        match scanstring r with
        | Some (x, rest) => Some (JStr x, rest)
        | None => None
        end
      else if (c =? 123)%N then
        match skip_ws r with
        | c' :: r' =>
          if (c' =? 125)%N then Some (JObj [], r')
          else
            match parse_members f (c' :: r') with
            | Some (pairs, rest) => Some (JObj (dict_of_pairs pairs), rest)
            | None => None
            end
        | [] => None
        end
      else if (c =? 91)%N then
        match skip_ws r with
        | c' :: r' =>
          if (c' =? 93)%N then Some (JArr [], r')
          else
            match parse_elements f (c' :: r') with
            | Some (items, rest) => Some (JArr items, rest)
            | None => None
            end
        | [] => None
        end
      else if (c =? 110)%N then
        option_map (fun rest => (JNull, rest)) (strip_prefix (py "ull") r)
      else if (c =? 116)%N then
        option_map (fun rest => (JBool true, rest)) (strip_prefix (py "rue") r)
      else if (c =? 102)%N then
        option_map (fun rest => (JBool false, rest)) (strip_prefix (py "alse") r)
      else
        match scan_int s with
        | Some (z, rest) => Some (JInt z, rest)
        | None => None
        end
    end
  end

with parse_elements (fuel : nat) (s : pystr) : option (list json * pystr) :=
  match fuel with
  | O => None
  | S f =>
    match parse_value f s with
    | None => None
    | Some (v, r) =>
      match skip_ws r with
      | [] => None
      | c :: r' =>
        if (c =? 93)%N then Some ([v], r')
        else if (c =? 44)%N then
          match parse_elements f (skip_ws r') with
          | Some (vs, rest) => Some (v :: vs, rest)
          | None => None
          end
        else None
      end
    end
  end

with parse_members (fuel : nat) (s : pystr)
  : option (list (pystr * json) * pystr) :=
  match fuel with
  | O => None
  | S f =>
    match s with
    | [] => None
    | q :: r =>
      if (q =? 34)%N then
        match scanstring r with
        | None => None
        | Some (k, r1) =>
          match skip_ws r1 with
          | [] => None
          | c1 :: r2 =>
            if (c1 =? 58)%N then
              match parse_value f (skip_ws r2) with
              | None => None
              | Some (v, r3) =>
                match skip_ws r3 with
                | [] => None
                | c2 :: r4 =>
                  if (c2 =? 125)%N then Some ([(k, v)], r4)
                  else if (c2 =? 44)%N then
                    match parse_members f (skip_ws r4) with
                    | Some (kvs, rest) => Some ((k, v) :: kvs, rest)
                    | None => None
                    end
                  else None
                end
              end
            else None
          end
        end
      else None
    end
  end.

(** [json.loads(s)]: leading white space, one value, trailing white space,
    and nothing else; the length of the text is the fuel of the scan. *)
Definition decode (s : pystr) : option json :=
  match parse_value (S (List.length s)) (skip_ws s) with
  | Some (v, rest) =>
    match skip_ws rest with
    | [] => Some v
    | _ => None
    end
  | None => None
  end.

(** The Python object [{"pages": [{"page_number": ..., "content": ...}]}]
    that a payload stands for. *)
Definition page_value (p : NormalizedPage) : json :=
  JObj [ (py "page_number", JInt (page_number p)); (py "content", JStr (content p)) ].

Definition payload_value (ps : list NormalizedPage) : json :=
  JObj [ (py "pages", JArr (map page_value ps)) ].

(** Reading a decoded payload back: the [page_number] and [content] of
    every entry of ["pages"], in order. *)
Definition page_of_value (v : json) : option NormalizedPage :=
  match v with
  | JObj d =>
    match dict_get (py "page_number") d, dict_get (py "content") d with
    | Some (JInt n), Some (JStr c) => Some (mkPage n c)
    | _, _ => None
    end
  | _ => None
  end.

Fixpoint pages_of_values (vs : list json) : option (list NormalizedPage) :=
  match vs with
  | [] => Some []
  | v :: rest =>
    match page_of_value v, pages_of_values rest with
    | Some p, Some ps => Some (p :: ps)
    | _, _ => None
    end
  end.

Definition parse_payload (s : pystr) : option (list NormalizedPage) :=
  match decode s with
  | Some (JObj d) =>
    match dict_get (py "pages") d with
    | Some (JArr vs) => pages_of_values vs
    | _ => None
    end
  | _ => None
  end.

(** A code point of a text: a Unicode scalar value (no surrogate). *)
Definition scalar_value (c : N) : Prop :=
  (c < 55296 \/ 57344 <= c < 1114112)%N.


(** The value of a run of decimal digits read after [acc]. *)
Definition digits_value (acc : N) (ds : pystr) : N :=
  fold_left (fun a c => (a * 10 + (c - 48))%N) ds acc.

(** What may follow a number in a text: not a digit, and nothing that
    would continue the number as a float. *)
Definition ends_number (rest : pystr) : Prop :=
  match rest with
  | [] => True
  | c :: _ =>
    is_digit c = false /\ c <> 46%N /\ c <> 101%N /\ c <> 69%N
  end.

(** A page whose content is a text. *)
Definition text_page (p : NormalizedPage) : Prop :=
  Forall scalar_value (content p).

End Wire.
Export Wire.

(** [clean_document(ocr_response)]. *)
Definition clean_document (ocr : OcrResponse) : pystr :=
  dumps_payload (transformed_document ocr).

(** [clean_pages(ocr_response, start_page, end_page)]; [None] when a
    comparison of the filter raises. *)
Definition clean_pages (ocr : OcrResponse) (start_page end_page : json)
  : option pystr :=
  option_map dumps_payload (transformed_pages start_page end_page ocr).

(* ------------------------------------------------------------------ *)
(** * Binary64 arithmetic

    A finite Python [float] is written as the rational number it denotes.
    A literal and the exact result of an operation are rounded to the
    nearest binary64 number, ties to the even significand: 53 significant
    bits, and no digit below [2^-1074] (the subnormal numbers). *)

Module Binary64.

(** [2^e], for any integer [e]. *)
Definition two (e : Z) : Q := ((2 # 1) ^ e)%Q.

(** The binade of a positive number: the [k] with [2^k <= q < 2^(k+1)]. *)
Definition binade (q : Q) : Z :=
  let k := Z.log2 (Qnum q) - Z.log2 (Zpos (Qden q)) in
  if Qle_bool (two k) q then k else k - 1.

(** The nearest integer, the even one of two that are equally near. *)
Definition nearest_even (q : Q) : Z :=
  let f := Qfloor q in
  match (q - inject_Z f ?= 1 # 2)%Q with
  | Lt => f
  | Gt => f + 1
  | Eq => if Z.even f then f else f + 1
  end.

(** The exponent of the last binary digit a binary64 number near [q]
    keeps. *)
Definition last_place (q : Q) : Z := Z.max (binade q - 52) (-1074).

Definition round_positive (q : Q) : Q :=
  let e := last_place q in
  Qred (inject_Z (nearest_even (q / two e)) * two e).

(** The binary64 number nearest to [q]. Numbers of [2^1024] and more are
    not binary64 numbers: see [int_too_large]. *)
Definition round64 (q : Q) : Q :=
  match Qnum q with
  | Z0 => 0%Q
  | Zpos _ => round_positive q
  | Zneg _ => (- round_positive (- q))%Q
  end.

Arguments round64 : simpl never.

(** The [float] an [int] is converted to where it meets a [float] in an
    operation. *)
Definition float_of_int (z : Z) : Q := round64 (inject_Z z).

(** The conversion raises [OverflowError] (int too large to convert to
    float) when the nearest number is out of the range of binary64. *)
Definition int_too_large (z : Z) : bool :=
  Qle_bool (two 1024) (Qabs (float_of_int z)).

(** The number a hardware binary64 value denotes; the values compared
    below are finite. *)
Definition Q_of_float (x : float) : Q :=
  match Prim2SF x with
  | S754_finite s m e =>
    Qred ((if s then -1 else 1) * inject_Z (Zpos m) * two e)
  | _ => 0%Q
  end.

Definition hardware_float_of_int (z : Z) : float :=
  PrimFloat.of_uint63 (Uint63.of_Z z).

Definition hardware_float_of_nat (n : nat) : float :=
  hardware_float_of_int (Z.of_nat n).

(** Integers that are not binary64 numbers, one of them half way between
    two of them, and the largest length of a list. *)
Definition long_lengths : list Z :=
  [ 2 ^ 53 + 1; 2 ^ 53 + 3; 2 ^ 60 + 2 ^ 7 + 1; 2 ^ 63 - 1 ].

(** A quotient among the subnormal numbers. *)
Definition hardware_tiny_quotient : Q :=
  Q_of_float (0.4 / 0x1p1023 / 0x1p50)%float.

End Binary64.
Export Binary64.

(* ------------------------------------------------------------------ *)
(** * Exceptions, the world and the service environment *)

Module Runtime.

(** Operations of the interpreter that raise on a value they do not accept. *)
Inductive Fault : Type :=
| NoGetAttribute (v : json)      (* [v.get(...)]: [AttributeError] *)
| NoLen (v : json)               (* [len(v)]: [TypeError] *)
| NotSubscriptable (v : json)    (* [v[:50]] *)
| Unorderable (lo hi : json)     (* [lo <= n <= hi]: [TypeError] *)
| NoItemAssignment (v : json)    (* [v[k] = x]: [TypeError] *)
| IntTooLarge (n : nat).         (* [0.4 / n]: [OverflowError] *)

(** The exceptions of a run; all of them are instances of [Exception]. *)
Inductive Exn : Type :=
| Exception (msg : pystr)          (* [raise Exception(msg)] *)
| ValueError (msg : pystr)         (* [raise ValueError(msg)] *)
| JSONDecodeError (msg : pystr)    (* raised by [json.loads] *)
| ServiceError (msg : pystr)       (* raised by the secrets store or the client *)
| RuntimeFault (f : Fault).

(** Which system prompt a chat completion is sent with. *)
Inductive Prompt : Type := listPrompt | REXPrompt.

(** A request sent to the remote services. *)
Inductive ServiceCall : Type :=
| FilesUpload (file_name : pystr) (file_content : list N)
| GetSignedUrl (file_id : pystr)
| OcrProcess (document_url : pystr)
| ChatComplete (system : Prompt) (user : pystr).

(** Everything a run does to the outside. *)
Record World : Type := mkWorld {
  events : list (Q * pystr);     (* arguments of [progress_callback], in order *)
  stdout : list pystr;           (* lines written by [print] *)
  calls : list ServiceCall       (* requests to the services, in order *)
}.

Definition initial_world : World := mkWorld [] [] [].

(** The surroundings of one run. *)
Record Env : Type := mkEnv {
  has_callback : bool;                            (* [progress_callback] is given *)
  secret_api_key : Exn + pystr;                   (* [st.secrets['MISTRAL_API_KEY']] *)
  mistral_client : pystr -> Exn + unit;           (* the import and [Mistral(api_key=...)] *)
  files_upload : pystr -> list N -> Exn + pystr;  (* the uploaded file's id *)
  get_signed_url : pystr -> Exn + pystr;          (* [signed_url.url] *)
  ocr_process : pystr -> Exn + OcrResponse;
  list_completion : pystr -> Exn + pystr;         (* [choices[0].message.content] *)
  project_completion : nat -> pystr -> Exn + pystr
    (* the answer to the request made for the candidate at position [idx] *)
}.

(** Computations that change the world and may raise. *)
Definition M (A : Type) : Type := World -> (A + Exn) * World.

Definition ret {A} (a : A) : M A := fun w => (inl a, w).

Definition raise {A} (e : Exn) : M A := fun w => (inr e, w).

Definition bind {A B} (m : M A) (k : A -> M B) : M B :=
  fun w =>
    match m w with
    | (inl a, w') => k a w'
    | (inr e, w') => (inr e, w')
    end.

(** [try: m except Exception as e: h e]. *)
Definition try_except {A} (m : M A) (h : Exn -> M A) : M A :=
  fun w =>
    match m w with
    | (inl a, w') => (inl a, w')
    | (inr e, w') => h e w'
    end.

(** [try: m except json.JSONDecodeError as e: h (str e)]. *)
Definition try_except_decode {A} (m : M A) (h : pystr -> M A) : M A :=
  fun w =>
    match m w with
    | (inr (JSONDecodeError msg), w') => h msg w'
    | r => r
    end.

Notation "x <- m ;; k" := (bind m (fun x => k))
  (at level 61, m at next level, right associativity).
Notation "m ;;; k" := (bind m (fun _ => k))
  (at level 61, right associativity).

Definition lift {A} (r : Exn + A) : M A :=
  match r with
  | inl e => raise e
  | inr a => ret a
  end.

Definition print (line : pystr) : M unit :=
  fun w => (inl tt, mkWorld (events w) (stdout w ++ [line]) (calls w)).

Definition request (c : ServiceCall) : M unit :=
  fun w => (inl tt, mkWorld (events w) (stdout w) (calls w ++ [c])).

Definition emit (progress : Q) (status : pystr) : M unit :=
  fun w => (inl tt, mkWorld (events w ++ [(progress, status)]) (stdout w) (calls w)).

(** [v.get(k)] on any object: only a dict has the method; a missing key
    gives [None]. *)
Definition py_get (v : json) (k : pystr) : M json :=
  match v with
  | JObj d => ret (dict_get_default k d JNull)
  | _ => raise (RuntimeFault (NoGetAttribute v))
  end.

(** [v.get(k, default)]. *)
Definition py_get_default (v : json) (k : pystr) (default : json) : M json :=
  match v with
  | JObj d => ret (dict_get_default k d default)
  | _ => raise (RuntimeFault (NoGetAttribute v))
  end.

(** [len(v)]: strings, lists and dicts have a length. *)
Definition py_len (v : json) : M nat :=
  match v with
  | JStr s => ret (List.length s)
  | JArr l => ret (List.length l)
  | JObj d => ret (List.length d)
  | _ => raise (RuntimeFault (NoLen v))
  end.

(** The items [for ... in enumerate(v)] visits, for an object that has a
    length: the elements of a list, the keys of a dict, the characters of a
    string. *)
Definition py_items (v : json) : list json :=
  match v with
  | JArr l => l
  | JObj d => map (fun kv => JStr (fst kv)) d
  | JStr s => map (fun c => JStr [c]) s
  | _ => []
  end.

(** [v[:50]]. *)
Definition py_slice50 (v : json) : M json :=
  match v with
  | JStr s => ret (JStr (firstn 50 s))
  | JArr l => ret (JArr (firstn 50 l))
  | _ => raise (RuntimeFault (NotSubscriptable v))
  end.

(** [v[k] = x]. *)
Definition py_setitem (v : json) (k : pystr) (x : json) : M json :=
  match v with
  | JObj d => ret (JObj (dict_set k x d))
  | _ => raise (RuntimeFault (NoItemAssignment v))
  end.

End Runtime.
Export Runtime.

(* ------------------------------------------------------------------ *)
(** * The views of a record: the export row, the details and the table *)

Module Views.

Section Str.

(** [str(v)] for the objects other than [None], [bool], [int] and [str]:
    the [repr] of a [float], of a [list] and of a [dict]. *)
Variable repr_other : json -> pystr.

(** [str.title], which the labels made from keys go through. *)
Variable str_title : pystr -> pystr.

(** [str(v)], which is also the text a replacement field [{v}] of an
    f-string gives. *)
Definition py_str (v : json) : pystr :=
  match v with
  | JStr s => s
  | JInt z => str_of_Z z
  | JNull => py "None"
  | JBool true => py "True"
  | JBool false => py "False"
  | _ => repr_other v
  end.

(** [sep.join(parts)]. *)
Fixpoint join (sep : pystr) (parts : list pystr) : pystr :=
  match parts with
  | [] => []
  | [p] => p
  | p :: rest => p ++ sep ++ join sep rest
  end.

(** [s.replace(old, new)] for a non-empty [old]: the occurrences of [old]
    are found from left to right and do not overlap; [skip] counts the
    characters of an occurrence still to pass. *)
Fixpoint replace_from (old new : pystr) (skip : nat) (s : pystr) : pystr :=
  match s with
  | [] => []
  | c :: r =>
    match skip with
    | S k => replace_from old new k r
    | O =>
      match strip_prefix old s with
      | Some _ => new ++ replace_from old new (List.length old - 1) r
      | None => c :: replace_from old new 0 r
      end
    end
  end.

Definition py_replace (old new s : pystr) : pystr := replace_from old new 0 s.

(** [old in s] for two strings. *)
Fixpoint occurs (old s : pystr) : bool :=
  match strip_prefix old s with
  | Some _ => true
  | None =>
    match s with
    | [] => false
    | _ :: r => occurs old r
    end
  end.

(** ** [flatten_project_data] *)

(** [for key, value in items: flat_data[key] = value]. *)
Definition update_items (items flat_data : list (pystr * json))
  : list (pystr * json) :=
  fold_left (fun flat kv => dict_set (fst kv) (snd kv) flat) items flat_data.

(** One block of [flatten_project_data]: the items of [project[name]] are
    copied when the key is there and its value is a dict. *)
Definition flatten_section (name : pystr) (project flat_data : list (pystr * json))
  : list (pystr * json) :=
  match dict_get name project with
  | Some (JObj section) => update_items section flat_data
  | _ => flat_data
  end.

(** In the block of [Enjeux] a list becomes
    [", ".join(str(v) for v in value)]. *)
Definition enjeux_value (value : json) : json :=
  match value with
  | JArr items => JStr (join (py ", ") (map py_str items))
  | _ => value
  end.

Definition flatten_enjeux (project flat_data : list (pystr * json))
  : list (pystr * json) :=
  match dict_get (py "Enjeux") project with
  | Some (JObj section) =>
    update_items (map (fun kv => (fst kv, enjeux_value (snd kv))) section) flat_data
  | _ => flat_data
  end.

(** [if name in project: flat_data[name] = project[name]]. *)
Definition copy_field (name : pystr) (project flat_data : list (pystr * json))
  : list (pystr * json) :=
  match dict_get name project with
  | Some v => dict_set name v flat_data
  | None => flat_data
  end.

(** [flatten_project_data(project)] for a record. *)
Definition flatten_project_data (project : list (pystr * json))
  : list (pystr * json) :=
  let flat_data := [] in
  let flat_data := flatten_section (py "Presentation") project flat_data in
  let flat_data := flatten_section (py "Objectif") project flat_data in
  let flat_data := flatten_section (py "Description") project flat_data in
  let flat_data := flatten_enjeux project flat_data in
  let flat_data := flatten_section (py "Typologie") project flat_data in
  let flat_data := flatten_section (py "Directives") project flat_data in
  let flat_data := flatten_section (py "Contexte") project flat_data in
  let flat_data := flatten_section (py "Valorisation") project flat_data in
  let flat_data := flatten_section (py "Travaux") project flat_data in
  let flat_data := flatten_section (py "Documents") project flat_data in
  let flat_data := copy_field (py "_project_title") project flat_data in
  let flat_data := copy_field (py "_page_debut") project flat_data in
  let flat_data := copy_field (py "_page_fin") project flat_data in
  flat_data.

(** [flattened_projects] of [create_excel_download]. *)
Definition flattened_projects (projects : list (list (pystr * json)))
  : list (list (pystr * json)) :=
  map flatten_project_data projects.

(** ** What a key of the flat data holds *)

(** The blocks of [flatten_project_data], in their order. *)
Definition block_names : list pystr :=
  [ py "Presentation"; py "Objectif"; py "Description"; py "Enjeux";
    py "Typologie"; py "Directives"; py "Contexte"; py "Valorisation";
    py "Travaux"; py "Documents" ].

(** The value the block [name] gives the key [k]: that of [k] in the dict
    [project[name]], a list of [Enjeux] being joined. *)
Definition block_value (name k : pystr) (project : list (pystr * json))
  : option json :=
  match dict_get name project with
  | Some (JObj section) =>
    if str_eqb name (py "Enjeux")
    then option_map enjeux_value (dict_get k section)
    else dict_get k section
  | _ => None
  end.

(** The value of the last block of [names] that gives one to [k]. *)
Fixpoint last_value (names : list pystr) (k : pystr)
    (project : list (pystr * json)) : option json :=
  match names with
  | [] => None
  | name :: rest =>
    match last_value rest k project with
    | Some v => Some v
    | None => block_value name k project
    end
  end.

(** The three keys copied from the record itself. *)
Definition is_metadata_key (k : pystr) : bool :=
  str_eqb k (py "_project_title") || str_eqb k (py "_page_debut")
  || str_eqb k (py "_page_fin").

(** The dicts among the values of a record have distinct keys. *)
Definition distinct_keys (project : list (pystr * json)) : Prop :=
  forall name section,
    dict_get name project = Some (JObj section) -> NoDup (map fst section).

(** ** [format_expanded_data]

    The quotes inside the literals of the source are written as the code
    point 34. *)

Definition div_open (class : string) : pystr :=
  py "<div class=" ++ [34%N] ++ py class ++ [34%N] ++ py ">".

Definition span_open (class : string) : pystr :=
  py "<span class=" ++ [34%N] ++ py class ++ [34%N] ++ py ">".

(** [<div class="field-item"><span class="field-label">{label}:</span>
    <span class="field-value">{value}</span></div>], on one line. *)
Definition field_item (label value : pystr) : pystr :=
  div_open "field-item" ++ span_open "field-label" ++ label ++ py ":</span>"
  ++ span_open "field-value" ++ value ++ py "</span></div>".

(** [<div class="field-item"><span class="field-value">{value}</span></div>]. *)
Definition value_item (value : pystr) : pystr :=
  div_open "field-item" ++ span_open "field-value" ++ value ++ py "</span></div>".

(** [<a href="{value}" target="_blank">{value}</a>]. *)
Definition anchor (value : pystr) : pystr :=
  py "<a href=" ++ [34%N] ++ value ++ [34%N] ++ py " target=" ++ [34%N]
  ++ py "_blank" ++ [34%N] ++ py ">" ++ value ++ py "</a>".

(** A group: its opening tag, its heading, its items and its closing tag. *)
Definition group (heading body : pystr) : pystr :=
  div_open "field-group" ++ py "<h4>" ++ heading ++ py "</h4>" ++ body
  ++ py "</div>".

(** [any(d.values())]. *)
Definition any_value (d : list (pystr * json)) : bool :=
  existsb (fun kv => truthy (snd kv)) d.

(** [d.get(key)]. *)
Definition get (key : pystr) (d : list (pystr * json)) : json :=
  dict_get_default key d JNull.

(** [value != ''], the comparison with the empty string. *)
Definition not_empty_str (value : json) : bool :=
  match value with
  | JStr [] => false
  | _ => true
  end.

(** The labels of the group of [Presentation], in the order of
    [field_labels]. *)
Definition field_labels : list (pystr * pystr) :=
  [ (py "Titre", py "Titre");
    (py "Bassin", py "Bassin");
    (py "Nom de l'organisme", py "Nom de l'organisme");
    (py "Localisation", py "Localisation");
    (py "Adresse précise", py "Adresse précise");
    (py "Région", py "Région") ].

(** [for key, label in field_labels.items()]: the items of the values that
    are true, read with [pres_data.get(key, '')]. *)
Definition labelled_items (pres_data : list (pystr * json)) : pystr :=
  flat_map
    (fun kl =>
       let value := dict_get_default (fst kl) pres_data (JStr []) in
       if truthy value then field_item (snd kl) (py_str value) else [])
    field_labels.

(** An item shown when [d.get(key)] is true. *)
Definition optional_item (key label : pystr) (d : list (pystr * json)) : pystr :=
  if truthy (get key d) then field_item label (py_str (get key d)) else [].

(** [key.replace('_', ' ').title()]. *)
Definition formatted_key (key : pystr) : pystr :=
  str_title (py_replace (py "_") (py " ") key).

(** [for key, value in d.items()]: the items of the values that are true
    and are not the empty string; in the group of [Valorisation] the value
    of the key [url] is shown as a link. *)
Definition keyed_items (link_url : bool) (d : list (pystr * json)) : pystr :=
  flat_map
    (fun kv =>
       let key := fst kv in
       let value := snd kv in
       if truthy value && not_empty_str value then
         if link_url && str_eqb key (py "url")
         then field_item (formatted_key key) (anchor (py_str value))
         else field_item (formatted_key key) (py_str value)
       else [])
    d.

Definition html_presentation (doc_data : list (pystr * json)) : pystr :=
  match dict_get (py "Presentation") doc_data with
  | Some (JObj pres_data) =>
    if any_value pres_data
    then group (py "📋 Informations du projet") (labelled_items pres_data)
    else []
  | _ => []
  end.

Definition html_objectif (doc_data : list (pystr * json)) : pystr :=
  match dict_get (py "Objectif") doc_data with
  | Some (JObj obj_data) =>
    if truthy (get (py "objectifs") obj_data)
    then group (py "🎯 Objectif du maître d'ouvrage")
           (value_item (py_str (get (py "objectifs") obj_data)))
    else []
  | _ => []
  end.

(** The text shown for [resume]: [resume[:500]], followed by three dots
    when [len(resume) > 500]. A string and a list can be cut and have a
    length; on anything else the slice raises ([None]). *)
Definition resume_text (resume : json) : option pystr :=
  match resume with
  | JStr s =>
    Some (firstn 500 s ++ (if (500 <? List.length s)%nat then py "..." else []))
  | JArr l =>
    Some (py_str (JArr (firstn 500 l))
          ++ (if (500 <? List.length l)%nat then py "..." else []))
  | _ => None
  end.

Definition html_description (doc_data : list (pystr * json)) : option pystr :=
  match dict_get (py "Description") doc_data with
  | Some (JObj desc_data) =>
    if any_value desc_data then
      let resume :=
        if truthy (get (py "resume") desc_data)
        then option_map (field_item (py "Résumé"))
               (resume_text (get (py "resume") desc_data))
        else Some [] in
      match resume with
      | Some item =>
        Some (group (py "📝 Description")
                (item ++ optional_item (py "publication_recueil") (py "Publication")
                           desc_data))
      | None => None
      end
    else Some []
  | _ => Some []
  end.

(** The strings of a list, when all its elements are strings. *)
Fixpoint strings_of (l : list json) : option (list pystr) :=
  match l with
  | [] => Some []
  | JStr s :: rest => option_map (cons s) (strings_of rest)
  | _ :: _ => None
  end.

(** [", ".join(enjeux)] under
    [if d.get('enjeux') and isinstance(d['enjeux'], list)]: [join] raises
    on an element that is not a string ([None]). *)
Definition enjeux_item (enjeux_data : list (pystr * json)) : option pystr :=
  match get (py "enjeux") enjeux_data with
  | JArr (first :: rest) =>
    option_map (fun parts => field_item (py "Enjeux") (join (py ", ") parts))
      (strings_of (first :: rest))
  | _ => Some []
  end.

Definition html_enjeux (doc_data : list (pystr * json)) : option pystr :=
  match dict_get (py "Enjeux") doc_data with
  | Some (JObj enjeux_data) =>
    if any_value enjeux_data then
      match enjeux_item enjeux_data with
      | Some item =>
        Some (group (py "🌱 Enjeux eau, biodiversité et climat")
                (optional_item (py "date_debut") (py "Date début") enjeux_data
                 ++ optional_item (py "date_fin") (py "Date fin") enjeux_data
                 ++ item))
      | None => None
      end
    else Some []
  | _ => Some []
  end.

(** The groups of [Typologie], [Directives] and [Valorisation]. *)
Definition html_keyed (name heading : pystr) (link_url : bool)
    (doc_data : list (pystr * json)) : pystr :=
  match dict_get name doc_data with
  | Some (JObj d) =>
    if any_value d then group heading (keyed_items link_url d) else []
  | _ => []
  end.

Definition html_contexte (doc_data : list (pystr * json)) : pystr :=
  match dict_get (py "Contexte") doc_data with
  | Some (JObj ctx_data) =>
    if any_value ctx_data
    then group (py "⚖️ Contexte réglementaire")
           (optional_item (py "contexte") (py "Contexte") ctx_data
            ++ optional_item (py "autres") (py "Autres") ctx_data)
    else []
  | _ => []
  end.

Definition html_travaux (doc_data : list (pystr * json)) : pystr :=
  match dict_get (py "Travaux") doc_data with
  | Some (JObj travaux_data) =>
    if truthy (get (py "surface_travaux") travaux_data)
    then group (py "🗺️ Période et envergure des travaux")
           (field_item (py "Surface des travaux")
              (py_str (get (py "surface_travaux") travaux_data)))
    else []
  | _ => []
  end.

Definition html_documents (doc_data : list (pystr * json)) : pystr :=
  match dict_get (py "Documents") doc_data with
  | Some (JObj doc_info) =>
    if any_value doc_info
    then group (py "📚 Documents")
           (optional_item (py "pages_extraire") (py "Pages à extraire") doc_info
            ++ (if truthy (get (py "recueil_complet") doc_info)
                then field_item (py "Recueil complet")
                       (anchor (py_str (get (py "recueil_complet") doc_info)))
                else []))
    else []
  | _ => []
  end.

(** [format_expanded_data(doc_data)] for a record; [None] when it raises. *)
Definition format_expanded_data (doc_data : list (pystr * json)) : option pystr :=
  match doc_data with
  | [] => Some (py "Aucune donnée disponible")
  | _ :: _ =>
    match html_description doc_data, html_enjeux doc_data with
    | Some description, Some enjeux =>
      Some (div_open "expanded-content"
            ++ html_presentation doc_data
            ++ html_objectif doc_data
            ++ description
            ++ enjeux
            ++ html_keyed (py "Typologie")
                 (py "🔧 Typologie - Ingénierie écologique") false doc_data
            ++ html_keyed (py "Directives")
                 (py "🇪🇺 Référence directives européennes") false doc_data
            ++ html_contexte doc_data
            ++ html_keyed (py "Valorisation")
                 (py "🏆 Valorisation de l'opération") true doc_data
            ++ html_travaux doc_data
            ++ html_documents doc_data
            ++ py "</div>")
    | _, _ => None
    end
  end.

(** The two places where [format_expanded_data] raises: the slice of a
    [resume] that is true and is neither a string nor a list, and the
    [join] of an [enjeux] list that holds something else than strings. *)
Definition resume_raises (doc_data : list (pystr * json)) : bool :=
  match dict_get (py "Description") doc_data with
  | Some (JObj desc_data) =>
    match get (py "resume") desc_data with
    | JStr _ | JArr _ => false
    | resume => truthy resume
    end
  | _ => false
  end.

Definition enjeux_raises (doc_data : list (pystr * json)) : bool :=
  match dict_get (py "Enjeux") doc_data with
  | Some (JObj enjeux_data) =>
    match get (py "enjeux") enjeux_data with
    | JArr items =>
      existsb (fun v => match v with JStr _ => false | _ => true end) items
    | _ => false
    end
  | _ => false
  end.

(** The details of a record without anything to show. *)
Definition empty_details : pystr :=
  div_open "expanded-content" ++ py "</div>".

(** ** [display_results_table]: the rows of the table and the name of the
    exported file *)

(** One entry of [df_data]; [None] when [format_expanded_data] raises. *)
Definition table_row (project : list (pystr * json))
  : option (list (pystr * json)) :=
  let titre := dict_get_default (py "_project_title") project (JStr (py "Sans titre")) in
  let page_debut := dict_get_default (py "_page_debut") project (JStr (py "N/A")) in
  let page_fin := dict_get_default (py "_page_fin") project (JStr (py "N/A")) in
  match format_expanded_data project with
  | Some details =>
    Some [ (py "Titre du projet", titre);
           (py "Page début", page_debut);
           (py "Page fin", page_fin);
           (py "Détails", JStr details) ]
  | None => None
  end.

(** [df_data] after the loop over the projects. *)
Fixpoint table_rows (projects : list (list (pystr * json)))
  : option (list (list (pystr * json))) :=
  match projects with
  | [] => Some []
  | project :: rest =>
    match table_row project with
    | Some row => option_map (cons row) (table_rows rest)
    | None => None
    end
  end.

(** [file_name] of the download button:
    [f"{data['filename'].replace('.pdf', '')}_REX_export.xlsx"]. *)
Definition export_file_name (filename : pystr) : pystr :=
  py_replace (py ".pdf") [] filename ++ py "_REX_export.xlsx".

End Str.

End Views.
Export Views.

(* ------------------------------------------------------------------ *)
(** * The start of the application: [load_schema], [load_prompt], [main] *)

Module Startup.

(** The files of the application directory: [Path(name).exists()], and
    the text that [open(name).read()] gives or the message of the error it
    raises. *)
Record Files : Type := mkFiles {
  file_exists : pystr -> bool;
  read_text : pystr -> pystr + pystr
}.

(** The four keys [main] keeps in [st.session_state]; [None] for a key
    that is not there. A schema is the object read from its file, [JNull]
    standing for Python's [None]; a prompt is a string or [None]. *)
Record Session : Type := mkSession {
  rex_schema : option json;             (* [REXSchema] *)
  rex_list_schema : option json;        (* [REXListSchema] *)
  rex_prompt : option (option pystr);   (* [REXPrompt] *)
  list_prompt : option (option pystr)   (* [listPrompt] *)
}.

(** How a run of [main] ends: [st.stop()], or the display of the page. *)
Inductive MainEnd : Type := Stopped | Displayed.

Section Load.

(** [json.load] on the text of a file: the object, or the message of the
    [JSONDecodeError]. *)
Variable json_loads : pystr -> pystr + json.

(** [json.dumps(schema, indent=2, ensure_ascii=False)]. *)
Variable dumps_schema : json -> pystr.

(** [load_schema(schema_name)] for a plain file name: the schema, or
    [None] after an error, and the messages handed to [st.error]. *)
Definition load_schema (files : Files) (schema_name : pystr)
  : json * list pystr :=
  if negb (file_exists files schema_name) then
    (JNull, [py "Schema file not found: " ++ schema_name])
  else
    match read_text files schema_name with
    | inl msg => (JNull, [py "Error loading schema REX.schema.json: " ++ msg])
    | inr text =>
      match json_loads text with
      | inl msg => (JNull, [py "Error loading schema REX.schema.json: " ++ msg])
      | inr schema => (schema, [])
      end
    end.

(** [load_prompt(prompt_name, schema)] for a plain file name: the prompt,
    with the placeholder replaced when [schema is not None], or [None]
    after an error, and the messages handed to [st.error]. *)
Definition load_prompt (files : Files) (prompt_name : pystr) (schema : json)
  : option pystr * list pystr :=
  if negb (file_exists files prompt_name) then
    (None, [py "Prompt file not found: " ++ prompt_name])
  else
    match read_text files prompt_name with
    | inl msg =>
      (None, [py "Error loading prompt " ++ prompt_name ++ py ": " ++ msg])
    | inr prompt_content =>
      match schema with
      | JNull => (Some prompt_content, [])
      | _ =>
        (Some (py_replace (py "{{ SCHEMA_JSON }}") (dumps_schema schema)
                 prompt_content), [])
      end
    end.

(** [not prompt] for a prompt: [None] and the empty string. *)
Definition prompt_missing (prompt : option pystr) : bool :=
  match prompt with
  | Some (_ :: _) => false
  | _ => true
  end.

(** The value of a key that is set. *)
Definition stored {A} (default : A) (value : option A) : A :=
  match value with
  | Some v => v
  | None => default
  end.

(** The four blocks of [main]; each gives whether the run goes on, the
    session and the messages handed to [st.error]. *)
Definition load_rex_schema (files : Files) (s : Session)
  : bool * Session * list pystr :=
  match rex_schema s with
  | Some _ => (true, s, [])
  | None =>
    let (schema, errors) := load_schema files (py "REX.schema.json") in
    let s' := mkSession (Some schema) (rex_list_schema s) (rex_prompt s)
                (list_prompt s) in
    if truthy schema then (true, s', errors)
    else (false, s', errors ++ [py "Failed to load REX schema."])
  end.

Definition load_rex_list_schema (files : Files) (s : Session)
  : bool * Session * list pystr :=
  match rex_list_schema s with
  | Some _ => (true, s, [])
  | None =>
    let (schema, errors) := load_schema files (py "REXlist.schema.json") in
    let s' := mkSession (rex_schema s) (Some schema) (rex_prompt s)
                (list_prompt s) in
    if truthy schema then (true, s', errors)
    else (false, s', errors ++ [py "Failed to load REX list schema."])
  end.

Definition load_rex_prompt (files : Files) (s : Session)
  : bool * Session * list pystr :=
  match rex_prompt s with
  | Some _ => (true, s, [])
  | None =>
    let (prompt, errors) :=
      load_prompt files (py "REXPrompt.md") (stored JNull (rex_schema s)) in
    let s' := mkSession (rex_schema s) (rex_list_schema s) (Some prompt)
                (list_prompt s) in
    if prompt_missing prompt
    then (false, s', errors ++ [py "Failed to load REX prompt."])
    else (true, s', errors)
  end.

Definition load_list_prompt (files : Files) (s : Session)
  : bool * Session * list pystr :=
  match list_prompt s with
  | Some _ => (true, s, [])
  | None =>
    let (prompt, errors) :=
      load_prompt files (py "listPrompt.md") (stored JNull (rex_list_schema s)) in
    let s' := mkSession (rex_schema s) (rex_list_schema s) (rex_prompt s)
                (Some prompt) in
    if prompt_missing prompt
    then (false, s', errors ++ [py "Failed to load list prompt."])
    else (true, s', errors)
  end.

(** [main()] up to the display of the page: how the run ends, the session
    after it and the messages handed to [st.error]. *)
Definition main (files : Files) (s : Session) : MainEnd * Session * list pystr :=
  let '(go, s1, e1) := load_rex_schema files s in
  if negb go then (Stopped, s1, e1) else
  let '(go, s2, e2) := load_rex_list_schema files s1 in
  if negb go then (Stopped, s2, e1 ++ e2) else
  let '(go, s3, e3) := load_rex_prompt files s2 in
  if negb go then (Stopped, s3, e1 ++ e2 ++ e3) else
  let '(go, s4, e4) := load_list_prompt files s3 in
  if negb go then (Stopped, s4, e1 ++ e2 ++ e3 ++ e4) else
  (Displayed, s4, e1 ++ e2 ++ e3 ++ e4).

End Load.

End Startup.


(* ------------------------------------------------------------------ *)
(** * Example data: a document of three pages and its answers *)

Module Examples.


(** [json.loads] through the decoder of the wire format. *)
Definition demo_loads (s : pystr) : pystr + json :=
  match decode s with
  | Some v => inr v
  | None => inl (py "Expecting value")
  end.

Definition demo_fault (f : Fault) : pystr := py "TypeError".

Definition demo_repr (v : json) : pystr := py "<object>".

Definition demo_ocr : OcrResponse :=
  [ mkOcrPage 0 (py "Mare de la Prée");
    mkOcrPage 1 (py "Travaux");
    mkOcrPage 2 (py "Suivi") ].

Definition quoted (s : string) : pystr := dumps_str (py s).

(** The text of one candidate of the list answer. *)
Definition candidate_text (title : string) (debut fin : Z) : pystr :=
  py "{" ++ quoted "Titre" ++ py ": " ++ quoted title ++ py ", "
  ++ quoted "PageDebut" ++ py ": " ++ str_of_Z debut ++ py ", "
  ++ quoted "PageFin" ++ py ": " ++ str_of_Z fin ++ py "}".

(** The list of the specification's example: A on pages 1 to 3, and B
    with a first page of 0. *)
Definition list_text : pystr :=
  py "{" ++ quoted "Liste" ++ py ": [" ++ candidate_text "A" 1 3
  ++ py ", " ++ candidate_text "B" 0 5 ++ py "]}".

(** A list with the candidate B alone. *)
Definition list_text_b : pystr :=
  py "{" ++ quoted "Liste" ++ py ": [" ++ candidate_text "B" 0 5 ++ py "]}".

Definition not_json : pystr := py "pas du JSON".

Definition answer_fields : list (pystr * json) :=
  [ (py "Presentation", JObj [ (py "Titre", JStr (py "Mare")) ]) ].

Definition answer_text : pystr :=
  py "{" ++ quoted "Presentation" ++ py ": {" ++ quoted "Titre" ++ py ": "
  ++ quoted "Mare" ++ py "}}".

Definition fields_a : list (pystr * json) :=
  [ (py "Titre", JStr (py "A")); (py "PageDebut", JInt 1); (py "PageFin", JInt 3) ].

Definition fields_b : list (pystr * json) :=
  [ (py "Titre", JStr (py "B")); (py "PageDebut", JInt 0); (py "PageFin", JInt 5) ].


(** A list of two candidates with pages. *)
Definition list_text_a_c : pystr :=
  py "{" ++ quoted "Liste" ++ py ": [" ++ candidate_text "A" 1 3
  ++ py ", " ++ candidate_text "C" 2 3 ++ py "]}".

(** An environment in which every service answers, with a callback. *)
Definition demo_env (list_answer : pystr) : Env :=
  mkEnv true (inr (py "secret")) (fun _ => inr tt)
    (fun _ _ => inr (py "file-1")) (fun _ => inr (py "https://files/1"))
    (fun _ => inr demo_ocr) (fun _ => inr list_answer)
    (fun _ _ => inr answer_text).

Definition demo_filename : pystr := py "rapport.pdf".

(** A document whose second page comes first. *)
Definition unsorted_document : OcrResponse :=
  [ mkOcrPage 1 (py "deux"); mkOcrPage 0 (py "un") ].

(** A document with accented letters, a character outside the basic
    plane, a quote, a backslash and a line break. *)
Definition accented_document : list NormalizedPage :=
  [ mkPage 1 (py "Mare de la Prée, à l'été");
    mkPage 2 [128512%N; 34%N; 92%N; 10%N; 233%N] ].

(** An environment whose secret store holds an empty key. *)
Definition keyless_env : Env :=
  mkEnv true (inr []) (fun _ => inr tt)
    (fun _ _ => inr (py "file-1")) (fun _ => inr (py "https://files/1"))
    (fun _ => inr demo_ocr) (fun _ => inr list_text)
    (fun _ _ => inr answer_text).

(** A list answer without candidates. *)
Definition list_text_empty : pystr :=
  py "{" ++ quoted "Liste" ++ py ": []}".

(** A candidate whose title is a number. *)
Definition fields_numbered : list (pystr * json) :=
  [ (py "Titre", JInt 7); (py "PageDebut", JInt 1); (py "PageFin", JInt 3) ].

(** A candidate whose first page is written as a string. *)
Definition fields_text_bound : list (pystr * json) :=
  [ (py "Titre", JStr (py "A")); (py "PageDebut", JStr (py "1"));
    (py "PageFin", JInt 3) ].

(** The error of a service that is not available. *)
Definition unavailable : Exn := ServiceError (py "503 Service Unavailable").

(** ** Records for the views *)

(** A record whose blocks share a key, with a list in [Enjeux]. *)
Definition demo_record : list (pystr * json) :=
  [ (py "Presentation",
     JObj [ (py "Titre", JStr (py "Mare")); (py "autres", JStr (py "un")) ]);
    (py "Enjeux",
     JObj [ (py "enjeux", JArr [ JStr (py "eau"); JStr (py "climat") ]) ]);
    (py "Contexte", JObj [ (py "autres", JStr (py "deux")) ]);
    (py "_page_debut", JInt 1) ].

(** A record whose [resume] is a number. *)
Definition numbered_resume : list (pystr * json) :=
  [ (py "Description", JObj [ (py "resume", JInt 12) ]) ].

(** A record whose blocks hold nothing to show. *)
Definition blank_record : list (pystr * json) :=
  [ (py "Presentation", JObj [ (py "Titre", JStr []) ]);
    (py "Objectif", JObj [ (py "objectifs", JNull) ]);
    (py "Typologie", JStr (py "sans objet")) ].

(** ** A session started without its schema *)

(** The application directory without [REX.schema.json]: the two
    prompts, and a schema under every other name. *)
Definition files_without_schema : Startup.Files :=
  Startup.mkFiles
    (fun name => negb (str_eqb name (py "REX.schema.json")))
    (fun name =>
       if str_eqb name (py "REXPrompt.md")
       then inr (py "Analyse le projet selon {{ SCHEMA_JSON }} et réponds en JSON.")
       else if str_eqb name (py "listPrompt.md")
       then inr (py "Liste les projets.")
       else inr (py "{" ++ quoted "type" ++ py ": " ++ quoted "object" ++ py "}")).

Definition demo_dumps (schema : json) : pystr := py "<schema>".

Definition empty_session : Startup.Session :=
  Startup.mkSession None None None None.


(** A list answer whose candidates are names, not objects. *)
Definition list_text_names : pystr :=
  py "{" ++ quoted "Liste" ++ py ": [" ++ quoted "A" ++ py ", " ++ quoted "B"
  ++ py "]}".


End Examples.
Export Examples.

(* ------------------------------------------------------------------ *)
(** * The orchestrator [parse_pdf_document] *)

Module Pipeline.

Section Run.

(** [json.loads]: the decoded value, or the message of the
    [JSONDecodeError]. *)
Variable json_loads : pystr -> pystr + json.

(** [str(e)] for a fault raised by the interpreter. *)
Variable fault_message : Fault -> pystr.

(** [str(v)] for the objects other than [None], [bool], [int] and [str]. *)
Variable repr_other : json -> pystr.

(** The surrounding request: [file_content] and [filename]. *)
Variable file_content : list N.
Variable filename : pystr.

Definition str_exn (e : Exn) : pystr :=
  match e with
  | Exception msg | ValueError msg | JSONDecodeError msg | ServiceError msg => msg
  | RuntimeFault f => fault_message f
  end.

(** A replacement field [{v}] of an f-string. *)
Definition py_format (v : json) : pystr :=
  match v with
  | JStr s => s
  | JInt z => str_of_Z z
  | JNull => py "None"
  | JBool true => py "True"
  | JBool false => py "False"
  | _ => repr_other v
  end.

Definition loads (s : pystr) : M json :=
  match json_loads s with
  | inl msg => raise (JSONDecodeError msg)
  | inr v => ret v
  end.

(** [if progress_callback: progress_callback(progress, status)]. *)
Definition progress_callback (env : Env) (progress : Q) (status : pystr) : M unit :=
  if has_callback env then emit progress status else ret tt.

(** [clean_pages] inside the run: the comparison of a bound that is not a
    number raises. *)
Definition run_clean_pages (ocr : OcrResponse) (start_page end_page : json)
  : M pystr :=
  match clean_pages ocr start_page end_page with
  | Some payload => ret payload
  | None => raise (RuntimeFault (Unorderable start_page end_page))
  end.

(** [progress_per_project = 0.4 / len(projects) if projects else 0], for
    a list of [n] candidates: the quotient of two binary64 numbers,
    rounded. *)
Definition progress_per_project (n : nat) : Q :=
  match n with
  | O => 0
  | _ => round64 (round64 (4 # 10) / float_of_int (Z.of_nat n))
  end.

(** [0.5 + (idx * progress_per_project)]: the product is rounded, then the
    sum. *)
Definition current_progress (idx n : nat) : Q :=
  round64 (round64 (5 # 10)
           + round64 (float_of_int (Z.of_nat idx) * progress_per_project n)).

(** The value the hardware computes for the same expression, and the
    hardware values of the literals of the run. *)
Definition hardware_progress (idx n : nat) : Q :=
  Q_of_float
    (0.5 + hardware_float_of_nat idx * (0.4 / hardware_float_of_nat n))%float.

Definition hardware_literals : list Q :=
  map Q_of_float [0.1; 0.2; 0.3; 0.4; 0.5; 1.0]%float.

(** The fallback title [f"Projet {idx + 1}"]. *)
Definition fallback_title (idx : nat) : pystr :=
  py "Projet " ++ str_of_nat (idx + 1).

Definition warning_no_pages (project_title : json) : pystr :=
  py "Warning: Projet '" ++ py_format project_title
  ++ py "' n'a pas de pages définies, ignoré".

Definition warning_parse (project_title : json) (msg : pystr) : pystr :=
  py "Warning: Erreur lors du parsing du projet '" ++ py_format project_title
  ++ py "': " ++ msg.

Definition warning_processing (idx : nat) (e : Exn) : pystr :=
  py "Warning: Erreur lors du traitement du projet " ++ str_of_nat (idx + 1)
  ++ py ": " ++ str_exn e.

Definition status_project (idx n : nat) (title50 : json) : pystr :=
  py "Analyse du projet " ++ str_of_nat (idx + 1) ++ py "/" ++ str_of_nat n
  ++ py ": " ++ py_format title50 ++ py "...".

Definition message_success (project_title : json) : pystr :=
  py "Projet '" ++ py_format project_title ++ py "' analysé avec succès".

(** The body of the inner [try] of one iteration: decode the answer, attach
    the three fields, append the record. *)
Definition decode_project (project_title start_page end_page : json)
    (project_data_json : pystr) (parsed_data : list json) : M (list json) :=
  project_data <- loads project_data_json ;;
  project_data <- py_setitem project_data (py "_project_title") project_title ;;
  project_data <- py_setitem project_data (py "_page_debut") start_page ;;
  project_data <- py_setitem project_data (py "_page_fin") end_page ;;
  print (message_success project_title) ;;;
  ret (parsed_data ++ [project_data]).

(** One iteration after [start_page], [end_page] and [project_title] are
    read: the page test, the progress event, the request and the decoding. *)
Definition project_steps (env : Env) (ocr : OcrResponse) (n idx : nat)
    (start_page end_page project_title : json) (parsed_data : list json)
  : M (list json) :=
  if negb (truthy start_page) || negb (truthy end_page) then
    print (warning_no_pages project_title) ;;;
    ret parsed_data
  else
    (if has_callback env then
       title50 <- py_slice50 project_title ;;
       emit (current_progress idx n) (status_project idx n title50)
     else ret tt) ;;;
    project_pages <- run_clean_pages ocr start_page end_page ;;
    request (ChatComplete REXPrompt project_pages) ;;;
    project_data_json <- lift (project_completion env idx project_pages) ;;
    try_except_decode
      (decode_project project_title start_page end_page project_data_json parsed_data)
      (fun msg =>
         print (warning_parse project_title msg) ;;;
         ret parsed_data).

(** The body of the outer [try] of one iteration of the loop over
    [enumerate(projects)]; the result is [parsed_data] after it. *)
Definition project_body (env : Env) (ocr : OcrResponse) (n idx : nat) (project : json)
    (parsed_data : list json) : M (list json) :=
  start_page <- py_get project (py "PageDebut") ;;
  end_page <- py_get project (py "PageFin") ;;
  project_title <- py_get_default project (py "Titre") (JStr (fallback_title idx)) ;;
  project_steps env ocr n idx start_page end_page project_title parsed_data.

(** One iteration: the outer [try ... except Exception] never lets an
    exception out. *)
Definition project_iteration (env : Env) (ocr : OcrResponse) (n idx : nat) (project : json)
    (parsed_data : list json) : M (list json) :=
  try_except (project_body env ocr n idx project parsed_data)
    (fun e =>
       print (warning_processing idx e) ;;;
       ret parsed_data).

(** [for idx, project in enumerate(projects)], from position [idx] on. *)
Fixpoint project_loop (env : Env) (ocr : OcrResponse) (n idx : nat) (projects : list json)
    (parsed_data : list json) : M (list json) :=
  match projects with
  | [] => ret parsed_data
  | project :: rest =>
    parsed_data <- project_iteration env ocr n idx project parsed_data ;;
    project_loop env ocr n (S idx) rest parsed_data
  end.

(** Up to the OCR response: the API key, the client, the upload, the
    signed URL and the OCR request. *)
Definition ocr_stage (env : Env) : M OcrResponse :=
  api_key <- lift (secret_api_key env) ;;
  (match api_key with
   | [] => raise (ValueError (py "MISTRAL_API_KEY not found in environment variables"))
   | _ => ret tt
   end) ;;;
  lift (mistral_client env api_key) ;;;
  progress_callback env (round64 (1 # 10)) (py "Upload du fichier vers Mistral...") ;;;
  request (FilesUpload filename file_content) ;;;
  file_id <- lift (files_upload env filename file_content) ;;
  request (GetSignedUrl file_id) ;;;
  url <- lift (get_signed_url env file_id) ;;
  progress_callback env (round64 (2 # 10)) (py "Traitement OCR du document...") ;;;
  request (OcrProcess url) ;;;
  lift (ocr_process env url).

(** The parsing of the list answer: a [JSONDecodeError] becomes the
    [Exception] of the list stage. *)
Definition loads_project_list (project_list_json : pystr) : M json :=
  try_except_decode (loads project_list_json)
    (fun msg =>
       raise (Exception (py "Erreur lors du parsing de la liste de projets: " ++ msg))).

(** The extraction of the project list: the value of [projects]. *)
Definition list_stage (env : Env) (ocr_response : OcrResponse) : M json :=
  let clean_doc := clean_document ocr_response in
  progress_callback env (round64 (3 # 10)) (py "Extraction de la liste de projets...") ;;;
  request (ChatComplete listPrompt clean_doc) ;;;
  project_list_json <- lift (list_completion env clean_doc) ;;
  print (py "Project list response: " ++ project_list_json) ;;;
  progress_callback env (round64 (4 # 10)) (py "Vérification des projets...") ;;;
  project_list_dict <- loads_project_list project_list_json ;;
  projects <- py_get_default project_list_dict (py "Liste") (JArr []) ;;
  (if truthy projects then ret tt
   else raise (Exception (py "Aucun projet trouvé dans le document"))) ;;;
  ret projects.

(** The loop over the candidates: the value of [parsed_data] after it. *)
Definition extraction_stage (env : Env) (ocr_response : OcrResponse) (projects : json)
  : M (list json) :=
  n <- py_len projects ;;
  progress_callback env (round64 (5 # 10))
    (py "Extraction des données pour " ++ str_of_nat n ++ py " projet(s)...") ;;;
  (* [0.4 / len(projects)] converts the length to a [float] *)
  (if int_too_large (Z.of_nat n) then raise (RuntimeFault (IntTooLarge n))
   else ret tt) ;;;
  project_loop env ocr_response n 0 (py_items projects) [].

(** After the loop: the run fails when no record was produced. *)
Definition finish (env : Env) (parsed_data : list json) : M (list json) :=
  (match parsed_data with
   | [] => raise (Exception (py "Aucun projet n'a pu être analysé avec succès"))
   | _ => ret tt
   end) ;;;
  progress_callback env 1
    (py "Traitement terminé - " ++ str_of_nat (List.length parsed_data)
     ++ py " projet(s) extrait(s)") ;;;
  ret parsed_data.

(** The body of the [try] of [parse_pdf_document]. *)
Definition pipeline_body (env : Env) : M (list json) :=
  ocr_response <- ocr_stage env ;;
  projects <- list_stage env ocr_response ;;
  parsed_data <- extraction_stage env ocr_response projects ;;
  finish env parsed_data.

(** [parse_pdf_document(file_content, filename, progress_callback)]: the
    list it returns, or the exception it raises, and the world after it. *)
Definition parse_pdf_document (env : Env) : M (list json) :=
  try_except (pipeline_body env)
    (fun e =>
       progress_callback env 0 (py "Erreur: " ++ str_exn e) ;;;
       raise (Exception (py "Erreur lors du traitement OCR: " ++ str_exn e))).

(** ** What a candidate contributes

    The values one iteration reads off a candidate, and the record the
    candidate adds to [parsed_data], if any, written as one expression. *)

Definition page_debut (d : list (pystr * json)) : json :=
  dict_get_default (py "PageDebut") d JNull.

Definition page_fin (d : list (pystr * json)) : json :=
  dict_get_default (py "PageFin") d JNull.

Definition candidate_title (idx : nat) (d : list (pystr * json)) : json :=
  dict_get_default (py "Titre") d (JStr (fallback_title idx)).

(** [not start_page or not end_page]. *)
Definition pages_missing (d : list (pystr * json)) : bool :=
  negb (truthy (page_debut d)) || negb (truthy (page_fin d)).

(** [v[:50]] where it is defined. *)
Definition slice50 (v : json) : option json :=
  match v with
  | JStr s => Some (JStr (firstn 50 s))
  | JArr l => Some (JArr (firstn 50 l))
  | _ => None
  end.

Definition sliceable (v : json) : bool :=
  match slice50 v with
  | Some _ => true
  | None => false
  end.

(** The progress event of a candidate that passed the page test. *)
Definition project_event (env : Env) (n idx : nat) (title50 : json)
  : list (Q * pystr) :=
  if has_callback env
  then [(current_progress idx n, status_project idx n title50)]
  else [].

(** The parsed object with the three fields attached. *)
Definition tagged (project_title start_page end_page : json)
    (r : list (pystr * json)) : list (pystr * json) :=
  dict_set (py "_page_fin") end_page
    (dict_set (py "_page_debut") start_page
       (dict_set (py "_project_title") project_title r)).

Definition project_record (env : Env) (ocr : OcrResponse) (idx : nat)
    (project : json) : option json :=
  match project with
  | JObj d =>
    if pages_missing d then None
    else if has_callback env && negb (sliceable (candidate_title idx d))
    then None
    else
      match clean_pages ocr (page_debut d) (page_fin d) with
      | None => None
      | Some project_pages =>
        match project_completion env idx project_pages with
        | inl _ => None
        | inr project_data_json =>
          match json_loads project_data_json with
          | inr (JObj r) =>
            Some (JObj (tagged (candidate_title idx d) (page_debut d) (page_fin d) r))
          | _ => None
          end
        end
      end
  | _ => None
  end.

Definition record_list (r : option json) : list json :=
  match r with
  | Some x => [x]
  | None => []
  end.

(** The records of the candidates from position [idx] on, in their order. *)
Fixpoint loop_records (env : Env) (ocr : OcrResponse) (idx : nat)
    (projects : list json) : list json :=
  match projects with
  | [] => []
  | project :: rest =>
    record_list (project_record env ocr idx project)
    ++ loop_records env ocr (S idx) rest
  end.

(** The environment in which the answer for the candidate at position [i]
    is [answer], and every other answer is that of [env]. *)
Definition with_answer (env : Env) (i : nat) (answer : Exn + pystr) : Env :=
  mkEnv (has_callback env) (secret_api_key env) (mistral_client env)
    (files_upload env) (get_signed_url env) (ocr_process env)
    (list_completion env)
    (fun j payload => if Nat.eqb j i then answer else project_completion env j payload).

(** How the loop takes a candidate. It is excluded when the loop drops it
    at the page test: an object whose [PageDebut] or [PageFin] is missing
    or false, or a value that is no object and has no field to read
    ([project.get] raises). It is included when it passes the test. *)
Definition excluded (project : json) : bool :=
  match project with
  | JObj d => pages_missing d
  | _ => true
  end.

Definition included (project : json) : bool :=
  match project with
  | JObj d => truthy (page_debut d) && truthy (page_fin d)
  | _ => false
  end.

(** A candidate the loop can take as far as its request once it has passed
    the page test: with a callback its title can be cut by [[:50]], and its
    bounds can be compared with the page numbers. *)
Definition requestable (env : Env) (ocr : OcrResponse) (project : json) : bool :=
  match project with
  | JObj d =>
    (negb (has_callback env) || sliceable (candidate_title 0 d))
    && match clean_pages ocr (page_debut d) (page_fin d) with
       | Some _ => true
       | None => false
       end
  | _ => true
  end.

(** The requests of a world that were made for a candidate. *)
Definition is_project_request (c : ServiceCall) : bool :=
  match c with
  | ChatComplete REXPrompt _ => true
  | _ => false
  end.

Definition project_requests (w : World) : list ServiceCall :=
  List.filter is_project_request (calls w).

(** A computation is silent when it hands nothing to the callback. *)
Definition silent {A} (m : M A) : Prop :=
  forall w, events (snd (m w)) = events w.

(** The event of one guarded call of the callback. *)
Definition callback_events (env : Env) (progress : Q) (status : pystr)
  : list (Q * pystr) :=
  if has_callback env then [(progress, status)] else [].

(** The progress fractions of the candidates from [lo] on: non-decreasing,
    each of them that of a position in [lo, lo + len). *)
Definition loop_progress (n lo len : nat) (qs : list Q) : Prop :=
  StronglySorted Qle qs
  /\ Forall (fun q => exists j, (lo <= j < lo + len)%nat /\ q = current_progress j n) qs.

(** ** Two runs compared

    The environment of a run made without a progress callback, with the
    same services. *)
Definition without_callback (env : Env) : Env :=
  mkEnv false (secret_api_key env) (mistral_client env)
    (files_upload env) (get_signed_url env) (ocr_process env)
    (list_completion env) (project_completion env).

(** A computation hands the callback only events that satisfy [P]. *)
Definition emits {A} (P : Q * pystr -> Prop) (m : M A) : Prop :=
  forall w, exists evs,
    events (snd (m w)) = events w ++ evs /\ Forall P evs.

(** A computation hands the callback events whose progress values never
    decrease and lie between [lo] and [hi]. *)
Definition climbs {A} (lo hi : Q) (m : M A) : Prop :=
  forall w, exists evs,
    events (snd (m w)) = events w ++ evs
    /\ StronglySorted Qle (map fst evs)
    /\ Forall (fun q => (lo <= q <= hi)%Q) (map fst evs).

(** An event whose progress lies between 0 and 1. *)
Definition unit_progress (ev : Q * pystr) : Prop := (0 <= fst ev <= 1)%Q.

(** Two worlds with the same printed lines and the same requests. *)
Definition same_trace (w w' : World) : Prop :=
  stdout w = stdout w' /\ calls w = calls w'.

(** Two computations that, started with the same printed lines and
    requests, end with the same result, printed lines and requests. *)
Definition agree {A} (m m' : M A) : Prop :=
  forall w w', same_trace w w' ->
    fst (m w) = fst (m' w') /\ same_trace (snd (m w)) (snd (m' w')).

(** The candidates of a decoded list answer:
    [project_list_dict.get("Liste", [])], as the loop visits them. *)
Definition listed_candidates (project_list_dict : json) : list json :=
  match project_list_dict with
  | JObj d => py_items (dict_get_default (py "Liste") d (JArr []))
  | _ => []
  end.

(** A candidate whose title, if it has one, can be cut by [[:50]]. *)
Definition sliceable_title (project : json) : bool :=
  match project with
  | JObj d => sliceable (candidate_title 0 d)
  | _ => true
  end.

(** ** The caller: [process_uploaded_file] *)

(** The environment of a run made with a progress callback. *)
Definition with_callback (env : Env) : Env :=
  mkEnv true (secret_api_key env) (mistral_client env)
    (files_upload env) (get_signed_url env) (ocr_process env)
    (list_completion env) (project_completion env).

(** What [process_uploaded_file] puts on the page, in order. *)
Inductive Element : Type :=
| BarValue (value : Q)        (* [st.progress(0)], [progress_bar.progress(value)] *)
| StatusSlot                  (* [st.empty()] *)
| StatusText (text : pystr)   (* [status_text.text(text)] *)
| BarEmpty                    (* [progress_bar.empty()] *)
| StatusEmpty                 (* [status_text.empty()] *)
| Markdown (html : pystr)     (* [st.markdown(html, unsafe_allow_html=True)] *)
| Sleep.                      (* [time.sleep(2)] *)

(** [st.session_state.last_parsed_data]. *)
Record LastParsed : Type := mkLastParsed {
  parsed_filename : pystr;
  parsed_date : pystr;
  parsed_projects : list json
}.

(** How the call ends: it returns, or [st.rerun()] ends the script run. *)
Inductive Ending : Type := Returned | Rerun.

(** [update_progress(progress, status)]. *)
Definition update_progress (ev : Q * pystr) : list Element :=
  [ BarValue (fst ev); StatusText (snd ev) ].

Definition success_message (n : nat) : pystr :=
  div_open "success-message" ++ py "✅ Document traité avec succès - "
  ++ str_of_nat n ++ py " projet(s) extrait(s)</div>".

Definition error_message (e : Exn) : pystr :=
  div_open "error-message" ++ py "❌ Erreur lors du traitement: " ++ str_exn e
  ++ py "</div>".

(** [process_uploaded_file(file, filename)]: [now] is the text of
    [datetime.now().strftime(...)], [session] the stored
    [last_parsed_data], if any. The callback is new in each call: the
    events of the run start empty. *)
Definition process_uploaded_file (env : Env) (now : pystr)
    (session : option LastParsed) (w : World)
  : Ending * option LastParsed * list Element * World :=
  let opened := [ BarValue 0; StatusSlot ] in
  match parse_pdf_document (with_callback env)
          (mkWorld [] (stdout w) (calls w)) with
  | (inl parsed_data, w') =>
    (Rerun,
     Some (mkLastParsed filename now parsed_data),
     opened ++ flat_map update_progress (events w')
     ++ [ BarEmpty; StatusEmpty;
          Markdown (success_message (List.length parsed_data)); Sleep ],
     w')
  | (inr e, w') =>
    (Returned,
     session,
     opened ++ flat_map update_progress (events w')
     ++ [ BarEmpty; StatusEmpty; Markdown (error_message e) ],
     w')
  end.

(** The values given to the progress bar. *)
Definition bar_values (shown : list Element) : list Q :=
  flat_map (fun el => match el with BarValue q => [q] | _ => [] end) shown.


(** ** Strings and dicts *)

Lemma str_eqb_eq a : forall b, str_eqb a b = true <-> a = b.
Proof.
  induction a as [|x a IH]; intros [|y b]; simpl; split; intros H;
    try reflexivity; try discriminate.
  - apply andb_true_iff in H. destruct H as [Hx Hab].
    apply N.eqb_eq in Hx. apply IH in Hab. subst. reflexivity.
  - inversion H; subst. apply andb_true_iff. split.
    + apply N.eqb_refl.
    + apply IH. reflexivity.
Qed.

Lemma str_eqb_refl a : str_eqb a a = true.
Proof. apply str_eqb_eq. reflexivity. Qed.

Lemma str_eqb_neq a b : a <> b -> str_eqb a b = false.
Proof.
  intros H. destruct (str_eqb a b) eqn:E; [|reflexivity].
  apply str_eqb_eq in E. contradiction.
Qed.

Lemma dict_get_set_same k v d : dict_get k (dict_set k v d) = Some v.
Proof.
  induction d as [|[k' v'] d IH]; simpl.
  - rewrite str_eqb_refl. reflexivity.
  - destruct (str_eqb k k') eqn:E; simpl; rewrite E; [reflexivity|exact IH].
Qed.

Lemma dict_get_set_other k k' v d :
  k <> k' -> dict_get k' (dict_set k v d) = dict_get k' d.
Proof.
  intros Hne. induction d as [|[k0 v0] d IH]; simpl.
  - rewrite (str_eqb_neq k' k); [reflexivity|congruence].
  - destruct (str_eqb k k0) eqn:E; simpl.
    + apply str_eqb_eq in E. subst k0.
      rewrite (str_eqb_neq k' k); [reflexivity|congruence].
    + destruct (str_eqb k' k0); [reflexivity|exact IH].
Qed.

(** ** One iteration of the loop *)

(** A candidate whose page test fails: one warning, nothing else. *)
Lemma steps_pages_missing env ocr n idx s e t parsed w :
  negb (truthy s) || negb (truthy e) = true ->
  project_steps env ocr n idx s e t parsed w
  = (inl parsed,
     mkWorld (events w) (stdout w ++ [warning_no_pages t]) (calls w)).
Proof.
  intros H. unfold project_steps. rewrite H. reflexivity.
Qed.

(** A candidate that reaches the request: the progress event, the request,
    and then the decoding of the answer. *)
Lemma steps_reach_decode env ocr n idx s e t t50 payload text parsed w :
  negb (truthy s) || negb (truthy e) = false ->
  (has_callback env = true -> slice50 t = Some t50) ->
  clean_pages ocr s e = Some payload ->
  project_completion env idx payload = inr text ->
  project_steps env ocr n idx s e t parsed w
  = try_except_decode
      (decode_project t s e text parsed)
      (fun msg => print (warning_parse t msg) ;;; ret parsed)
      (mkWorld (events w ++ project_event env n idx t50) (stdout w)
         (calls w ++ [ChatComplete REXPrompt payload])).
Proof.
  intros Hp Hs Hc Ha. unfold project_steps, project_event. rewrite Hp.
  unfold bind at 1.
  destruct (has_callback env) eqn:Hcb.
  - specialize (Hs eq_refl). unfold bind at 1, py_slice50.
    destruct t; simpl in Hs; try discriminate; inversion Hs; subst; simpl;
      unfold run_clean_pages, bind at 1; rewrite Hc; simpl;
      unfold bind at 1, request; simpl;
      unfold bind at 1, lift; rewrite Ha; reflexivity.
  - simpl. rewrite app_nil_r.
    unfold run_clean_pages, bind at 1; rewrite Hc; simpl.
    unfold bind at 1, request; simpl.
    unfold bind at 1, lift; rewrite Ha.
    destruct w; reflexivity.
Qed.

(** The answer does not parse: the warning, and [parsed_data] as it was. *)
Lemma decode_failure t s e text msg parsed w :
  json_loads text = inl msg ->
  try_except_decode
    (decode_project t s e text parsed)
    (fun msg => print (warning_parse t msg) ;;; ret parsed) w
  = (inl parsed,
     mkWorld (events w) (stdout w ++ [warning_parse t msg]) (calls w)).
Proof.
  intros H. unfold try_except_decode, decode_project, bind at 1, loads.
  rewrite H. reflexivity.
Qed.

(** The answer parses to an object: the tagged record is appended. *)
Lemma decode_object t s e text r parsed w :
  json_loads text = inr (JObj r) ->
  try_except_decode
    (decode_project t s e text parsed)
    (fun msg => print (warning_parse t msg) ;;; ret parsed) w
  = (inl (parsed ++ [JObj (tagged t s e r)]),
     mkWorld (events w) (stdout w ++ [message_success t]) (calls w)).
Proof.
  intros H. unfold try_except_decode, decode_project, bind at 1, loads.
  rewrite H. reflexivity.
Qed.

(** The answer parses to something else: the item assignment raises, and
    the [except json.JSONDecodeError] clause lets it through. *)
Lemma decode_not_object t s e text v parsed w :
  json_loads text = inr v ->
  (forall r, v <> JObj r) ->
  try_except_decode
    (decode_project t s e text parsed)
    (fun msg => print (warning_parse t msg) ;;; ret parsed) w
  = (inr (RuntimeFault (NoItemAssignment v)), w).
Proof.
  intros H Hv. unfold try_except_decode, decode_project, bind at 1, loads.
  rewrite H. destruct v; try reflexivity. destruct (Hv fields eq_refl).
Qed.

(** An iteration never raises, and adds exactly the record of its candidate. *)
Lemma iteration_result env ocr n idx project parsed w :
  exists w',
    project_iteration env ocr n idx project parsed w
    = (inl (parsed ++ record_list (project_record env ocr idx project)), w').
Proof.
  unfold project_iteration, try_except, project_body.
  destruct project;
    try (simpl; rewrite app_nil_r; eexists; reflexivity).
  unfold bind at 1, py_get, ret. unfold bind at 1. unfold bind at 1, py_get_default, ret.
  fold (page_debut fields) (page_fin fields) (candidate_title idx fields).
  unfold project_record. fold (pages_missing fields).
  unfold pages_missing.
  destruct (negb (truthy (page_debut fields)) || negb (truthy (page_fin fields))) eqn:Hp.
  - rewrite steps_pages_missing by exact Hp. simpl. rewrite app_nil_r.
    eexists; reflexivity.
  - destruct (has_callback env && negb (sliceable (candidate_title idx fields))) eqn:Hs.
    + apply andb_true_iff in Hs. destruct Hs as [Hcb Hs].
      unfold project_steps. rewrite Hp, Hcb. unfold bind at 1, bind at 1, py_slice50.
      unfold sliceable in Hs.
      destruct (candidate_title idx fields); simpl in Hs; try discriminate;
        simpl; rewrite app_nil_r; eexists; reflexivity.
    + destruct (clean_pages ocr (page_debut fields) (page_fin fields)) as [payload|] eqn:Hc.
      * destruct (project_completion env idx payload) as [ex|text] eqn:Ha.
        -- unfold project_steps. rewrite Hp. unfold bind at 1.
           destruct (has_callback env) eqn:Hcb.
           ++ simpl in Hs. apply negb_false_iff in Hs. unfold sliceable in Hs.
              unfold bind at 1, py_slice50.
              destruct (candidate_title idx fields); simpl in Hs; try discriminate;
                simpl; unfold run_clean_pages, bind at 1; rewrite Hc; simpl;
                unfold bind at 1, request; simpl;
                unfold bind at 1, lift; rewrite Ha; simpl;
                rewrite app_nil_r; eexists; reflexivity.
           ++ simpl. unfold run_clean_pages, bind at 1; rewrite Hc; simpl.
              unfold bind at 1, request; simpl.
              unfold bind at 1, lift; rewrite Ha; simpl.
              rewrite app_nil_r; eexists; reflexivity.
        -- assert (Hsl : has_callback env = true ->
                         slice50 (candidate_title idx fields)
                         = Some (match slice50 (candidate_title idx fields) with
                                 | Some x => x | None => JNull end)).
           { intros Hcb. rewrite Hcb in Hs. simpl in Hs.
             apply negb_false_iff in Hs. unfold sliceable in Hs.
             destruct (slice50 (candidate_title idx fields)); congruence. }
           rewrite (steps_reach_decode _ _ _ _ _ _ _ _ _ _ _ _ Hp Hsl Hc Ha).
           destruct (json_loads text) as [msg|v] eqn:Hl.
           ++ rewrite (decode_failure _ _ _ _ _ _ _ Hl). simpl.
              rewrite app_nil_r; eexists; reflexivity.
           ++ destruct v;
                try (rewrite (decode_not_object _ _ _ _ _ _ _ Hl) by discriminate;
                     simpl; rewrite app_nil_r; eexists; reflexivity).
              rewrite (decode_object _ _ _ _ _ _ _ Hl). simpl.
              eexists; reflexivity.
      * unfold project_steps. rewrite Hp. unfold bind at 1.
        destruct (has_callback env) eqn:Hcb.
        -- simpl in Hs. apply negb_false_iff in Hs. unfold sliceable in Hs.
           unfold bind at 1, py_slice50.
           destruct (candidate_title idx fields); simpl in Hs; try discriminate;
             simpl; unfold run_clean_pages, bind at 1; rewrite Hc; simpl;
             rewrite app_nil_r; eexists; reflexivity.
        -- simpl. unfold run_clean_pages, bind at 1; rewrite Hc; simpl.
           rewrite app_nil_r; eexists; reflexivity.
Qed.

(** The loop never raises, and returns the records of its candidates in
    their order, after those it started with. *)
Lemma loop_result env ocr n projects :
  forall idx parsed w,
  exists w',
    project_loop env ocr n idx projects parsed w
    = (inl (parsed ++ loop_records env ocr idx projects), w').
Proof.
  induction projects as [|project rest IH]; intros idx parsed w; simpl.
  - rewrite app_nil_r. eexists; reflexivity.
  - unfold bind.
    destruct (iteration_result env ocr n idx project parsed w) as [w1 E].
    rewrite E.
    destruct (IH (S idx) (parsed ++ record_list (project_record env ocr idx project)) w1)
      as [w2 E2].
    rewrite E2, <- app_assoc. eexists; reflexivity.
Qed.

(** ** Events *)

Lemma silent_ret {A} (a : A) : silent (ret a).
Proof. intros w; reflexivity. Qed.

Lemma silent_raise {A} (e : Exn) : silent (@raise A e).
Proof. intros w; reflexivity. Qed.

Lemma silent_print line : silent (print line).
Proof. intros w; reflexivity. Qed.

Lemma silent_request c : silent (request c).
Proof. intros w; reflexivity. Qed.

Lemma silent_lift {A} (r : Exn + A) : silent (lift r).
Proof. destruct r; intros w; reflexivity. Qed.

Lemma silent_bind {A B} (m : M A) (k : A -> M B) :
  silent m -> (forall a, silent (k a)) -> silent (bind m k).
Proof.
  intros Hm Hk w. unfold bind. specialize (Hm w).
  destruct (m w) as [[a|e] w1]; simpl in *.
  - rewrite Hk. exact Hm.
  - exact Hm.
Qed.

Lemma silent_try_except {A} (m : M A) (h : Exn -> M A) :
  silent m -> (forall e, silent (h e)) -> silent (try_except m h).
Proof.
  intros Hm Hh w. unfold try_except. specialize (Hm w).
  destruct (m w) as [[a|e] w1]; simpl in *.
  - exact Hm.
  - rewrite Hh. exact Hm.
Qed.

Lemma silent_try_except_decode {A} (m : M A) (h : pystr -> M A) :
  silent m -> (forall msg, silent (h msg)) -> silent (try_except_decode m h).
Proof.
  intros Hm Hh w. unfold try_except_decode. specialize (Hm w).
  destruct (m w) as [[a|e] w1]; simpl in *.
  - exact Hm.
  - destruct e; simpl; try exact Hm. rewrite Hh. exact Hm.
Qed.

Lemma silent_loads text : silent (loads text).
Proof. unfold loads. destruct (json_loads text); intros w; reflexivity. Qed.

Lemma silent_py_setitem v k x : silent (py_setitem v k x).
Proof. destruct v; intros w; reflexivity. Qed.

Lemma silent_py_get v k : silent (py_get v k).
Proof. destruct v; intros w; reflexivity. Qed.

Lemma silent_py_get_default v k x : silent (py_get_default v k x).
Proof. destruct v; intros w; reflexivity. Qed.

Lemma silent_py_slice50 v : silent (py_slice50 v).
Proof. destruct v; intros w; reflexivity. Qed.

Lemma silent_py_len v : silent (py_len v).
Proof. destruct v; intros w; reflexivity. Qed.

Lemma silent_convertible_length n :
  silent (if int_too_large (Z.of_nat n)
          then raise (RuntimeFault (IntTooLarge n)) else ret tt).
Proof.
  destruct (int_too_large (Z.of_nat n)); [apply silent_raise|apply silent_ret].
Qed.

Lemma silent_run_clean_pages ocr s e : silent (run_clean_pages ocr s e).
Proof.
  unfold run_clean_pages. destruct (clean_pages ocr s e); intros w; reflexivity.
Qed.

Lemma silent_decode_project t s e text parsed :
  silent (decode_project t s e text parsed).
Proof.
  unfold decode_project.
  repeat (apply silent_bind; [|intros]);
    auto using silent_loads, silent_py_setitem, silent_print, silent_ret.
Qed.

(** What follows the progress event of an iteration is silent. *)
Lemma silent_after_event env ocr idx s e t parsed :
  silent
    (project_pages <- run_clean_pages ocr s e ;;
     request (ChatComplete REXPrompt project_pages) ;;;
     project_data_json <- lift (project_completion env idx project_pages) ;;
     try_except_decode
       (decode_project t s e project_data_json parsed)
       (fun msg => print (warning_parse t msg) ;;; ret parsed)).
Proof.
  apply silent_bind; [apply silent_run_clean_pages|intros].
  apply silent_bind; [apply silent_request|intros].
  apply silent_bind; [apply silent_lift|intros].
  apply silent_try_except_decode; [apply silent_decode_project|intros].
  apply silent_bind; [apply silent_print|intros; apply silent_ret].
Qed.

(** The steps of an iteration hand the callback at most one event, whose
    progress is [0.5 + idx * progress_per_project]. *)
Lemma steps_events env ocr n idx s e t parsed w :
  exists evs,
    events (snd (project_steps env ocr n idx s e t parsed w)) = events w ++ evs
    /\ (evs = [] \/ exists status, evs = [(current_progress idx n, status)]).
Proof.
  unfold project_steps.
  destruct (negb (truthy s) || negb (truthy e)).
  - exists []. split; [simpl; symmetry; apply app_nil_r | left; reflexivity].
  - destruct (has_callback env).
    + unfold bind at 1. unfold bind at 1.
      destruct (py_slice50 t w) as [[t50|ex] w1] eqn:Hs.
      * assert (w1 = w) by (destruct t; simpl in Hs; inversion Hs; reflexivity).
        subst w1. simpl.
        rewrite (silent_after_event env ocr idx s e t parsed).
        simpl. eexists; split; [reflexivity | right; eexists; reflexivity].
      * assert (w1 = w) by (destruct t; simpl in Hs; inversion Hs; reflexivity).
        subst w1. simpl.
        exists []. split; [symmetry; apply app_nil_r | left; reflexivity].
    + unfold bind at 1. simpl.
      rewrite (silent_after_event env ocr idx s e t parsed).
      exists []. split; [symmetry; apply app_nil_r | left; reflexivity].
Qed.

Lemma iteration_events env ocr n idx project parsed w :
  exists evs,
    events (snd (project_iteration env ocr n idx project parsed w))
    = events w ++ evs
    /\ (evs = [] \/ exists status, evs = [(current_progress idx n, status)]).
Proof.
  unfold project_iteration, try_except.
  assert (Hb : exists evs,
             events (snd (project_body env ocr n idx project parsed w))
             = events w ++ evs
             /\ (evs = [] \/ exists status, evs = [(current_progress idx n, status)])).
  { unfold project_body.
    destruct project;
      try (exists []; split; [simpl; symmetry; apply app_nil_r | left; reflexivity]).
    unfold bind at 1, py_get, ret. unfold bind at 1. unfold bind at 1, py_get_default, ret.
    apply steps_events. }
  destruct (project_body env ocr n idx project parsed w) as [[l|ex] w1]; simpl in *.
  - exact Hb.
  - exact Hb.
Qed.

(** ** Rounding to binary64 *)

Lemma two_pos e : (0 < two e)%Q.
Proof. apply Qpower_0_lt. reflexivity. Qed.

Lemma two_plus a b : (two (a + b) == two a * two b)%Q.
Proof. apply Qpower_plus. discriminate. Qed.

Lemma two_le a b : a <= b -> (two a <= two b)%Q.
Proof. intros H. apply Qpower_le_compat_l; [exact H|discriminate]. Qed.

Lemma two_lt_inv a b : (two a < two b)%Q -> a < b.
Proof.
  intros H. apply (Qpower_lt_compat_l_inv (2 # 1)); [exact H|reflexivity].
Qed.

Lemma two_inject n : 0 <= n -> (two n == inject_Z (2 ^ n))%Q.
Proof.
  intros H. unfold two. rewrite Zpower_Qpower by exact H. reflexivity.
Qed.

Lemma two_succ a : (two (a + 1) == 2 * two a)%Q.
Proof. rewrite two_plus. change (two 1) with (2 # 1)%Q. ring. Qed.

Lemma two_pred a : (two (a - 1) == (1 # 2) * two a)%Q.
Proof.
  assert (H := two_succ (a - 1)).
  replace (a - 1 + 1) with a in H by lia.
  rewrite H. ring.
Qed.

Lemma log2_bounds (a : Z) :
  0 < a -> (two (Z.log2 a) <= inject_Z a < two (Z.log2 a + 1))%Q.
Proof.
  intros Ha. destruct (Z.log2_spec a Ha) as [Hlo Hhi].
  assert (H0 := Z.log2_nonneg a).
  rewrite !two_inject by lia.
  rewrite <- Zle_Qle, <- Zlt_Qlt.
  replace (Z.log2 a + 1) with (Z.succ (Z.log2 a)) by lia.
  split; assumption.
Qed.

(** A quotient of two positive integers lies within one binade of the
    difference of their sizes. *)
Lemma quotient_bounds (a : Z) (b : positive) :
  0 < a ->
  (two (Z.log2 a - Z.log2 (Z.pos b) - 1) <= a # b)%Q
  /\ (a # b < two (Z.log2 a - Z.log2 (Z.pos b) + 1))%Q.
Proof.
  intros Ha.
  destruct (log2_bounds a Ha) as [Hal Hah].
  destruct (log2_bounds (Z.pos b) eq_refl) as [Hbl Hbh].
  assert (Hb : (0 < inject_Z (Z.pos b))%Q) by reflexivity.
  generalize dependent (Z.log2 a). generalize dependent (Z.log2 (Z.pos b)).
  intros lb Hbl Hbh la Hal Hah.
  assert (Hk : (two (la - lb) * two lb == two la)%Q).
  { rewrite <- two_plus. replace (la - lb + lb) with la by lia. reflexivity. }
  assert (Hk1 : (two (la - lb + 1) == 2 * two (la - lb))%Q) by apply two_succ.
  assert (Hk2 : (two (la - lb - 1) == (1 # 2) * two (la - lb))%Q)
    by apply two_pred.
  assert (Hla1 : (two (la + 1) == 2 * two la)%Q) by apply two_succ.
  assert (Hlb1 : (two (lb + 1) == 2 * two lb)%Q) by apply two_succ.
  assert (Hp := two_pos (la - lb)).
  assert (H1 : (two (la - lb) * two lb
                <= two (la - lb) * inject_Z (Z.pos b))%Q)
    by (apply Qmult_le_l; [exact Hp|exact Hbl]).
  assert (H2 : (two (la - lb) * inject_Z (Z.pos b)
                <= two (la - lb) * two (lb + 1))%Q)
    by (apply Qmult_le_l; [exact Hp|apply Qlt_le_weak; exact Hbh]).
  rewrite Hlb1 in H2.
  split; rewrite Qmake_Qdiv.
  - apply Qle_shift_div_l; [exact Hb|]. rewrite Hk2. lra.
  - apply Qlt_shift_div_r; [exact Hb|]. rewrite Hk1. lra.
Qed.

Lemma binade_spec q :
  (0 < q)%Q -> (two (binade q) <= q < two (binade q + 1))%Q.
Proof.
  intros Hq. destruct q as [a b].
  assert (Ha : 0 < a).
  { unfold Qlt in Hq. simpl in Hq. lia. }
  destruct (quotient_bounds a b Ha) as [Hlower Hupper].
  unfold binade. cbn [Qnum Qden].
  generalize dependent (Z.log2 a - Z.log2 (Z.pos b)). intros k Hlower Hupper.
  destruct (Qle_bool (two k) (a # b)) eqn:E.
  - apply Qle_bool_iff in E. split; assumption.
  - assert (Hlt : (a # b < two k)%Q).
    { apply Qnot_le_lt. intros H. apply Qle_bool_iff in H. congruence. }
    replace (k - 1 + 1) with k by lia.
    split; assumption.
Qed.

Lemma binade_mono x y : (0 < x)%Q -> (x <= y)%Q -> binade x <= binade y.
Proof.
  intros Hx Hxy.
  destruct (binade_spec x Hx) as [Hx1 _].
  destruct (binade_spec y) as [_ Hy2]; [lra|].
  assert (H : (two (binade x) < two (binade y + 1))%Q) by lra.
  apply two_lt_inv in H. lia.
Qed.

Lemma nearest_even_cases q :
  nearest_even q = Qfloor q \/ nearest_even q = Qfloor q + 1.
Proof.
  unfold nearest_even.
  destruct (q - inject_Z (Qfloor q) ?= 1 # 2)%Q;
    [destruct (Z.even (Qfloor q))| |]; auto.
Qed.

Lemma nearest_even_mono x y :
  (x <= y)%Q -> nearest_even x <= nearest_even y.
Proof.
  intros Hxy.
  assert (Hf := Qfloor_resp_le x y Hxy).
  destruct (Z.eq_dec (Qfloor x) (Qfloor y)) as [E|N].
  - unfold nearest_even. rewrite <- E.
    destruct (Qcompare_spec (x - inject_Z (Qfloor x)) (1 # 2)) as [Hx|Hx|Hx];
      destruct (Qcompare_spec (y - inject_Z (Qfloor x)) (1 # 2)) as [Hy|Hy|Hy];
      try destruct (Z.even (Qfloor x)); try lia; exfalso; lra.
  - destruct (nearest_even_cases x) as [-> | ->];
      destruct (nearest_even_cases y) as [-> | ->]; lia.
Qed.

Lemma nearest_even_Z n : nearest_even (inject_Z n) = n.
Proof.
  unfold nearest_even. rewrite Qfloor_Z.
  destruct (Qcompare_spec (inject_Z n - inject_Z n) (1 # 2)) as [H|H|H];
    [exfalso; lra|reflexivity|exfalso; lra].
Qed.

Lemma nearest_even_le q n : (q <= inject_Z n)%Q -> nearest_even q <= n.
Proof.
  intros H. rewrite <- (nearest_even_Z n). apply nearest_even_mono. exact H.
Qed.

Lemma nearest_even_ge q n : (inject_Z n <= q)%Q -> n <= nearest_even q.
Proof.
  intros H. rewrite <- (nearest_even_Z n). apply nearest_even_mono. exact H.
Qed.

Lemma nearest_even_close q : (inject_Z (nearest_even q) <= q + (1 # 2))%Q.
Proof.
  unfold nearest_even.
  assert (Hf := Qfloor_le q).
  destruct (Qcompare_spec (q - inject_Z (Qfloor q)) (1 # 2)) as [H|H|H].
  - destruct (Z.even (Qfloor q)); [lra|].
    rewrite inject_Z_plus. change (inject_Z 1) with 1%Q. lra.
  - lra.
  - rewrite inject_Z_plus. change (inject_Z 1) with 1%Q. lra.
Qed.

Lemma round_positive_eq q :
  (round_positive q
   == inject_Z (nearest_even (q / two (last_place q))) * two (last_place q))%Q.
Proof. unfold round_positive. apply Qred_correct. Qed.

Lemma round64_positive q : (0 < q)%Q -> round64 q = round_positive q.
Proof.
  intros H. unfold round64. destruct q as [[|a|a] b]; try reflexivity;
    exfalso; unfold Qlt in H; simpl in H; lia.
Qed.

Lemma round64_zero q : (q == 0)%Q -> round64 q = 0%Q.
Proof.
  intros H. unfold round64. destruct q as [[|a|a] b]; try reflexivity;
    exfalso; unfold Qeq in H; simpl in H; lia.
Qed.

Lemma round_positive_nonneg q : (0 < q)%Q -> (0 <= round_positive q)%Q.
Proof.
  intros H. rewrite round_positive_eq.
  assert (Hp := two_pos (last_place q)).
  assert (0 <= inject_Z (nearest_even (q / two (last_place q))))%Q.
  { change 0%Q with (inject_Z 0). rewrite <- Zle_Qle. apply nearest_even_ge.
    change (inject_Z 0) with 0%Q. apply Qle_shift_div_l; [exact Hp|lra]. }
  nra.
Qed.

Lemma round64_nonneg q : (0 <= q)%Q -> (0 <= round64 q)%Q.
Proof.
  intros H. destruct (Qlt_le_dec 0 q) as [Hp|Hz].
  - rewrite round64_positive by exact Hp. apply round_positive_nonneg. exact Hp.
  - rewrite round64_zero by lra. lra.
Qed.

(** Rounding keeps the order: within one binade the nearest integer does,
    and a number of a lower binade rounds to at most the power of two
    that starts the higher one. *)
Lemma round_positive_mono x y :
  (0 < x)%Q -> (x <= y)%Q -> (round_positive x <= round_positive y)%Q.
Proof.
  intros Hx Hxy. assert (Hy : (0 < y)%Q) by lra.
  rewrite !round_positive_eq.
  assert (Hb := binade_mono x y Hx Hxy).
  destruct (binade_spec x Hx) as [_ Hxu].
  destruct (binade_spec y Hy) as [Hyl _].
  assert (Hpx := two_pos (last_place x)).
  assert (Hpy := two_pos (last_place y)).
  destruct (Z.eq_dec (last_place x) (last_place y)) as [E|N].
  - rewrite E.
    assert (H : nearest_even (x / two (last_place y))
                <= nearest_even (y / two (last_place y))).
    { apply nearest_even_mono. apply Qle_shift_div_l; [exact Hpy|].
      assert (Hd : (x / two (last_place y) * two (last_place y) == x)%Q)
        by (field; lra).
      lra. }
    rewrite Zle_Qle in H. nra.
  - assert (Hlt : last_place x < last_place y)
      by (unfold last_place in *; lia).
    assert (Hey : last_place y = binade y - 52)
      by (unfold last_place in *; lia).
    assert (Hex : binade x - 52 <= last_place x) by (unfold last_place; lia).
    assert (H1 : nearest_even (x / two (last_place x)) <= 2 ^ 53).
    { apply nearest_even_le. rewrite <- two_inject by lia.
      apply Qle_shift_div_r; [exact Hpx|]. rewrite <- two_plus.
      assert (two (binade x + 1) <= two (53 + last_place x))%Q
        by (apply two_le; lia).
      lra. }
    assert (H2 : 2 ^ 52 <= nearest_even (y / two (last_place y))).
    { apply nearest_even_ge. rewrite <- two_inject by lia.
      apply Qle_shift_div_l; [exact Hpy|]. rewrite <- two_plus.
      assert (two (52 + last_place y) <= two (binade y))%Q
        by (apply two_le; lia).
      lra. }
    rewrite Zle_Qle in H1, H2. rewrite <- !two_inject in * by lia.
    assert (H3 : (two 53 * two (last_place x)
                  <= two 52 * two (last_place y))%Q).
    { rewrite <- !two_plus. apply two_le. lia. }
    assert (0 < two 53)%Q by apply two_pos.
    assert (0 < two 52)%Q by apply two_pos.
    nra.
Qed.

Lemma round64_mono x y : (0 <= x)%Q -> (x <= y)%Q -> (round64 x <= round64 y)%Q.
Proof.
  intros Hx Hxy. destruct (Qlt_le_dec 0 x) as [Hp|Hz].
  - rewrite !round64_positive by lra. apply round_positive_mono; assumption.
  - rewrite (round64_zero x) by lra. apply round64_nonneg. lra.
Qed.

(** Rounding adds at most half a unit of the last place: a relative error
    of [2^-53], or [2^-1075] among the subnormal numbers. *)
Lemma round64_close q :
  (0 < q)%Q -> (round64 q <= q + q * two (-53) + two (-1075))%Q.
Proof.
  intros Hq. rewrite round64_positive by exact Hq. rewrite round_positive_eq.
  set (e := last_place q).
  assert (Hp := two_pos e).
  assert (Hc := nearest_even_close (q / two e)).
  assert (He : (two e <= q * two (-52) + two (-1074))%Q).
  { destruct (binade_spec q Hq) as [Hl _].
    assert (H52 := two_pos (-52)). assert (H1074 := two_pos (-1074)).
    unfold e, last_place.
    destruct (Z.max_spec (binade q - 52) (-1074)) as [[_ ->]|[_ ->]].
    - nra.
    - replace (binade q - 52) with (binade q + -52) by lia.
      rewrite two_plus. nra. }
  assert (H53 : (two (-52) == 2 * two (-53))%Q) by (vm_compute; reflexivity).
  assert (H1075 : (two (-1074) == 2 * two (-1075))%Q)
    by (vm_compute; reflexivity).
  assert (Hn : (inject_Z (nearest_even (q / two e)) * two e
                <= (q / two e + (1 # 2)) * two e)%Q) by nra.
  assert (Hm : ((q / two e + (1 # 2)) * two e == q + (1 # 2) * two e)%Q)
    by (field; lra).
  assert (Hq53 : (q * two (-52) == 2 * (q * two (-53)))%Q)
    by (rewrite H53; ring).
  clearbody e. lra.
Qed.

Lemma float_of_int_nonneg z : 0 <= z -> (0 <= float_of_int z)%Q.
Proof.
  intros H. apply round64_nonneg. change 0%Q with (inject_Z 0).
  rewrite <- Zle_Qle. exact H.
Qed.

Lemma float_of_int_mono a b :
  0 <= a <= b -> (float_of_int a <= float_of_int b)%Q.
Proof.
  intros [Ha Hab]. apply round64_mono.
  - change 0%Q with (inject_Z 0). rewrite <- Zle_Qle. exact Ha.
  - rewrite <- Zle_Qle. exact Hab.
Qed.

Lemma float_of_int_positive z : 1 <= z -> (1 <= float_of_int z)%Q.
Proof.
  intros H. change 1%Q with (float_of_int 1) at 1.
  apply float_of_int_mono. lia.
Qed.

Lemma int_too_large_false z :
  0 <= z -> int_too_large z = false -> (float_of_int z < two 1024)%Q.
Proof.
  intros Hz H. unfold int_too_large in H.
  apply Qnot_le_lt. intros Hle.
  assert (Ha : (Qabs (float_of_int z) == float_of_int z)%Q).
  { apply Qabs_pos. apply float_of_int_nonneg. exact Hz. }
  rewrite <- Ha in Hle. apply Qle_bool_iff in Hle. congruence.
Qed.

(** ** The progress fractions of the loop *)

Lemma progress_per_project_nonneg n : (0 <= progress_per_project n)%Q.
Proof.
  unfold progress_per_project. destruct n as [|n']; [discriminate|].
  apply round64_nonneg. apply Qle_shift_div_l.
  - assert (H : (1 <= float_of_int (Z.of_nat (S n')))%Q)
      by (apply float_of_int_positive; lia).
    lra.
  - rewrite Qmult_0_l. vm_compute. discriminate.
Qed.

Lemma product_nonneg idx n :
  (0 <= float_of_int (Z.of_nat idx) * progress_per_project n)%Q.
Proof.
  apply Qmult_le_0_compat.
  - apply float_of_int_nonneg. lia.
  - apply progress_per_project_nonneg.
Qed.

Lemma current_progress_mono n j k :
  (j <= k)%nat -> (current_progress j n <= current_progress k n)%Q.
Proof.
  intros H. unfold current_progress.
  assert (Hj := product_nonneg j n).
  assert (Hp := progress_per_project_nonneg n).
  assert (Hjk : (float_of_int (Z.of_nat j) <= float_of_int (Z.of_nat k))%Q)
    by (apply float_of_int_mono; lia).
  assert (Hr : (round64 (float_of_int (Z.of_nat j) * progress_per_project n)
                <= round64 (float_of_int (Z.of_nat k) * progress_per_project n))%Q).
  { apply round64_mono; [exact Hj|]. apply Qmult_le_compat_r; assumption. }
  assert (H0 := round64_nonneg _ Hj).
  assert (H5 : (0 <= round64 (5 # 10))%Q) by (vm_compute; discriminate).
  apply round64_mono; lra.
Qed.

Lemma current_progress_lower n j :
  (round64 (5 # 10) <= current_progress j n)%Q.
Proof.
  unfold current_progress.
  assert (H0 := round64_nonneg _ (product_nonneg j n)).
  assert (H5 : (round64 (5 # 10) == 1 # 2)%Q) by (vm_compute; reflexivity).
  assert (H : (round64 (1 # 2)
               <= round64
                    (round64 (5 # 10)
                     + round64 (float_of_int (Z.of_nat j)
                                * progress_per_project n)))%Q).
  { apply round64_mono; lra. }
  change (round64 (1 # 2)) with (round64 (5 # 10)) in H. exact H.
Qed.

(** Before it is rounded, the product [idx * progress_per_project] is at
    most one half: the quotient is [0.4 / n] up to its rounding, and [idx]
    converts to at most what [n] converts to. *)
Lemma progress_bound n j :
  (j < n)%nat -> int_too_large (Z.of_nat n) = false ->
  (float_of_int (Z.of_nat j) * progress_per_project n <= 1 # 2)%Q.
Proof.
  intros Hj Hfin.
  destruct n as [|n']; [lia|].
  unfold progress_per_project.
  set (N := float_of_int (Z.of_nat (S n'))).
  set (J := float_of_int (Z.of_nat j)).
  set (c := round64 (4 # 10)).
  assert (HN1 : (1 <= N)%Q) by (apply float_of_int_positive; lia).
  assert (HN2 : (N < two 1024)%Q)
    by (apply int_too_large_false; [lia|exact Hfin]).
  assert (HJ0 : (0 <= J)%Q) by (apply float_of_int_nonneg; lia).
  assert (HJN : (J <= N)%Q) by (apply float_of_int_mono; lia).
  assert (Hc : (0 < c)%Q) by (vm_compute; reflexivity).
  assert (Hx : (0 < c / N)%Q) by (apply Qlt_shift_div_l; lra).
  assert (Hclose := round64_close (c / N) Hx).
  assert (Hpp := round64_nonneg (c / N) (Qlt_le_weak _ _ Hx)).
  assert (H1075 := two_pos (-1075)).
  assert (Hsmall : (N * two (-1075) <= two 1024 * two (-1075))%Q)
    by (apply Qmult_le_compat_r; lra).
  assert (Hnum : (c + c * two (-53) + two 1024 * two (-1075) <= 1 # 2)%Q)
    by (vm_compute; discriminate).
  assert (HNpp : (N * round64 (c / N)
                  <= N * (c / N + c / N * two (-53) + two (-1075)))%Q)
    by (apply Qmult_le_l; lra).
  assert (Hexp : (N * (c / N + c / N * two (-53) + two (-1075))
                  == c + c * two (-53) + N * two (-1075))%Q) by (field; lra).
  assert (HJpp : (J * round64 (c / N) <= N * round64 (c / N))%Q)
    by (apply Qmult_le_compat_r; assumption).
  clearbody N J c. lra.
Qed.

Lemma current_progress_upper n j :
  (j < n)%nat -> int_too_large (Z.of_nat n) = false ->
  (current_progress j n <= 1)%Q.
Proof.
  intros Hj Hfin. unfold current_progress.
  assert (Hp := product_nonneg j n).
  assert (Hb := progress_bound n j Hj Hfin).
  assert (Hr : (round64 (float_of_int (Z.of_nat j) * progress_per_project n)
                <= round64 (1 # 2))%Q) by (apply round64_mono; assumption).
  assert (H0 := round64_nonneg _ Hp).
  assert (H5 : (round64 (5 # 10) == 1 # 2)%Q) by (vm_compute; reflexivity).
  assert (H2 : (round64 (1 # 2) == 1 # 2)%Q) by (vm_compute; reflexivity).
  assert (H : (round64
                 (round64 (5 # 10)
                  + round64 (float_of_int (Z.of_nat j) * progress_per_project n))
               <= round64 1)%Q) by (apply round64_mono; lra).
  exact H.
Qed.

(** The rounding above is that of the hardware: the literals of the run
    are the binary64 values of the processor, for every list of up to
    sixty candidates so are the fractions [0.5 + idx * (0.4 / n)], and so
    are the conversion of a long length and a quotient among the subnormal
    numbers. *)
Lemma current_progress_is_hardware_value :
  [ round64 (1 # 10); round64 (2 # 10); round64 (3 # 10); round64 (4 # 10);
    round64 (5 # 10); 1%Q ]
  = hardware_literals
  /\ forallb
       (fun n =>
          forallb
            (fun idx =>
               Qeq_bool (current_progress idx n) (hardware_progress idx n))
            (seq 0 n))
       (seq 1 60)
     = true
  /\ map float_of_int long_lengths
     = map (fun z => Q_of_float (hardware_float_of_int z)) long_lengths
  /\ round64 (round64 (round64 (4 # 10) / two 1023) / two 50)
     = hardware_tiny_quotient.
Proof. repeat split; vm_compute; reflexivity. Qed.

Lemma loop_events env ocr n projects :
  forall idx parsed w,
  exists evs,
    events (snd (project_loop env ocr n idx projects parsed w)) = events w ++ evs
    /\ loop_progress n idx (List.length projects) (map fst evs).
Proof.
  induction projects as [|project rest IH]; intros idx parsed w; simpl.
  - exists []. split; [symmetry; apply app_nil_r|].
    split; constructor.
  - unfold bind.
    destruct (iteration_result env ocr n idx project parsed w) as [w1 E].
    destruct (iteration_events env ocr n idx project parsed w) as [e1 [He1 Hshape]].
    rewrite E in *. simpl in He1.
    destruct (IH (S idx) (parsed ++ record_list (project_record env ocr idx project)) w1)
      as [e2 [He2 [Hsorted Hrange]]].
    exists (e1 ++ e2). split.
    + rewrite He2, He1, app_assoc. reflexivity.
    + assert (Hrange' :
                Forall (fun q => exists j,
                            (idx <= j < idx + S (List.length rest))%nat
                            /\ q = current_progress j n) (map fst e2)).
      { eapply Forall_impl; [|exact Hrange].
        intros q [j [Hj Hq]]. exists j. split; [lia|exact Hq]. }
      destruct Hshape as [->|[status ->]]; simpl.
      * split; assumption.
      * split.
        -- constructor; [exact Hsorted|].
           eapply Forall_impl; [|exact Hrange].
           intros q [j [Hj ->]]. apply current_progress_mono. lia.
        -- constructor; [|exact Hrange'].
           exists idx. split; [lia|reflexivity].
Qed.

(** ** The stages of a run *)

Lemma bind_inl {A B} (m : M A) (k : A -> M B) w b w' :
  bind m k w = (inl b, w') ->
  exists a w1, m w = (inl a, w1) /\ k a w1 = (inl b, w').
Proof.
  unfold bind. destruct (m w) as [[a|e] w1]; intros H.
  - exists a, w1. split; [reflexivity|exact H].
  - discriminate.
Qed.

Lemma lift_inl {A} (r : Exn + A) w a w1 :
  lift r w = (inl a, w1) -> r = inr a /\ w1 = w.
Proof.
  destruct r; simpl; intros H; inversion H; subst. split; reflexivity.
Qed.

Lemma progress_callback_run env q status w :
  exists w1,
    progress_callback env q status w = (inl tt, w1)
    /\ events w1 = events w ++ callback_events env q status
    /\ stdout w1 = stdout w /\ calls w1 = calls w.
Proof.
  unfold progress_callback, callback_events.
  destruct (has_callback env).
  - eexists; split; [reflexivity|]. simpl. auto.
  - exists w. simpl. rewrite app_nil_r. auto.
Qed.

Lemma py_len_inl v w n w1 :
  py_len v w = (inl n, w1) -> n = List.length (py_items v) /\ w1 = w.
Proof.
  destruct v; simpl; intros H; inversion H; subst;
    rewrite ?length_map; split; reflexivity.
Qed.

(** The conversion of the length to a [float] lets only a length of the
    range of binary64 through. *)
Lemma convertible_length_inl {A} n (k : M A) w r w1 :
  ((if int_too_large (Z.of_nat n) then raise (RuntimeFault (IntTooLarge n))
    else ret tt) ;;; k) w = (inl r, w1) ->
  int_too_large (Z.of_nat n) = false /\ k w = (inl r, w1).
Proof.
  unfold bind. destruct (int_too_large (Z.of_nat n)); simpl; intros H.
  - discriminate.
  - split; [reflexivity|exact H].
Qed.

(** A successful OCR stage: the first two events, and no request for a
    candidate. *)
Lemma ocr_stage_inl env w ocr w1 :
  ocr_stage env w = (inl ocr, w1) ->
  events w1
  = events w
    ++ callback_events env (round64 (1 # 10)) (py "Upload du fichier vers Mistral...")
    ++ callback_events env (round64 (2 # 10)) (py "Traitement OCR du document...")
  /\ project_requests w1 = project_requests w.
Proof.
  unfold ocr_stage. intros H.
  apply bind_inl in H. destruct H as (api_key & wa & Ha & H).
  apply lift_inl in Ha. destruct Ha as [_ ->].
  apply bind_inl in H. destruct H as (u1 & wb & Hb & H).
  assert (wb = w) by (destruct api_key; inversion Hb; reflexivity). subst wb.
  apply bind_inl in H. destruct H as (u2 & wc & Hc & H).
  apply lift_inl in Hc. destruct Hc as [_ ->].
  apply bind_inl in H. destruct H as (u3 & wd & Hd & H).
  destruct (progress_callback_run env (round64 (1 # 10))
              (py "Upload du fichier vers Mistral...") w)
    as (wd' & Ed & Hev1 & Hout1 & Hcalls1).
  rewrite Ed in Hd. inversion Hd; subst wd' u3. clear Hd Ed.
  apply bind_inl in H. destruct H as (u4 & we & He & H).
  inversion He; subst we u4. clear He.
  apply bind_inl in H. destruct H as (file_id & wf & Hf & H).
  apply lift_inl in Hf. destruct Hf as [_ ->].
  apply bind_inl in H. destruct H as (u5 & wg & Hg & H).
  inversion Hg; subst wg u5. clear Hg.
  apply bind_inl in H. destruct H as (url & wh & Hh & H).
  apply lift_inl in Hh. destruct Hh as [_ ->].
  apply bind_inl in H. destruct H as (u6 & wi & Hi & H).
  match type of Hi with
  | progress_callback _ _ _ ?w0 = _ =>
    destruct (progress_callback_run env (round64 (2 # 10))
                (py "Traitement OCR du document...") w0)
      as (wi' & Ei & Hev2 & Hout2 & Hcalls2)
  end.
  rewrite Ei in Hi. inversion Hi; subst wi' u6. clear Hi Ei.
  apply bind_inl in H. destruct H as (u7 & wj & Hj & H).
  inversion Hj; subst wj u7. clear Hj.
  apply lift_inl in H. destruct H as [_ ->].
  simpl in *. split.
  - rewrite Hev2, Hev1, <- app_assoc. reflexivity.
  - unfold project_requests. simpl. rewrite Hcalls2. simpl. rewrite Hcalls1.
    rewrite !filter_app. simpl. rewrite !app_nil_r. reflexivity.
Qed.

(** A successful list stage: the next two events. *)
Lemma list_stage_inl env ocr w projects w1 :
  list_stage env ocr w = (inl projects, w1) ->
  events w1
  = events w
    ++ callback_events env (round64 (3 # 10)) (py "Extraction de la liste de projets...")
    ++ callback_events env (round64 (4 # 10)) (py "Vérification des projets...").
Proof.
  unfold list_stage. intros H.
  apply bind_inl in H. destruct H as (u1 & wa & Ha & H).
  destruct (progress_callback_run env (round64 (3 # 10))
              (py "Extraction de la liste de projets...") w)
    as (wa' & Ea & Hev1 & _ & _).
  rewrite Ea in Ha. inversion Ha; subst wa' u1. clear Ha Ea.
  apply bind_inl in H. destruct H as (u2 & wb & Hb & H).
  inversion Hb; subst wb u2. clear Hb.
  apply bind_inl in H. destruct H as (text & wc & Hc & H).
  apply lift_inl in Hc. destruct Hc as [_ ->].
  apply bind_inl in H. destruct H as (u3 & wd & Hd & H).
  inversion Hd; subst wd u3. clear Hd.
  apply bind_inl in H. destruct H as (u4 & we & He & H).
  match type of He with
  | progress_callback _ _ _ ?w0 = _ =>
    destruct (progress_callback_run env (round64 (4 # 10))
                (py "Vérification des projets...") w0)
      as (we' & Ee & Hev2 & _ & _)
  end.
  rewrite Ee in He. inversion He; subst we' u4. clear He Ee.
  apply bind_inl in H. destruct H as (d & wf & Hf & H).
  assert (Hwf : events wf = events we).
  { pose proof (silent_try_except_decode (loads text)
      (fun msg => raise (Exception
         (py "Erreur lors du parsing de la liste de projets: " ++ msg)))
      (silent_loads text) (fun msg => silent_raise _) we) as Hs.
    unfold loads_project_list in Hf. rewrite Hf in Hs. exact Hs. }
  apply bind_inl in H. destruct H as (ps & wg & Hg & H).
  pose proof (silent_py_get_default d (py "Liste") (JArr []) wf) as Hwg.
  rewrite Hg in Hwg. simpl in Hwg.
  apply bind_inl in H. destruct H as (u5 & wh & Hh & H).
  assert (wh = wg) by (destruct (truthy ps); inversion Hh; reflexivity). subst wh.
  inversion H; subst. simpl in *.
  rewrite Hwg, Hwf, Hev2. simpl. rewrite Hev1, <- app_assoc. reflexivity.
Qed.

(** The extraction stage: the event of the count, then those of the loop. *)
Lemma extraction_stage_inl env ocr projects w parsed w1 :
  extraction_stage env ocr projects w = (inl parsed, w1) ->
  exists status evs,
    events w1 = events w ++ callback_events env (round64 (5 # 10)) status ++ evs
    /\ loop_progress (List.length (py_items projects)) 0
         (List.length (py_items projects)) (map fst evs)
    /\ int_too_large (Z.of_nat (List.length (py_items projects))) = false.
Proof.
  unfold extraction_stage. intros H.
  apply bind_inl in H. destruct H as (n & wa & Ha & H).
  apply py_len_inl in Ha. destruct Ha as [-> ->].
  apply bind_inl in H. destruct H as (u1 & wb & Hb & H).
  match type of Hb with
  | progress_callback _ _ ?st _ = _ =>
    destruct (progress_callback_run env (round64 (5 # 10)) st w)
      as (wb' & Eb & Hev1 & _ & _); exists st
  end.
  rewrite Eb in Hb. inversion Hb; subst wb' u1. clear Hb Eb.
  apply convertible_length_inl in H. destruct H as [Hfin H].
  destruct (loop_events env ocr (List.length (py_items projects))
              (py_items projects) 0%nat [] wb) as (evs & Hev & Hprog).
  rewrite H in Hev. simpl in Hev.
  exists evs. split; [|split; [exact Hprog|exact Hfin]].
  rewrite Hev, Hev1, <- app_assoc. reflexivity.
Qed.

(** The end of a run: it fails on an empty [parsed_data], and otherwise
    hands the callback the last event and returns the list. *)
Lemma finish_empty env w :
  finish env [] w
  = (inr (Exception (py "Aucun projet n'a pu être analysé avec succès")), w).
Proof. reflexivity. Qed.

Lemma finish_nonempty env parsed w :
  parsed <> [] -> exists w1, finish env parsed w = (inl parsed, w1).
Proof.
  intros Hne. unfold finish.
  destruct parsed as [|r rest]; [contradiction|].
  unfold bind at 1. unfold ret at 1. cbv beta iota.
  unfold bind at 1.
  match goal with
  | |- context [progress_callback env 1 ?st w] =>
    destruct (progress_callback_run env 1 st w) as (w4 & E & _)
  end.
  rewrite E. eexists. reflexivity.
Qed.

Lemma finish_inl env parsed w recs w1 :
  finish env parsed w = (inl recs, w1) ->
  recs = parsed /\ parsed <> []
  /\ exists status, events w1 = events w ++ callback_events env 1 status.
Proof.
  unfold finish. intros H.
  destruct parsed as [|r rest]; [discriminate|].
  apply bind_inl in H. destruct H as (u1 & wa & Ha & H).
  inversion Ha; subst wa u1. clear Ha.
  apply bind_inl in H. destruct H as (u2 & wb & Hb & H).
  match type of Hb with
  | progress_callback _ _ ?st _ = _ =>
    destruct (progress_callback_run env 1 st w)
      as (wb' & Eb & Hev1 & _ & _)
  end.
  rewrite Eb in Hb. inversion Hb; subst wb' u2. clear Hb Eb.
  inversion H; subst. split; [reflexivity|]. split; [discriminate|].
  eexists. exact Hev1.
Qed.

(** A run succeeds exactly when the body of its [try] does. *)
Lemma run_inl env w recs :
  fst (parse_pdf_document env w) = inl recs ->
  parse_pdf_document env w = pipeline_body env w.
Proof.
  unfold parse_pdf_document, try_except.
  destruct (pipeline_body env w) as [[l|e] w1]; [reflexivity|].
  unfold bind.
  destruct (progress_callback_run env 0 (py "Erreur: " ++ str_exn e) w1)
    as (w2 & E & _). rewrite E. simpl. discriminate.
Qed.

(** ** The progress events of a run *)

Lemma sorted_app (l1 l2 : list Q) :
  StronglySorted Qle l1 -> StronglySorted Qle l2 ->
  (forall x y, In x l1 -> In y l2 -> (x <= y)%Q) ->
  StronglySorted Qle (l1 ++ l2).
Proof.
  induction l1 as [|a l1 IH]; intros H1 H2 H; simpl; [exact H2|].
  inversion H1; subst. constructor.
  - apply IH; auto. intros x y Hx Hy. apply H; [right; exact Hx|exact Hy].
  - apply Forall_app. split; [assumption|].
    apply Forall_forall. intros y Hy. apply H; [left; reflexivity|exact Hy].
Qed.

Lemma loop_progress_bounds n qs :
  int_too_large (Z.of_nat n) = false ->
  loop_progress n 0 n qs ->
  Forall (fun q => (round64 (5 # 10) <= q <= 1)%Q) qs.
Proof.
  intros Hfin [_ H]. eapply Forall_impl; [|exact H].
  intros q [j [Hj ->]]. split.
  - apply current_progress_lower.
  - apply current_progress_upper; [lia|exact Hfin].
Qed.

Lemma callback_events_progress env q status :
  map fst (callback_events env q status) = if has_callback env then [q] else [].
Proof. unfold callback_events. destruct (has_callback env); reflexivity. Qed.

(** C7. For every successful run, the progress values handed to the
    callback, as the binary64 numbers the code computes, are non-decreasing
    and lie in [0, 1], and with a callback the last event carries exactly
    1. *)
Theorem progress_nondecreasing_on_success env w recs :
  fst (parse_pdf_document env w) = inl recs ->
  exists evs,
    events (snd (parse_pdf_document env w)) = events w ++ evs
    /\ StronglySorted Qle (map fst evs)
    /\ Forall (fun q => (0 <= q <= 1)%Q) (map fst evs)
    /\ (has_callback env = true ->
        exists before status, evs = before ++ [(1%Q, status)]).
Proof.
  intros Hok. pose proof (run_inl _ _ _ Hok) as Hrun.
  rewrite Hrun in Hok |- *. clear Hrun.
  destruct (pipeline_body env w) as [[l|e] w4] eqn:Hbody;
    [|simpl in Hok; discriminate].
  simpl in Hok. inversion Hok; subst l. clear Hok. simpl.
  unfold pipeline_body in Hbody.
  apply bind_inl in Hbody. destruct Hbody as (ocr & w1 & Hocr & Hbody).
  apply bind_inl in Hbody. destruct Hbody as (projects & w2 & Hlist & Hbody).
  apply bind_inl in Hbody. destruct Hbody as (parsed & w3 & Hext & Hfin).
  apply ocr_stage_inl in Hocr. destruct Hocr as [Hev1 _].
  apply list_stage_inl in Hlist.
  apply extraction_stage_inl in Hext.
  destruct Hext as (st5 & loop_evs & Hev3 & Hloop & Hsize).
  apply finish_inl in Hfin. destruct Hfin as (_ & _ & st1 & Hev4).
  pose proof (loop_progress_bounds _ _ Hsize Hloop) as Hbounds.
  destruct Hloop as [Hsorted _].
  eexists. split.
  { rewrite Hev4, Hev3, Hlist, Hev1. rewrite <- !app_assoc. reflexivity. }
  rewrite !map_app, !callback_events_progress.
  unfold callback_events.
  assert (Hlast : StronglySorted Qle (map fst loop_evs ++ [1%Q])).
  { apply sorted_app; [exact Hsorted|repeat constructor|].
    intros x y Hx [<-|[]].
    rewrite Forall_forall in Hbounds. destruct (Hbounds x Hx) as [_ Hu].
    exact Hu. }
  assert (Hge : forall q, (q <= round64 (5 # 10))%Q ->
                          Forall (Qle q) (map fst loop_evs ++ [1%Q])).
  { intros q Hq. apply Forall_app. split.
    - eapply Forall_impl; [|exact Hbounds]. intros x [Hl _].
      eapply Qle_trans; [exact Hq|exact Hl].
    - constructor; [|constructor].
      eapply Qle_trans; [exact Hq|]. vm_compute. discriminate. }
  assert (Hin : Forall (fun q => (0 <= q <= 1)%Q) (map fst loop_evs)).
  { eapply Forall_impl; [|exact Hbounds]. intros x [Hl Hu]. split.
    - eapply Qle_trans; [|exact Hl]. vm_compute. discriminate.
    - exact Hu. }
  destruct (has_callback env).
  - split; [|split].
    + change (StronglySorted Qle
                ([round64 (1 # 10); round64 (2 # 10); round64 (3 # 10);
                  round64 (4 # 10); round64 (5 # 10)]
                 ++ (map fst loop_evs ++ [1%Q]))).
      apply sorted_app; [|exact Hlast|].
      * repeat (constructor;
                [|repeat (constructor; [vm_compute; discriminate|])]);
          constructor.
      * intros x y Hx Hy.
        assert (Hx5 : (x <= round64 (5 # 10))%Q).
        { cbn [In] in Hx.
          repeat (destruct Hx as [<-|Hx]; [vm_compute; discriminate|]).
          destruct Hx. }
        pose proof (Hge x Hx5) as Hall. rewrite Forall_forall in Hall.
        apply Hall. exact Hy.
    + change (Forall (fun q => (0 <= q <= 1)%Q)
                ([round64 (1 # 10); round64 (2 # 10); round64 (3 # 10);
                  round64 (4 # 10); round64 (5 # 10)]
                 ++ (map fst loop_evs ++ [1%Q]))).
      apply Forall_app. split.
      * repeat (constructor; [split; vm_compute; discriminate|]). constructor.
      * apply Forall_app. split; [exact Hin|].
        constructor; [split; discriminate|constructor].
    + intros _. eexists (_ :: _ :: _ :: _ :: _ :: loop_evs), st1.
      reflexivity.
  - simpl. rewrite app_nil_r. split; [exact Hsorted|]. split; [exact Hin|].
    intros Hf; discriminate.
Qed.

(** ** Failure of a run *)

(** C3, as the code has it. For every run that fails, the event handed to
    the callback on failure carries the progress value 0 and the message
    [Erreur: ] followed by the message of the triggering error; the run
    raises an [Exception] with that same message after its own prefix. *)
Theorem failed_event_carries_zero env w e :
  fst (parse_pdf_document env w) = inr e ->
  exists e0 wb,
    pipeline_body env w = (inr e0, wb)
    /\ e = Exception (py "Erreur lors du traitement OCR: " ++ str_exn e0)
    /\ events (snd (parse_pdf_document env w))
       = events wb ++ callback_events env 0 (py "Erreur: " ++ str_exn e0)
    /\ stdout (snd (parse_pdf_document env w)) = stdout wb
    /\ calls (snd (parse_pdf_document env w)) = calls wb.
Proof.
  unfold parse_pdf_document, try_except.
  destruct (pipeline_body env w) as [[l|e0] wb]; [discriminate|].
  unfold bind.
  destruct (progress_callback_run env 0 (py "Erreur: " ++ str_exn e0) wb)
    as (w2 & E & Hev & Hout & Hcalls).
  rewrite E. simpl. intros H. inversion H; subst e.
  exists e0, wb. auto.
Qed.

(** A run whose body raises [e0] raises the wrapped exception. *)
Lemma run_of_failed_body env w e0 wb :
  pipeline_body env w = (inr e0, wb) ->
  fst (parse_pdf_document env w)
  = inr (Exception (py "Erreur lors du traitement OCR: " ++ str_exn e0))
  /\ calls (snd (parse_pdf_document env w)) = calls wb.
Proof.
  intros H. unfold parse_pdf_document, try_except. rewrite H.
  unfold bind.
  destruct (progress_callback_run env 0 (py "Erreur: " ++ str_exn e0) wb)
    as (w2 & E & Hev & Hout & Hcalls).
  rewrite E. simpl. auto.
Qed.

(** C5. A run succeeds only with at least one record; when the stages
    before it succeed and the loop leaves [parsed_data] empty, the run
    fails with the message of the empty result, and when the loop leaves
    records the run returns them. *)
Theorem no_record_fails_run env w :
  (forall recs, fst (parse_pdf_document env w) = inl recs -> recs <> [])
  /\ (forall ocr w1 projects w2 parsed w3,
        ocr_stage env w = (inl ocr, w1) ->
        list_stage env ocr w1 = (inl projects, w2) ->
        extraction_stage env ocr projects w2 = (inl parsed, w3) ->
        (parsed = [] ->
         fst (parse_pdf_document env w)
         = inr (Exception
                  (py "Erreur lors du traitement OCR: "
                   ++ py "Aucun projet n'a pu être analysé avec succès")))
        /\ (parsed <> [] -> fst (parse_pdf_document env w) = inl parsed)).
Proof.
  split.
  - intros recs Hok. pose proof (run_inl _ _ _ Hok) as Hrun.
    rewrite Hrun in Hok.
    destruct (pipeline_body env w) as [[l|e] w4] eqn:Hbody;
      [|simpl in Hok; discriminate].
    simpl in Hok. inversion Hok; subst l. clear Hok.
    unfold pipeline_body in Hbody.
    apply bind_inl in Hbody. destruct Hbody as (ocr & w1 & _ & Hbody).
    apply bind_inl in Hbody. destruct Hbody as (projects & w2 & _ & Hbody).
    apply bind_inl in Hbody. destruct Hbody as (parsed & w3 & _ & Hfin).
    apply finish_inl in Hfin. destruct Hfin as (-> & Hne & _). exact Hne.
  - intros ocr w1 projects w2 parsed w3 Hocr Hlist Hext.
    assert (Hbody : pipeline_body env w = finish env parsed w3).
    { unfold pipeline_body, bind. rewrite Hocr, Hlist, Hext. reflexivity. }
    split.
    + intros ->. rewrite finish_empty in Hbody.
      destruct (run_of_failed_body env w _ _ Hbody) as [Hres _].
      unfold str_exn in Hres. exact Hres.
    + intros Hne.
      destruct (finish_nonempty env parsed w3 Hne) as [w4 E].
      unfold parse_pdf_document, try_except. rewrite Hbody, E. reflexivity.
Qed.

(** C6. When the answer of the list extraction is not valid JSON, the run
    fails with the message of the list stage, and the only chat request it
    has made is that of the list: no request for a candidate is added. *)
Theorem list_parse_failure_stops_run env w ocr w1 text msg :
  ocr_stage env w = (inl ocr, w1) ->
  list_completion env (clean_document ocr) = inr text ->
  json_loads text = inl msg ->
  fst (parse_pdf_document env w)
  = inr (Exception
           (py "Erreur lors du traitement OCR: "
            ++ py "Erreur lors du parsing de la liste de projets: " ++ msg))
  /\ calls (snd (parse_pdf_document env w))
     = calls w1 ++ [ChatComplete listPrompt (clean_document ocr)]
  /\ project_requests (snd (parse_pdf_document env w)) = project_requests w.
Proof.
  intros Hocr Hlist Hloads.
  assert (Hbody : exists wb,
             pipeline_body env w
             = (inr (Exception
                       (py "Erreur lors du parsing de la liste de projets: " ++ msg)),
                wb)
             /\ calls wb = calls w1 ++ [ChatComplete listPrompt (clean_document ocr)]).
  { unfold pipeline_body. unfold bind at 1. rewrite Hocr.
    unfold bind at 1. unfold list_stage.
    unfold bind at 1.
    destruct (progress_callback_run env (round64 (3 # 10))
                (py "Extraction de la liste de projets...") w1)
      as (wa & Ea & _ & _ & Hca).
    rewrite Ea. unfold bind at 1, request. unfold bind at 1. rewrite Hlist.
    unfold lift, ret. unfold bind at 1, print. unfold bind at 1.
    match goal with
    | |- context [progress_callback env (round64 (4 # 10)) ?st ?w0] =>
      destruct (progress_callback_run env (round64 (4 # 10)) st w0)
        as (wc & Ec & _ & _ & Hcc)
    end.
    rewrite Ec. unfold bind at 1, loads_project_list, try_except_decode, loads.
    rewrite Hloads. simpl. eexists. split; [reflexivity|].
    rewrite Hcc. simpl. rewrite Hca. reflexivity. }
  destruct Hbody as (wb & Hbody & Hcalls).
  destruct (run_of_failed_body env w _ _ Hbody) as [Hres Hc].
  unfold str_exn in Hres.
  split; [exact Hres|]. split.
  - rewrite Hc. exact Hcalls.
  - unfold project_requests. rewrite Hc, Hcalls, filter_app.
    change (filter is_project_request
              [ChatComplete listPrompt (clean_document ocr)])
      with (@nil ServiceCall).
    rewrite app_nil_r.
    apply ocr_stage_inl in Hocr. destruct Hocr as [_ Hreq]. exact Hreq.
Qed.

(** ** The candidates *)

Lemma missing_field_is_falsy k d :
  dict_get k d = None -> truthy (dict_get_default k d JNull) = false.
Proof. unfold dict_get_default. intros ->. reflexivity. Qed.

Lemma body_of_object env ocr n idx d parsed w :
  project_body env ocr n idx (JObj d) parsed w
  = project_steps env ocr n idx (page_debut d) (page_fin d)
      (candidate_title idx d) parsed w.
Proof. reflexivity. Qed.

Lemma iteration_of_steps env ocr n idx d parsed w l w1 :
  project_steps env ocr n idx (page_debut d) (page_fin d)
    (candidate_title idx d) parsed w = (inl l, w1) ->
  project_iteration env ocr n idx (JObj d) parsed w = (inl l, w1).
Proof.
  intros H. unfold project_iteration, try_except.
  rewrite body_of_object, H. reflexivity.
Qed.

Lemma record_of_answer env ocr idx d payload text r :
  pages_missing d = false ->
  (has_callback env = true -> sliceable (candidate_title idx d) = true) ->
  clean_pages ocr (page_debut d) (page_fin d) = Some payload ->
  project_completion env idx payload = inr text ->
  json_loads text = inr (JObj r) ->
  project_record env ocr idx (JObj d)
  = Some (JObj (tagged (candidate_title idx d) (page_debut d) (page_fin d) r)).
Proof.
  intros Hm Hs Hc Ha Hl. unfold project_record. rewrite Hm.
  destruct (has_callback env).
  - rewrite (Hs eq_refl). simpl. rewrite Hc, Ha, Hl. reflexivity.
  - simpl. rewrite Hc, Ha, Hl. reflexivity.
Qed.

Lemma key_title_debut : py "_project_title" <> py "_page_debut".
Proof. intros H. vm_compute in H. discriminate. Qed.

Lemma key_title_fin : py "_project_title" <> py "_page_fin".
Proof. intros H. vm_compute in H. discriminate. Qed.

Lemma key_debut_fin : py "_page_debut" <> py "_page_fin".
Proof. intros H. vm_compute in H. discriminate. Qed.

Lemma tagged_fields t s e r :
  dict_get (py "_project_title") (tagged t s e r) = Some t
  /\ dict_get (py "_page_debut") (tagged t s e r) = Some s
  /\ dict_get (py "_page_fin") (tagged t s e r) = Some e
  /\ (forall k, k <> py "_project_title" -> k <> py "_page_debut" ->
                k <> py "_page_fin" ->
                dict_get k (tagged t s e r) = dict_get k r).
Proof.
  unfold tagged. repeat split.
  - rewrite dict_get_set_other by (intro H; symmetry in H; exact (key_title_fin H)).
    rewrite dict_get_set_other by (intro H; symmetry in H; exact (key_title_debut H)).
    apply dict_get_set_same.
  - rewrite dict_get_set_other by (intro H; symmetry in H; exact (key_debut_fin H)).
    apply dict_get_set_same.
  - apply dict_get_set_same.
  - intros k H1 H2 H3.
    rewrite !dict_get_set_other by congruence. reflexivity.
Qed.

(** C8. When the answer for a candidate parses to an object, the record
    is that object with [_project_title], [_page_debut] and [_page_fin]
    set to the candidate's title and page bounds and every other key as
    parsed; it is appended to [parsed_data], and the loop returns the
    records in the order of the candidates. *)
Theorem record_carries_candidate_metadata env ocr n idx d payload text r parsed w :
  pages_missing d = false ->
  (has_callback env = true -> sliceable (candidate_title idx d) = true) ->
  clean_pages ocr (page_debut d) (page_fin d) = Some payload ->
  project_completion env idx payload = inr text ->
  json_loads text = inr (JObj r) ->
  exists record,
    fst (project_iteration env ocr n idx (JObj d) parsed w)
    = inl (parsed ++ [JObj record])
    /\ dict_get (py "_project_title") record = Some (candidate_title idx d)
    /\ dict_get (py "_page_debut") record = Some (page_debut d)
    /\ dict_get (py "_page_fin") record = Some (page_fin d)
    /\ (forall k, k <> py "_project_title" -> k <> py "_page_debut" ->
                  k <> py "_page_fin" ->
                  dict_get k record = dict_get k r)
    /\ (forall projects idx0 acc w0,
          fst (project_loop env ocr n idx0 projects acc w0)
          = inl (acc ++ loop_records env ocr idx0 projects)).
Proof.
  intros Hm Hs Hc Ha Hl.
  exists (tagged (candidate_title idx d) (page_debut d) (page_fin d) r).
  destruct (tagged_fields (candidate_title idx d) (page_debut d) (page_fin d) r)
    as (H1 & H2 & H3 & H4).
  split; [|split; [exact H1|split; [exact H2|split; [exact H3|split; [exact H4|]]]]].
  - destruct (iteration_result env ocr n idx (JObj d) parsed w) as [w1 E].
    rewrite E, (record_of_answer _ _ _ _ _ _ _ Hm Hs Hc Ha Hl). reflexivity.
  - intros projects idx0 acc w0.
    destruct (loop_result env ocr n projects idx0 acc w0) as [w1 E].
    rewrite E. reflexivity.
Qed.


(** ** Isolation of the candidates *)

Lemma record_with_answer_at env ocr i bad msg project :
  json_loads bad = inl msg ->
  project_record (with_answer env i (inr bad)) ocr i project = None.
Proof.
  intros Hl. unfold project_record. destruct project; try reflexivity.
  destruct (pages_missing fields); [reflexivity|].
  destruct (has_callback (with_answer env i (inr bad))
            && negb (sliceable (candidate_title i fields))); [reflexivity|].
  destruct (clean_pages ocr (page_debut fields) (page_fin fields)); [|reflexivity].
  unfold with_answer. cbn [project_completion]. rewrite Nat.eqb_refl, Hl.
  reflexivity.
Qed.

Lemma record_with_answer_elsewhere env ocr i answer j project :
  j <> i ->
  project_record (with_answer env i answer) ocr j project
  = project_record env ocr j project.
Proof.
  intros Hne. unfold project_record. destruct project; try reflexivity.
  destruct (pages_missing fields); [reflexivity|].
  change (has_callback (with_answer env i answer)) with (has_callback env).
  destruct (has_callback env && negb (sliceable (candidate_title j fields)));
    [reflexivity|].
  destruct (clean_pages ocr (page_debut fields) (page_fin fields)); [|reflexivity].
  unfold with_answer. cbn [project_completion].
  apply Nat.eqb_neq in Hne. rewrite Hne. reflexivity.
Qed.

(** C1. When the answer for the candidate at position [i] does not parse
    as JSON, that candidate adds no record and every other candidate adds
    the record it adds otherwise; in every environment the loop ends
    without an exception, with the records of the candidates in their
    order; and the iteration of a candidate that reached its request
    prints the parse warning and leaves [parsed_data] as it was. *)
Theorem parse_failure_is_isolated env ocr n i bad msg :
  json_loads bad = inl msg ->
  (forall project, project_record (with_answer env i (inr bad)) ocr i project = None)
  /\ (forall j project,
        j <> i ->
        project_record (with_answer env i (inr bad)) ocr j project
        = project_record env ocr j project)
  /\ (forall env0 projects idx parsed w,
        exists w',
          project_loop env0 ocr n idx projects parsed w
          = (inl (parsed ++ loop_records env0 ocr idx projects), w'))
  /\ (forall d payload t50 parsed w,
        pages_missing d = false ->
        (has_callback env = true -> slice50 (candidate_title i d) = Some t50) ->
        clean_pages ocr (page_debut d) (page_fin d) = Some payload ->
        project_iteration (with_answer env i (inr bad)) ocr n i (JObj d) parsed w
        = (inl parsed,
           mkWorld
             (events w ++ project_event env n i t50)
             (stdout w ++ [warning_parse (candidate_title i d) msg])
             (calls w ++ [ChatComplete REXPrompt payload]))).
Proof.
  intros Hl. split; [|split; [|split]].
  - intros project. apply (record_with_answer_at env ocr i bad msg project Hl).
  - intros j project Hne. apply record_with_answer_elsewhere. exact Hne.
  - intros env0 projects idx parsed w. apply loop_result.
  - intros d payload t50 parsed w Hm Hs Hc.
    apply iteration_of_steps.
    rewrite (steps_reach_decode (with_answer env i (inr bad)) ocr n i
               (page_debut d) (page_fin d) (candidate_title i d) t50 payload bad
               parsed w Hm Hs Hc).
    + rewrite (decode_failure _ _ _ _ _ _ _ Hl). reflexivity.
    + unfold with_answer. cbn [project_completion]. rewrite Nat.eqb_refl.
      reflexivity.
Qed.


(** ** The printed lines and the requests of the loop *)

(** Closing steps of the case analysis of one iteration. *)
Ltac trace_without_request :=
  simpl; rewrite ?app_nil_r; eexists _, [], _;
  split; [reflexivity|]; simpl; rewrite ?app_nil_r;
  repeat split; auto.

Ltac trace_with_request :=
  simpl; rewrite ?app_nil_r; eexists _, [_], _;
  split; [reflexivity|]; simpl;
  repeat split; eauto; discriminate.

(** One iteration prints exactly one line and makes at most one request,
    which is a request for its candidate; a candidate that adds a record
    has made its request. *)
Lemma iteration_trace env ocr n idx project parsed w :
  exists line reqs w',
    project_iteration env ocr n idx project parsed w
    = (inl (parsed ++ record_list (project_record env ocr idx project)), w')
    /\ stdout w' = stdout w ++ [line]
    /\ calls w' = calls w ++ reqs
    /\ (reqs = [] \/ exists payload, reqs = [ChatComplete REXPrompt payload])
    /\ (reqs = [] -> project_record env ocr idx project = None).
Proof.
  unfold project_iteration, try_except, project_body.
  destruct project; try trace_without_request.
  unfold bind at 1, py_get, ret. unfold bind at 1. unfold bind at 1, py_get_default, ret.
  fold (page_debut fields) (page_fin fields) (candidate_title idx fields).
  unfold project_record. fold (pages_missing fields).
  unfold pages_missing.
  destruct (negb (truthy (page_debut fields)) || negb (truthy (page_fin fields))) eqn:Hp.
  - rewrite steps_pages_missing by exact Hp. trace_without_request.
  - destruct (has_callback env && negb (sliceable (candidate_title idx fields))) eqn:Hs.
    + apply andb_true_iff in Hs. destruct Hs as [Hcb Hs].
      unfold project_steps. rewrite Hp, Hcb. unfold bind at 1, bind at 1, py_slice50.
      unfold sliceable in Hs.
      destruct (candidate_title idx fields); simpl in Hs; try discriminate;
        trace_without_request.
    + destruct (clean_pages ocr (page_debut fields) (page_fin fields)) as [payload|] eqn:Hc.
      * destruct (project_completion env idx payload) as [ex|text] eqn:Ha.
        -- unfold project_steps. rewrite Hp. unfold bind at 1.
           destruct (has_callback env) eqn:Hcb.
           ++ simpl in Hs. apply negb_false_iff in Hs. unfold sliceable in Hs.
              unfold bind at 1, py_slice50.
              destruct (candidate_title idx fields); simpl in Hs; try discriminate;
                simpl; unfold run_clean_pages, bind at 1; rewrite Hc; simpl;
                unfold bind at 1, request; simpl;
                unfold bind at 1, lift; rewrite Ha; trace_with_request.
           ++ simpl. unfold run_clean_pages, bind at 1; rewrite Hc; simpl.
              unfold bind at 1, request; simpl.
              unfold bind at 1, lift; rewrite Ha; trace_with_request.
        -- assert (Hsl : has_callback env = true ->
                         slice50 (candidate_title idx fields)
                         = Some (match slice50 (candidate_title idx fields) with
                                 | Some x => x | None => JNull end)).
           { intros Hcb. rewrite Hcb in Hs. simpl in Hs.
             apply negb_false_iff in Hs. unfold sliceable in Hs.
             destruct (slice50 (candidate_title idx fields)); congruence. }
           rewrite (steps_reach_decode _ _ _ _ _ _ _ _ _ _ _ _ Hp Hsl Hc Ha).
           destruct (json_loads text) as [msg|v] eqn:Hl.
           ++ rewrite (decode_failure _ _ _ _ _ _ _ Hl). trace_with_request.
           ++ destruct v;
                try (rewrite (decode_not_object _ _ _ _ _ _ _ Hl) by discriminate;
                     trace_with_request).
              rewrite (decode_object _ _ _ _ _ _ _ Hl). trace_with_request.
      * unfold project_steps. rewrite Hp. unfold bind at 1.
        destruct (has_callback env) eqn:Hcb.
        -- simpl in Hs. apply negb_false_iff in Hs. unfold sliceable in Hs.
           unfold bind at 1, py_slice50.
           destruct (candidate_title idx fields); simpl in Hs; try discriminate;
             simpl; unfold run_clean_pages, bind at 1; rewrite Hc;
             trace_without_request.
        -- simpl. unfold run_clean_pages, bind at 1; rewrite Hc.
           trace_without_request.
Qed.

(** The loop prints one line per candidate; its requests are requests for
    candidates, at least one per record and at most one per candidate. *)
Lemma loop_trace env ocr n projects :
  forall idx parsed w,
  exists lines reqs w',
    project_loop env ocr n idx projects parsed w
    = (inl (parsed ++ loop_records env ocr idx projects), w')
    /\ stdout w' = stdout w ++ lines
    /\ List.length lines = List.length projects
    /\ calls w' = calls w ++ reqs
    /\ Forall (fun c => is_project_request c = true) reqs
    /\ (List.length (loop_records env ocr idx projects) <= List.length reqs)%nat
    /\ (List.length reqs <= List.length projects)%nat.
Proof.
  induction projects as [|project rest IH]; intros idx parsed w; simpl.
  - exists [], [], w. rewrite !app_nil_r. repeat split; auto.
  - unfold bind.
    destruct (iteration_trace env ocr n idx project parsed w)
      as (line & r1 & w1 & E & Hout & Hcalls & Hshape & Hnone).
    rewrite E.
    destruct (IH (S idx) (parsed ++ record_list (project_record env ocr idx project)) w1)
      as (lines & r2 & w2 & E2 & Hout2 & Hlen & Hcalls2 & Hall & Hlo & Hhi).
    rewrite E2, <- app_assoc.
    exists (line :: lines), (r1 ++ r2), w2.
    split; [reflexivity|].
    split; [rewrite Hout2, Hout, <- app_assoc; reflexivity|].
    split; [simpl; rewrite Hlen; reflexivity|].
    split; [rewrite Hcalls2, Hcalls, <- app_assoc; reflexivity|].
    rewrite !length_app.
    destruct Hshape as [->|[payload ->]].
    + rewrite (Hnone eq_refl). simpl. repeat split; auto.
    + simpl. split; [constructor; [reflexivity|exact Hall]|].
      destruct (project_record env ocr idx project); simpl; lia.
Qed.

(** ** The requests and the printed lines of a run *)

Lemma ocr_stage_trace env w ocr w1 :
  ocr_stage env w = (inl ocr, w1) ->
  exists file_id url,
    files_upload env filename file_content = inr file_id
    /\ get_signed_url env file_id = inr url
    /\ ocr_process env url = inr ocr
    /\ stdout w1 = stdout w
    /\ calls w1
       = calls w ++ [ FilesUpload filename file_content; GetSignedUrl file_id;
                      OcrProcess url ].
Proof.
  unfold ocr_stage. intros H.
  apply bind_inl in H. destruct H as (api_key & wa & Ha & H).
  apply lift_inl in Ha. destruct Ha as [_ ->].
  apply bind_inl in H. destruct H as (u1 & wb & Hb & H).
  assert (wb = w) by (destruct api_key; inversion Hb; reflexivity). subst wb.
  apply bind_inl in H. destruct H as (u2 & wc & Hc & H).
  apply lift_inl in Hc. destruct Hc as [_ ->].
  apply bind_inl in H. destruct H as (u3 & wd & Hd & H).
  destruct (progress_callback_run env (round64 (1 # 10))
              (py "Upload du fichier vers Mistral...") w)
    as (wd' & Ed & _ & Hout1 & Hcalls1).
  rewrite Ed in Hd. inversion Hd; subst wd' u3. clear Hd Ed.
  apply bind_inl in H. destruct H as (u4 & we & He & H).
  inversion He; subst we u4. clear He.
  apply bind_inl in H. destruct H as (file_id & wf & Hf & H).
  apply lift_inl in Hf. destruct Hf as [Hup ->].
  apply bind_inl in H. destruct H as (u5 & wg & Hg & H).
  inversion Hg; subst wg u5. clear Hg.
  apply bind_inl in H. destruct H as (url & wh & Hh & H).
  apply lift_inl in Hh. destruct Hh as [Hurl ->].
  apply bind_inl in H. destruct H as (u6 & wi & Hi & H).
  match type of Hi with
  | progress_callback _ _ _ ?w0 = _ =>
    destruct (progress_callback_run env (round64 (2 # 10))
                (py "Traitement OCR du document...") w0)
      as (wi' & Ei & _ & Hout2 & Hcalls2)
  end.
  rewrite Ei in Hi. inversion Hi; subst wi' u6. clear Hi Ei.
  apply bind_inl in H. destruct H as (u7 & wj & Hj & H).
  inversion Hj; subst wj u7. clear Hj.
  apply lift_inl in H. destruct H as [Hocr ->].
  exists file_id, url. cbn [stdout calls events] in *.
  split; [exact Hup|]. split; [exact Hurl|]. split; [exact Hocr|].
  split.
  - rewrite Hout2. cbn [stdout]. exact Hout1.
  - rewrite Hcalls2. cbn [calls]. rewrite Hcalls1, <- !app_assoc. reflexivity.
Qed.

Lemma list_stage_trace env ocr w projects w1 :
  list_stage env ocr w = (inl projects, w1) ->
  exists text d,
    list_completion env (clean_document ocr) = inr text
    /\ json_loads text = inr (JObj d)
    /\ projects = dict_get_default (py "Liste") d (JArr [])
    /\ truthy projects = true
    /\ stdout w1 = stdout w ++ [py "Project list response: " ++ text]
    /\ calls w1 = calls w ++ [ChatComplete listPrompt (clean_document ocr)].
Proof.
  unfold list_stage. intros H.
  apply bind_inl in H. destruct H as (u1 & wa & Ha & H).
  destruct (progress_callback_run env (round64 (3 # 10))
              (py "Extraction de la liste de projets...") w)
    as (wa' & Ea & _ & Hout1 & Hcalls1).
  rewrite Ea in Ha. inversion Ha; subst wa' u1. clear Ha Ea.
  apply bind_inl in H. destruct H as (u2 & wb & Hb & H).
  inversion Hb; subst wb u2. clear Hb.
  apply bind_inl in H. destruct H as (text & wc & Hc & H).
  apply lift_inl in Hc. destruct Hc as [Htext ->].
  apply bind_inl in H. destruct H as (u3 & wd & Hd & H).
  inversion Hd; subst wd u3. clear Hd.
  apply bind_inl in H. destruct H as (u4 & we & He & H).
  match type of He with
  | progress_callback _ _ _ ?w0 = _ =>
    destruct (progress_callback_run env (round64 (4 # 10))
                (py "Vérification des projets...") w0)
      as (we' & Ee & _ & Hout2 & Hcalls2)
  end.
  rewrite Ee in He. inversion He; subst we' u4. clear He Ee.
  apply bind_inl in H. destruct H as (v & wf & Hf & H).
  unfold loads_project_list, try_except_decode, loads in Hf.
  destruct (json_loads text) as [msg|v0] eqn:Hl; [discriminate|].
  inversion Hf; subst v0 wf. clear Hf.
  apply bind_inl in H. destruct H as (ps & wg & Hg & H).
  destruct v as [| | | | | |d]; try discriminate.
  inversion Hg; subst ps wg. clear Hg.
  apply bind_inl in H. destruct H as (u5 & wh & Hh & H).
  destruct (truthy (dict_get_default (py "Liste") d (JArr []))) eqn:Ht;
    [|discriminate].
  inversion Hh; subst wh u5. clear Hh.
  inversion H; subst. clear H.
  exists text, d. cbn [stdout calls events] in *.
  split; [exact Htext|]. split; [exact Hl|]. split; [reflexivity|].
  split; [exact Ht|]. split.
  - rewrite Hout2. cbn [stdout]. rewrite Hout1. reflexivity.
  - rewrite Hcalls2. cbn [calls]. rewrite Hcalls1. reflexivity.
Qed.

Lemma extraction_stage_trace env ocr projects w parsed w1 :
  extraction_stage env ocr projects w = (inl parsed, w1) ->
  exists lines reqs,
    parsed = loop_records env ocr 0 (py_items projects)
    /\ stdout w1 = stdout w ++ lines
    /\ List.length lines = List.length (py_items projects)
    /\ calls w1 = calls w ++ reqs
    /\ Forall (fun c => is_project_request c = true) reqs
    /\ (List.length parsed <= List.length reqs)%nat
    /\ (List.length reqs <= List.length (py_items projects))%nat.
Proof.
  unfold extraction_stage. intros H.
  apply bind_inl in H. destruct H as (n & wa & Ha & H).
  apply py_len_inl in Ha. destruct Ha as [-> ->].
  apply bind_inl in H. destruct H as (u1 & wb & Hb & H).
  match type of Hb with
  | progress_callback _ _ ?st _ = _ =>
    destruct (progress_callback_run env (round64 (5 # 10)) st w)
      as (wb' & Eb & _ & Hout1 & Hcalls1)
  end.
  rewrite Eb in Hb. inversion Hb; subst wb' u1. clear Hb Eb.
  apply convertible_length_inl in H. destruct H as [_ H].
  destruct (loop_trace env ocr (List.length (py_items projects))
              (py_items projects) 0%nat [] wb)
    as (lines & reqs & w2 & E & Hout & Hlen & Hcalls & Hall & Hlo & Hhi).
  rewrite H in E. inversion E; subst parsed w2. clear E.
  exists lines, reqs.
  split; [reflexivity|]. split; [rewrite Hout, Hout1; reflexivity|].
  split; [exact Hlen|]. split; [rewrite Hcalls, Hcalls1; reflexivity|].
  split; [exact Hall|]. split; assumption.
Qed.

Lemma finish_trace env parsed w recs w1 :
  finish env parsed w = (inl recs, w1) ->
  stdout w1 = stdout w /\ calls w1 = calls w.
Proof.
  unfold finish. intros H.
  destruct parsed as [|r rest]; [discriminate|].
  apply bind_inl in H. destruct H as (u1 & wa & Ha & H).
  inversion Ha; subst wa u1. clear Ha.
  apply bind_inl in H. destruct H as (u2 & wb & Hb & H).
  match type of Hb with
  | progress_callback _ _ ?st _ = _ =>
    destruct (progress_callback_run env 1 st w)
      as (wb' & Eb & _ & Hout & Hcalls)
  end.
  rewrite Eb in Hb. inversion Hb; subst wb' u2. clear Hb Eb.
  inversion H; subst. split; assumption.
Qed.

(** What a successful run has done: the three requests of the OCR stage,
    the list request, the requests for candidates; the printed list
    answer, one line per candidate; and the records it returns. *)
Lemma run_trace env w recs :
  fst (parse_pdf_document env w) = inl recs ->
  exists file_id url ocr text d lines reqs,
    files_upload env filename file_content = inr file_id
    /\ get_signed_url env file_id = inr url
    /\ ocr_process env url = inr ocr
    /\ list_completion env (clean_document ocr) = inr text
    /\ json_loads text = inr (JObj d)
    /\ recs = loop_records env ocr 0 (listed_candidates (JObj d))
    /\ recs <> []
    /\ stdout (snd (parse_pdf_document env w))
       = stdout w ++ [py "Project list response: " ++ text] ++ lines
    /\ List.length lines = List.length (listed_candidates (JObj d))
    /\ calls (snd (parse_pdf_document env w))
       = calls w
         ++ [ FilesUpload filename file_content; GetSignedUrl file_id;
              OcrProcess url; ChatComplete listPrompt (clean_document ocr) ]
         ++ reqs
    /\ Forall (fun c => is_project_request c = true) reqs
    /\ (List.length recs <= List.length reqs)%nat
    /\ (List.length reqs <= List.length (listed_candidates (JObj d)))%nat.
Proof.
  intros Hok. pose proof (run_inl _ _ _ Hok) as Hrun.
  rewrite Hrun in Hok |- *. clear Hrun.
  destruct (pipeline_body env w) as [[l|e] w4] eqn:Hbody;
    [|simpl in Hok; discriminate].
  simpl in Hok. inversion Hok; subst l. clear Hok. simpl.
  unfold pipeline_body in Hbody.
  apply bind_inl in Hbody. destruct Hbody as (ocr & w1 & Hocr & Hbody).
  apply bind_inl in Hbody. destruct Hbody as (projects & w2 & Hlist & Hbody).
  apply bind_inl in Hbody. destruct Hbody as (parsed & w3 & Hext & Hfin).
  apply ocr_stage_trace in Hocr.
  destruct Hocr as (file_id & url & Hup & Hurl & Hocr & Hout1 & Hcalls1).
  apply list_stage_trace in Hlist.
  destruct Hlist as (text & d & Htext & Hl & -> & Ht & Hout2 & Hcalls2).
  apply extraction_stage_trace in Hext.
  destruct Hext as (lines & reqs & -> & Hout3 & Hlen & Hcalls3 & Hall & Hlo & Hhi).
  pose proof (finish_trace _ _ _ _ _ Hfin) as [Hout4 Hcalls4].
  apply finish_inl in Hfin. destruct Hfin as (-> & Hne & _).
  exists file_id, url, ocr, text, d, lines, reqs.
  unfold listed_candidates.
  repeat (split; [assumption || reflexivity|]).
  split; [rewrite Hout4, Hout3, Hout2, Hout1, <- app_assoc; reflexivity|].
  split; [exact Hlen|].
  split; [rewrite Hcalls4, Hcalls3, Hcalls2, Hcalls1, <- !app_assoc; reflexivity|].
  split; [exact Hall|]. split; assumption.
Qed.



(** ** Events of any run *)

Lemma emits_silent {A} P (m : M A) : silent m -> emits P m.
Proof.
  intros H w. exists []. rewrite H, app_nil_r. split; [reflexivity|constructor].
Qed.

Lemma emits_bind {A B} P (m : M A) (k : A -> M B) :
  emits P m ->
  (forall a w w1, m w = (inl a, w1) -> emits P (k a)) ->
  emits P (bind m k).
Proof.
  intros Hm Hk w. unfold bind. destruct (Hm w) as (e1 & He1 & HP1).
  destruct (m w) as [[a|e] w1] eqn:E; simpl in He1.
  - destruct (Hk a w w1 E w1) as (e2 & He2 & HP2).
    exists (e1 ++ e2). split.
    + rewrite He2, He1, app_assoc. reflexivity.
    + apply Forall_app. split; assumption.
  - exists e1. split; assumption.
Qed.

Lemma emits_try_except {A} P (m : M A) (h : Exn -> M A) :
  emits P m -> (forall e, emits P (h e)) -> emits P (try_except m h).
Proof.
  intros Hm Hh w. unfold try_except. destruct (Hm w) as (e1 & He1 & HP1).
  destruct (m w) as [[a|e] w1]; simpl in He1.
  - exists e1. split; assumption.
  - destruct (Hh e w1) as (e2 & He2 & HP2).
    exists (e1 ++ e2). split.
    + rewrite He2, He1, app_assoc. reflexivity.
    + apply Forall_app. split; assumption.
Qed.

Lemma emits_progress_callback P env q status :
  P (q, status) -> emits P (progress_callback env q status).
Proof.
  intros HP w. unfold progress_callback. destruct (has_callback env).
  - exists [(q, status)]. split; [reflexivity|]. constructor; [exact HP|constructor].
  - exists []. simpl. rewrite app_nil_r. split; [reflexivity|constructor].
Qed.

Lemma silent_loads_project_list text : silent (loads_project_list text).
Proof.
  unfold loads_project_list.
  apply silent_try_except_decode; [apply silent_loads|intros; apply silent_raise].
Qed.

Lemma emits_ocr_stage env : emits unit_progress (ocr_stage env).
Proof.
  unfold ocr_stage.
  apply emits_bind; [apply emits_silent, silent_lift|intros api_key ? ? _].
  apply emits_bind;
    [apply emits_silent; destruct api_key; [apply silent_raise|apply silent_ret]
    |intros ? ? ? _].
  apply emits_bind; [apply emits_silent, silent_lift|intros ? ? ? _].
  apply emits_bind;
    [apply emits_progress_callback; split; vm_compute; discriminate|intros ? ? ? _].
  apply emits_bind; [apply emits_silent, silent_request|intros ? ? ? _].
  apply emits_bind; [apply emits_silent, silent_lift|intros ? ? ? _].
  apply emits_bind; [apply emits_silent, silent_request|intros ? ? ? _].
  apply emits_bind; [apply emits_silent, silent_lift|intros ? ? ? _].
  apply emits_bind;
    [apply emits_progress_callback; split; vm_compute; discriminate|intros ? ? ? _].
  apply emits_bind; [apply emits_silent, silent_request|intros ? ? ? _].
  apply emits_silent, silent_lift.
Qed.

Lemma emits_list_stage env ocr : emits unit_progress (list_stage env ocr).
Proof.
  unfold list_stage.
  apply emits_bind;
    [apply emits_progress_callback; split; vm_compute; discriminate|intros ? ? ? _].
  apply emits_bind; [apply emits_silent, silent_request|intros ? ? ? _].
  apply emits_bind; [apply emits_silent, silent_lift|intros text ? ? _].
  apply emits_bind; [apply emits_silent, silent_print|intros ? ? ? _].
  apply emits_bind;
    [apply emits_progress_callback; split; vm_compute; discriminate|intros ? ? ? _].
  apply emits_bind;
    [apply emits_silent, silent_loads_project_list|intros v ? ? _].
  apply emits_bind;
    [apply emits_silent, silent_py_get_default|intros projects ? ? _].
  apply emits_bind;
    [apply emits_silent; destruct (truthy projects);
       [apply silent_ret|apply silent_raise]
    |intros ? ? ? _].
  apply emits_silent, silent_ret.
Qed.

Lemma emits_project_loop env ocr projects :
  int_too_large (Z.of_nat (List.length projects)) = false ->
  emits unit_progress
    (project_loop env ocr (List.length projects) 0 projects []).
Proof.
  intros Hfin w.
  destruct (loop_events env ocr (List.length projects) projects 0%nat [] w)
    as (evs & Hev & Hprog).
  exists evs. split; [exact Hev|].
  apply (loop_progress_bounds _ _ Hfin) in Hprog.
  rewrite Forall_map in Hprog.
  eapply Forall_impl; [|exact Hprog].
  intros ev [Hl Hu]. split.
  - eapply Qle_trans; [|exact Hl]. vm_compute. discriminate.
  - exact Hu.
Qed.

Lemma emits_extraction_stage env ocr projects :
  emits unit_progress (extraction_stage env ocr projects).
Proof.
  unfold extraction_stage.
  apply emits_bind; [apply emits_silent, silent_py_len|intros n w0 w1 Hn].
  apply py_len_inl in Hn. destruct Hn as [-> _].
  apply emits_bind;
    [apply emits_progress_callback; split; vm_compute; discriminate|intros ? ? ? _].
  destruct (int_too_large (Z.of_nat (List.length (py_items projects))))
    eqn:Hfin.
  - apply emits_bind; [apply emits_silent, silent_raise|intros ? ? ? H].
    discriminate H.
  - apply emits_bind; [apply emits_silent, silent_ret|intros ? ? ? _].
    apply emits_project_loop. exact Hfin.
Qed.

Lemma emits_finish env parsed : emits unit_progress (finish env parsed).
Proof.
  unfold finish.
  apply emits_bind;
    [apply emits_silent; destruct parsed; [apply silent_raise|apply silent_ret]
    |intros ? ? ? _].
  apply emits_bind;
    [apply emits_progress_callback; split; vm_compute; discriminate|intros ? ? ? _].
  apply emits_silent, silent_ret.
Qed.

Lemma emits_run env : emits unit_progress (parse_pdf_document env).
Proof.
  unfold parse_pdf_document.
  apply emits_try_except.
  - unfold pipeline_body.
    apply emits_bind; [apply emits_ocr_stage|intros ocr ? ? _].
    apply emits_bind; [apply emits_list_stage|intros projects ? ? _].
    apply emits_bind; [apply emits_extraction_stage|intros parsed ? ? _].
    apply emits_finish.
  - intros e.
    apply emits_bind;
      [apply emits_progress_callback; split; vm_compute; discriminate|intros ? ? ? _].
    apply emits_silent, silent_raise.
Qed.

(** Without a callback nothing is handed over. *)
Lemma silent_progress_callback env q status :
  has_callback env = false -> silent (progress_callback env q status).
Proof.
  intros H. unfold progress_callback. rewrite H. apply silent_ret.
Qed.

Lemma silent_project_loop env ocr n projects :
  has_callback env = false ->
  forall idx parsed, silent (project_loop env ocr n idx projects parsed).
Proof.
  intros Hcb. induction projects as [|project rest IH]; intros idx parsed; simpl.
  - apply silent_ret.
  - apply silent_bind; [|intros; apply IH].
    unfold project_iteration.
    apply silent_try_except;
      [|intros; apply silent_bind; [apply silent_print|intros; apply silent_ret]].
    unfold project_body.
    apply silent_bind; [apply silent_py_get|intros s].
    apply silent_bind; [apply silent_py_get|intros e].
    apply silent_bind; [apply silent_py_get_default|intros t].
    unfold project_steps. rewrite Hcb.
    destruct (negb (truthy s) || negb (truthy e)).
    + apply silent_bind; [apply silent_print|intros; apply silent_ret].
    + apply silent_bind; [apply silent_ret|intros].
      apply silent_after_event.
Qed.

Lemma silent_run env :
  has_callback env = false -> silent (parse_pdf_document env).
Proof.
  intros Hcb. unfold parse_pdf_document.
  apply silent_try_except.
  - unfold pipeline_body.
    apply silent_bind; [|intros ocr; apply silent_bind; [|intros projects;
      apply silent_bind; [|intros parsed]]].
    + unfold ocr_stage.
      apply silent_bind; [apply silent_lift|intros api_key].
      apply silent_bind;
        [destruct api_key; [apply silent_raise|apply silent_ret]|intros].
      apply silent_bind; [apply silent_lift|intros].
      apply silent_bind; [apply silent_progress_callback, Hcb|intros].
      apply silent_bind; [apply silent_request|intros].
      apply silent_bind; [apply silent_lift|intros].
      apply silent_bind; [apply silent_request|intros].
      apply silent_bind; [apply silent_lift|intros].
      apply silent_bind; [apply silent_progress_callback, Hcb|intros].
      apply silent_bind; [apply silent_request|intros].
      apply silent_lift.
    + unfold list_stage.
      apply silent_bind; [apply silent_progress_callback, Hcb|intros].
      apply silent_bind; [apply silent_request|intros].
      apply silent_bind; [apply silent_lift|intros].
      apply silent_bind; [apply silent_print|intros].
      apply silent_bind; [apply silent_progress_callback, Hcb|intros].
      apply silent_bind; [apply silent_loads_project_list|intros].
      apply silent_bind; [apply silent_py_get_default|intros ps].
      apply silent_bind;
        [destruct (truthy ps); [apply silent_ret|apply silent_raise]|intros].
      apply silent_ret.
    + unfold extraction_stage.
      apply silent_bind; [apply silent_py_len|intros].
      apply silent_bind; [apply silent_progress_callback, Hcb|intros].
      apply silent_bind; [apply silent_convertible_length|intros].
      apply silent_project_loop, Hcb.
    + unfold finish.
      apply silent_bind;
        [destruct parsed; [apply silent_raise|apply silent_ret]|intros].
      apply silent_bind; [apply silent_progress_callback, Hcb|intros].
      apply silent_ret.
  - intros e.
    apply silent_bind; [apply silent_progress_callback, Hcb|intros].
    apply silent_raise.
Qed.

(** ** A run with and without a callback *)

Lemma agree_ret {A} (a : A) : agree (ret a) (ret a).
Proof. intros w w' H. split; [reflexivity|exact H]. Qed.

Lemma agree_raise {A} (e : Exn) : agree (@raise A e) (@raise A e).
Proof. intros w w' H. split; [reflexivity|exact H]. Qed.

Lemma agree_lift {A} (r : Exn + A) : agree (lift r) (lift r).
Proof. destruct r; [apply agree_raise|apply agree_ret]. Qed.

Lemma agree_print line : agree (print line) (print line).
Proof.
  intros w w' [Ho Hc]. split; [reflexivity|].
  split; simpl; [rewrite Ho; reflexivity|exact Hc].
Qed.

Lemma agree_request c : agree (request c) (request c).
Proof.
  intros w w' [Ho Hc]. split; [reflexivity|].
  split; simpl; [exact Ho|rewrite Hc; reflexivity].
Qed.

Lemma agree_loads text : agree (loads text) (loads text).
Proof.
  unfold loads. destruct (json_loads text); [apply agree_raise|apply agree_ret].
Qed.

Lemma agree_py_get v k : agree (py_get v k) (py_get v k).
Proof. destruct v; first [apply agree_raise|apply agree_ret]. Qed.

Lemma agree_py_get_default v k x :
  agree (py_get_default v k x) (py_get_default v k x).
Proof. destruct v; first [apply agree_raise|apply agree_ret]. Qed.

Lemma agree_py_len v : agree (py_len v) (py_len v).
Proof. destruct v; first [apply agree_raise|apply agree_ret]. Qed.

Lemma agree_py_setitem v k x : agree (py_setitem v k x) (py_setitem v k x).
Proof. destruct v; first [apply agree_raise|apply agree_ret]. Qed.

Lemma agree_run_clean_pages ocr s e :
  agree (run_clean_pages ocr s e) (run_clean_pages ocr s e).
Proof.
  unfold run_clean_pages.
  destruct (clean_pages ocr s e); [apply agree_ret|apply agree_raise].
Qed.

Lemma agree_bind {A B} (m m' : M A) (k k' : A -> M B) :
  agree m m' ->
  (forall a w w1, m w = (inl a, w1) -> agree (k a) (k' a)) ->
  agree (bind m k) (bind m' k').
Proof.
  intros Hm Hk w w' Hw. unfold bind.
  destruct (Hm w w' Hw) as [Hr Ht].
  destruct (m w) as [[a|e] w1] eqn:E; destruct (m' w') as [[a'|e'] w1'];
    simpl in Hr, Ht; try discriminate.
  - inversion Hr; subst a'. apply (Hk a w w1 E). exact Ht.
  - inversion Hr; subst e'. split; [reflexivity|exact Ht].
Qed.

Lemma agree_try_except {A} (m m' : M A) (h h' : Exn -> M A) :
  agree m m' -> (forall e, agree (h e) (h' e)) ->
  agree (try_except m h) (try_except m' h').
Proof.
  intros Hm Hh w w' Hw. unfold try_except.
  destruct (Hm w w' Hw) as [Hr Ht].
  destruct (m w) as [[a|e] w1]; destruct (m' w') as [[a'|e'] w1'];
    simpl in Hr, Ht; try discriminate.
  - inversion Hr; subst a'. split; [reflexivity|exact Ht].
  - inversion Hr; subst e'. apply Hh. exact Ht.
Qed.

Lemma agree_try_except_decode {A} (m m' : M A) (h h' : pystr -> M A) :
  agree m m' -> (forall msg, agree (h msg) (h' msg)) ->
  agree (try_except_decode m h) (try_except_decode m' h').
Proof.
  intros Hm Hh w w' Hw. unfold try_except_decode.
  destruct (Hm w w' Hw) as [Hr Ht].
  destruct (m w) as [[a|e] w1]; destruct (m' w') as [[a'|e'] w1'];
    simpl in Hr, Ht; try discriminate.
  - inversion Hr; subst a'. split; [reflexivity|exact Ht].
  - inversion Hr; subst e'. destruct e; try (split; [reflexivity|exact Ht]).
    apply Hh. exact Ht.
Qed.

(** The guarded call of the callback returns in every environment, and
    neither prints nor makes a request. *)
Lemma agree_progress_callback env env' q status :
  agree (progress_callback env q status) (progress_callback env' q status).
Proof.
  intros w w' Hw. unfold progress_callback.
  destruct (has_callback env), (has_callback env'); split;
    first [reflexivity|exact Hw].
Qed.

Lemma agree_decode_project t s e text parsed :
  agree (decode_project t s e text parsed) (decode_project t s e text parsed).
Proof.
  unfold decode_project.
  apply agree_bind; [apply agree_loads|intros ? ? ? _].
  apply agree_bind; [apply agree_py_setitem|intros ? ? ? _].
  apply agree_bind; [apply agree_py_setitem|intros ? ? ? _].
  apply agree_bind; [apply agree_py_setitem|intros ? ? ? _].
  apply agree_bind; [apply agree_print|intros ? ? ? _].
  apply agree_ret.
Qed.

(** The progress event of an iteration whose title can be cut. *)
Lemma agree_project_event env n idx t :
  sliceable t = true ->
  agree
    (if has_callback env
     then title50 <- py_slice50 t ;;
          emit (current_progress idx n) (status_project idx n title50)
     else ret tt)
    (ret tt).
Proof.
  intros Hs w w' Hw. destruct (has_callback env).
  - unfold sliceable in Hs.
    destruct t; simpl in Hs; try discriminate; split;
      first [reflexivity|exact Hw].
  - split; [reflexivity|exact Hw].
Qed.

Lemma sliceable_candidate_title idx d :
  sliceable (candidate_title idx d) = sliceable (candidate_title 0 d).
Proof.
  unfold candidate_title, dict_get_default.
  destruct (dict_get (py "Titre") d); reflexivity.
Qed.

Lemma agree_project_iteration env ocr n idx project parsed :
  sliceable_title project = true ->
  agree (project_iteration env ocr n idx project parsed)
    (project_iteration (without_callback env) ocr n idx project parsed).
Proof.
  intros Hs. unfold project_iteration.
  apply agree_try_except;
    [|intros; apply agree_bind; [apply agree_print|intros; apply agree_ret]].
  unfold project_body.
  destruct project as [| | | | | |d];
    try (apply agree_bind; [apply agree_py_get|intros ? w0 w1 H; discriminate H]).
  apply agree_bind; [apply agree_py_get|intros s w0 w1 Es].
  apply agree_bind; [apply agree_py_get|intros e w2 w3 Ee].
  apply agree_bind; [apply agree_py_get_default|intros t w4 w5 Et].
  inversion Et; subst t.
  fold (candidate_title idx d).
  unfold project_steps.
  change (has_callback (without_callback env)) with false.
  change (project_completion (without_callback env)) with (project_completion env).
  destruct (negb (truthy s) || negb (truthy e)).
  - apply agree_bind; [apply agree_print|intros; apply agree_ret].
  - apply agree_bind.
    + apply agree_project_event. rewrite sliceable_candidate_title. exact Hs.
    + intros ? ? ? _.
      apply agree_bind; [apply agree_run_clean_pages|intros ? ? ? _].
      apply agree_bind; [apply agree_request|intros ? ? ? _].
      apply agree_bind; [apply agree_lift|intros ? ? ? _].
      apply agree_try_except_decode; [apply agree_decode_project|intros].
      apply agree_bind; [apply agree_print|intros; apply agree_ret].
Qed.

Lemma agree_project_loop env ocr n projects :
  forallb sliceable_title projects = true ->
  forall idx parsed,
    agree (project_loop env ocr n idx projects parsed)
      (project_loop (without_callback env) ocr n idx projects parsed).
Proof.
  induction projects as [|project rest IH]; intros Hs idx parsed; simpl.
  - apply agree_ret.
  - simpl in Hs. apply andb_true_iff in Hs. destruct Hs as [Hp Hrest].
    apply agree_bind; [apply agree_project_iteration, Hp|intros ? ? ? _].
    apply IH. exact Hrest.
Qed.

Lemma agree_run env :
  (forall doc text v,
      list_completion env doc = inr text ->
      json_loads text = inr v ->
      forallb sliceable_title (listed_candidates v) = true) ->
  agree (parse_pdf_document env) (parse_pdf_document (without_callback env)).
Proof.
  intros Htitles. unfold parse_pdf_document.
  apply agree_try_except.
  - unfold pipeline_body.
    apply agree_bind.
    { unfold ocr_stage.
      change (secret_api_key (without_callback env)) with (secret_api_key env).
      change (mistral_client (without_callback env)) with (mistral_client env).
      change (files_upload (without_callback env)) with (files_upload env).
      change (get_signed_url (without_callback env)) with (get_signed_url env).
      change (ocr_process (without_callback env)) with (ocr_process env).
      apply agree_bind; [apply agree_lift|intros api_key ? ? _].
      apply agree_bind;
        [destruct api_key; [apply agree_raise|apply agree_ret]|intros ? ? ? _].
      apply agree_bind; [apply agree_lift|intros ? ? ? _].
      apply agree_bind; [apply agree_progress_callback|intros ? ? ? _].
      apply agree_bind; [apply agree_request|intros ? ? ? _].
      apply agree_bind; [apply agree_lift|intros ? ? ? _].
      apply agree_bind; [apply agree_request|intros ? ? ? _].
      apply agree_bind; [apply agree_lift|intros ? ? ? _].
      apply agree_bind; [apply agree_progress_callback|intros ? ? ? _].
      apply agree_bind; [apply agree_request|intros ? ? ? _].
      apply agree_lift. }
    intros ocr ? ? _.
    apply agree_bind.
    { unfold list_stage.
      change (list_completion (without_callback env)) with (list_completion env).
      apply agree_bind; [apply agree_progress_callback|intros ? ? ? _].
      apply agree_bind; [apply agree_request|intros ? ? ? _].
      apply agree_bind; [apply agree_lift|intros ? ? ? _].
      apply agree_bind; [apply agree_print|intros ? ? ? _].
      apply agree_bind; [apply agree_progress_callback|intros ? ? ? _].
      apply agree_bind.
      { unfold loads_project_list.
        apply agree_try_except_decode; [apply agree_loads|intros; apply agree_raise]. }
      intros ? ? ? _.
      apply agree_bind; [apply agree_py_get_default|intros ps ? ? _].
      apply agree_bind;
        [destruct (truthy ps); [apply agree_ret|apply agree_raise]|intros ? ? ? _].
      apply agree_ret. }
    intros projects wl wl' Hlist.
    apply list_stage_trace in Hlist.
    destruct Hlist as (text & d & Htext & Hl & -> & _).
    apply agree_bind.
    { unfold extraction_stage.
      apply agree_bind; [apply agree_py_len|intros n ? ? _].
      apply agree_bind; [apply agree_progress_callback|intros ? ? ? _].
      apply agree_bind;
        [destruct (int_too_large (Z.of_nat n)); [apply agree_raise|apply agree_ret]
        |intros ? ? ? _].
      apply agree_project_loop.
      apply (Htitles _ _ _ Htext Hl). }
    intros parsed ? ? _.
    unfold finish.
    apply agree_bind;
      [destruct parsed; [apply agree_raise|apply agree_ret]|intros ? ? ? _].
    apply agree_bind; [apply agree_progress_callback|intros ? ? ? _].
    apply agree_ret.
  - intros e.
    apply agree_bind; [apply agree_progress_callback|intros ? ? ? _].
    apply agree_raise.
Qed.

(** ** Failures before the loop *)

(** X1. When the secret store raises, or holds an empty key, the run fails
    with the wrapped message of that error before anything else happens:
    no request is made, nothing is printed, and the only event is that of
    the failure. *)
Theorem missing_api_key_makes_no_request env w e0 :
  secret_api_key env = inl e0
  \/ (secret_api_key env = inr []
      /\ e0 = ValueError (py "MISTRAL_API_KEY not found in environment variables")) ->
  parse_pdf_document env w
  = (inr (Exception (py "Erreur lors du traitement OCR: " ++ str_exn e0)),
     mkWorld (events w ++ callback_events env 0 (py "Erreur: " ++ str_exn e0))
       (stdout w) (calls w)).
Proof.
  intros H.
  assert (Hbody : pipeline_body env w = (inr e0, w)).
  { unfold pipeline_body, ocr_stage. unfold bind at 1. unfold bind at 1.
    destruct H as [H|[H ->]]; rewrite H; reflexivity. }
  unfold parse_pdf_document, try_except. rewrite Hbody.
  unfold bind, progress_callback, callback_events.
  destruct (has_callback env).
  - reflexivity.
  - unfold ret, raise. rewrite app_nil_r. destruct w; reflexivity.
Qed.

(** X2. When the list answer decodes to an object whose [Liste] is missing
    or empty, the run fails with the message of the empty list; the list
    request is the last request made, and no request is made for a
    candidate. *)
Theorem empty_project_list_stops_run env w ocr w1 text d :
  ocr_stage env w = (inl ocr, w1) ->
  list_completion env (clean_document ocr) = inr text ->
  json_loads text = inr (JObj d) ->
  truthy (dict_get_default (py "Liste") d (JArr [])) = false ->
  fst (parse_pdf_document env w)
  = inr (Exception
           (py "Erreur lors du traitement OCR: "
            ++ py "Aucun projet trouvé dans le document"))
  /\ calls (snd (parse_pdf_document env w))
     = calls w1 ++ [ChatComplete listPrompt (clean_document ocr)]
  /\ project_requests (snd (parse_pdf_document env w)) = project_requests w.
Proof.
  intros Hocr Hlist Hloads Hempty.
  assert (Hbody : exists wb,
             pipeline_body env w
             = (inr (Exception (py "Aucun projet trouvé dans le document")), wb)
             /\ calls wb = calls w1 ++ [ChatComplete listPrompt (clean_document ocr)]).
  { unfold pipeline_body. unfold bind at 1. rewrite Hocr.
    unfold bind at 1. unfold list_stage.
    unfold bind at 1.
    destruct (progress_callback_run env (round64 (3 # 10))
                (py "Extraction de la liste de projets...") w1)
      as (wa & Ea & _ & _ & Hca).
    rewrite Ea. unfold bind at 1, request. unfold bind at 1. rewrite Hlist.
    unfold lift, ret. unfold bind at 1, print. unfold bind at 1.
    match goal with
    | |- context [progress_callback env (round64 (4 # 10)) ?st ?w0] =>
      destruct (progress_callback_run env (round64 (4 # 10)) st w0)
        as (wc & Ec & _ & _ & Hcc)
    end.
    rewrite Ec. unfold bind at 1, loads_project_list, try_except_decode, loads.
    rewrite Hloads. unfold bind at 1, py_get_default, ret.
    unfold bind at 1. rewrite Hempty. unfold raise.
    eexists. split; [reflexivity|].
    rewrite Hcc. cbn [calls]. rewrite Hca. reflexivity. }
  destruct Hbody as (wb & Hbody & Hcalls).
  destruct (run_of_failed_body env w _ _ Hbody) as [Hres Hc].
  unfold str_exn in Hres.
  split; [exact Hres|]. split.
  - rewrite Hc. exact Hcalls.
  - unfold project_requests. rewrite Hc, Hcalls, filter_app.
    change (filter is_project_request
              [ChatComplete listPrompt (clean_document ocr)])
      with (@nil ServiceCall).
    rewrite app_nil_r.
    apply ocr_stage_inl in Hocr. destruct Hocr as [_ Hreq]. exact Hreq.
Qed.

(** ** Failures inside one iteration *)

(** A candidate that reaches its request, up to the answer. *)
Lemma steps_reach_answer env ocr n idx s e t t50 payload parsed w :
  negb (truthy s) || negb (truthy e) = false ->
  (has_callback env = true -> slice50 t = Some t50) ->
  clean_pages ocr s e = Some payload ->
  project_steps env ocr n idx s e t parsed w
  = (project_data_json <- lift (project_completion env idx payload) ;;
     try_except_decode
       (decode_project t s e project_data_json parsed)
       (fun msg => print (warning_parse t msg) ;;; ret parsed))
      (mkWorld (events w ++ project_event env n idx t50) (stdout w)
         (calls w ++ [ChatComplete REXPrompt payload])).
Proof.
  intros Hp Hs Hc. unfold project_steps, project_event. rewrite Hp.
  unfold bind at 1.
  destruct (has_callback env) eqn:Hcb.
  - specialize (Hs eq_refl). unfold bind at 1, py_slice50.
    destruct t; simpl in Hs; try discriminate; inversion Hs; subst; simpl;
      unfold run_clean_pages, bind at 1; rewrite Hc; simpl;
      unfold bind at 1, request; reflexivity.
  - simpl. rewrite app_nil_r.
    unfold run_clean_pages, bind at 1; rewrite Hc; simpl.
    unfold bind at 1, request; simpl.
    destruct w; reflexivity.
Qed.

(** A candidate stopped before its request by the page filter. *)
Lemma steps_unorderable env ocr n idx s e t t50 parsed w :
  negb (truthy s) || negb (truthy e) = false ->
  (has_callback env = true -> slice50 t = Some t50) ->
  clean_pages ocr s e = None ->
  project_steps env ocr n idx s e t parsed w
  = (inr (RuntimeFault (Unorderable s e)),
     mkWorld (events w ++ project_event env n idx t50) (stdout w) (calls w)).
Proof.
  intros Hp Hs Hc. unfold project_steps, project_event. rewrite Hp.
  unfold bind at 1.
  destruct (has_callback env) eqn:Hcb.
  - specialize (Hs eq_refl). unfold bind at 1, py_slice50.
    destruct t; simpl in Hs; try discriminate; inversion Hs; subst; simpl;
      unfold run_clean_pages, bind at 1; rewrite Hc; reflexivity.
  - simpl. rewrite app_nil_r.
    unfold run_clean_pages, bind at 1; rewrite Hc; simpl.
    destruct w; reflexivity.
Qed.

(** The outer [except] of an iteration whose steps raise. *)
Lemma iteration_of_failed_steps env ocr n idx d parsed w ex w1 :
  project_steps env ocr n idx (page_debut d) (page_fin d)
    (candidate_title idx d) parsed w = (inr ex, w1) ->
  project_iteration env ocr n idx (JObj d) parsed w
  = (inl parsed,
     mkWorld (events w1) (stdout w1 ++ [warning_processing idx ex]) (calls w1)).
Proof.
  intros H. unfold project_iteration, try_except.
  rewrite body_of_object, H. reflexivity.
Qed.

(** X3. A candidate whose request fails, or whose answer is valid JSON but
    not an object, is dropped by the outer [except] of its iteration: the
    request was made, one warning with the position of the candidate is
    printed, [parsed_data] is unchanged and the loop goes on with the next
    candidate. *)
Theorem failure_after_request_is_isolated env ocr n idx d t50 payload parsed w :
  pages_missing d = false ->
  (has_callback env = true -> slice50 (candidate_title idx d) = Some t50) ->
  clean_pages ocr (page_debut d) (page_fin d) = Some payload ->
  forall ex,
    project_completion env idx payload = inl ex
    \/ (exists text v,
          project_completion env idx payload = inr text
          /\ json_loads text = inr v
          /\ (forall r, v <> JObj r)
          /\ ex = RuntimeFault (NoItemAssignment v)) ->
    let after :=
      mkWorld (events w ++ project_event env n idx t50)
        (stdout w ++ [warning_processing idx ex])
        (calls w ++ [ChatComplete REXPrompt payload]) in
    project_iteration env ocr n idx (JObj d) parsed w = (inl parsed, after)
    /\ project_record env ocr idx (JObj d) = None
    /\ forall rest,
         project_loop env ocr n idx (JObj d :: rest) parsed w
         = project_loop env ocr n (S idx) rest parsed after.
Proof.
  intros Hm Hs Hc ex Hex after.
  assert (Hit : project_iteration env ocr n idx (JObj d) parsed w
                = (inl parsed, after)).
  { apply (iteration_of_failed_steps env ocr n idx d parsed w ex
             (mkWorld (events w ++ project_event env n idx t50) (stdout w)
                (calls w ++ [ChatComplete REXPrompt payload]))).
    destruct Hex as [Ha|(text & v & Ha & Hl & Hv & ->)].
    - rewrite (steps_reach_answer _ _ _ _ _ _ _ _ _ _ _ Hm Hs Hc).
      unfold bind, lift. rewrite Ha. reflexivity.
    - rewrite (steps_reach_decode _ _ _ _ _ _ _ _ _ _ _ _ Hm Hs Hc Ha).
      apply decode_not_object; assumption. }
  split; [exact Hit|]. split.
  - unfold project_record. rewrite Hm.
    destruct (has_callback env && negb (sliceable (candidate_title idx d)));
      [reflexivity|].
    rewrite Hc.
    destruct Hex as [Ha|(text & v & Ha & Hl & Hv & _)]; rewrite Ha;
      [reflexivity|].
    rewrite Hl. destruct v; try reflexivity. destruct (Hv fields eq_refl).
  - intros rest. cbn [project_loop]. unfold bind at 1. rewrite Hit. reflexivity.
Qed.

(** X4. A candidate whose page bounds cannot be compared with a page
    number is dropped before any request: the progress event has been
    handed over, one warning is printed, no request is made and no record
    is added. *)
Theorem unorderable_bounds_drop_candidate env ocr n idx d t50 parsed w :
  pages_missing d = false ->
  (has_callback env = true -> slice50 (candidate_title idx d) = Some t50) ->
  clean_pages ocr (page_debut d) (page_fin d) = None ->
  project_iteration env ocr n idx (JObj d) parsed w
  = (inl parsed,
     mkWorld (events w ++ project_event env n idx t50)
       (stdout w
        ++ [warning_processing idx
              (RuntimeFault (Unorderable (page_debut d) (page_fin d)))])
       (calls w))
  /\ project_record env ocr idx (JObj d) = None.
Proof.
  intros Hm Hs Hc. split.
  - apply (iteration_of_failed_steps env ocr n idx d parsed w _
             (mkWorld (events w ++ project_event env n idx t50) (stdout w) (calls w))).
    apply steps_unorderable; assumption.
  - unfold project_record. rewrite Hm, Hc.
    destruct (has_callback env && negb (sliceable (candidate_title idx d)));
      reflexivity.
Qed.

(** X5. With a progress callback, a candidate with pages whose title
    cannot be cut by [[:50]] (a number, for one) is dropped before any
    request, by the [TypeError] of the status message; the same candidate
    run without a callback goes through and adds its record. *)
Theorem uncuttable_title_drops_candidate_with_callback
    env ocr n idx d payload text r parsed w :
  pages_missing d = false ->
  sliceable (candidate_title idx d) = false ->
  clean_pages ocr (page_debut d) (page_fin d) = Some payload ->
  project_completion env idx payload = inr text ->
  json_loads text = inr (JObj r) ->
  (has_callback env = true ->
   project_iteration env ocr n idx (JObj d) parsed w
   = (inl parsed,
      mkWorld (events w)
        (stdout w
         ++ [warning_processing idx
               (RuntimeFault (NotSubscriptable (candidate_title idx d)))])
        (calls w))
   /\ project_record env ocr idx (JObj d) = None)
  /\ project_iteration (without_callback env) ocr n idx (JObj d) parsed w
     = (inl (parsed
             ++ [JObj (tagged (candidate_title idx d) (page_debut d)
                         (page_fin d) r)]),
        mkWorld (events w)
          (stdout w ++ [message_success (candidate_title idx d)])
          (calls w ++ [ChatComplete REXPrompt payload])).
Proof.
  intros Hm Hs Hc Ha Hl. split.
  - intros Hcb. split.
    + apply (iteration_of_failed_steps env ocr n idx d parsed w _ w).
      pose proof Hm as Hp. unfold pages_missing in Hp.
      unfold project_steps. rewrite Hp, Hcb.
      unfold bind at 1, bind at 1, py_slice50.
      unfold sliceable in Hs.
      destruct (candidate_title idx d); simpl in Hs; try discriminate;
        reflexivity.
    + unfold project_record. rewrite Hm, Hcb, Hs. reflexivity.
  - apply iteration_of_steps.
    rewrite (steps_reach_decode (without_callback env) ocr n idx
               (page_debut d) (page_fin d) (candidate_title idx d) JNull payload
               text parsed w Hm).
    + rewrite (decode_object _ _ _ _ _ _ _ Hl).
      unfold project_event. cbn [has_callback without_callback].
      rewrite app_nil_r. reflexivity.
    + intros H. discriminate H.
    + exact Hc.
    + exact Ha.
Qed.

(** ** Invariants of a run *)


(** X7. Whatever the candidates are and whatever the services answer, the
    loop ends without an exception and prints exactly one line per
    candidate. *)
Theorem loop_prints_one_line_per_candidate env ocr n idx projects parsed w :
  exists lines parsed' w',
    project_loop env ocr n idx projects parsed w = (inl parsed', w')
    /\ stdout w' = stdout w ++ lines
    /\ List.length lines = List.length projects.
Proof.
  destruct (loop_trace env ocr n projects idx parsed w)
    as (lines & reqs & w' & E & Hout & Hlen & _).
  exists lines, (parsed ++ loop_records env ocr idx projects), w'.
  split; [exact E|]. split; [exact Hout|exact Hlen].
Qed.

(** X8. A successful run has made, in this order, the upload, the request
    of the signed URL, the OCR request, the list request on the whole
    document and then only requests for candidates: at least one per
    record returned and at most one per candidate of the list. *)
Theorem requests_of_a_successful_run env w recs :
  fst (parse_pdf_document env w) = inl recs ->
  exists file_id url ocr text v reqs,
    ocr_process env url = inr ocr
    /\ list_completion env (clean_document ocr) = inr text
    /\ json_loads text = inr v
    /\ calls (snd (parse_pdf_document env w))
       = calls w
         ++ [ FilesUpload filename file_content; GetSignedUrl file_id;
              OcrProcess url; ChatComplete listPrompt (clean_document ocr) ]
         ++ reqs
    /\ Forall (fun c => is_project_request c = true) reqs
    /\ (List.length recs <= List.length reqs)%nat
    /\ (List.length reqs <= List.length (listed_candidates v))%nat.
Proof.
  intros Hok. apply run_trace in Hok.
  destruct Hok as (file_id & url & ocr & text & d & lines & reqs & _ & _ & Hocr
                   & Htext & Hl & _ & _ & _ & _ & Hcalls & Hall & Hlo & Hhi).
  exists file_id, url, ocr, text, (JObj d), reqs.
  repeat (split; [assumption|]). exact Hhi.
Qed.

(** X9. When every candidate of the list has a title that can be cut (a
    string, or none at all), the run with a progress callback and the run
    without one return the same result, print the same lines and make the
    same requests. *)
Theorem callback_does_not_change_the_result env w :
  (forall doc text v,
      list_completion env doc = inr text ->
      json_loads text = inr v ->
      forallb sliceable_title (listed_candidates v) = true) ->
  fst (parse_pdf_document env w)
  = fst (parse_pdf_document (without_callback env) w)
  /\ stdout (snd (parse_pdf_document env w))
     = stdout (snd (parse_pdf_document (without_callback env) w))
  /\ calls (snd (parse_pdf_document env w))
     = calls (snd (parse_pdf_document (without_callback env) w)).
Proof.
  intros Htitles.
  destruct (agree_run env Htitles w w (conj eq_refl eq_refl)) as [Hr [Ho Hc]].
  split; [exact Hr|]. split; [exact Ho|exact Hc].
Qed.

(** ** The caller of a run *)

(** With a callback, the last event of a successful run carries 1. *)
Lemma run_last_event env w recs :
  has_callback env = true ->
  fst (parse_pdf_document env w) = inl recs ->
  exists before status,
    events (snd (parse_pdf_document env w))
    = events w ++ before ++ [(1%Q, status)].
Proof.
  intros Hcb Hok. pose proof (run_inl _ _ _ Hok) as Hrun.
  rewrite Hrun in Hok |- *. clear Hrun.
  destruct (pipeline_body env w) as [[l|e] w4] eqn:Hbody;
    [|simpl in Hok; discriminate].
  cbn [snd]. unfold pipeline_body in Hbody.
  apply bind_inl in Hbody. destruct Hbody as (ocr & w1 & Hocr & Hbody).
  apply bind_inl in Hbody. destruct Hbody as (projects & w2 & Hlist & Hbody).
  apply bind_inl in Hbody. destruct Hbody as (parsed & w3 & Hext & Hfin).
  destruct (emits_ocr_stage env w) as (e1 & He1 & _).
  rewrite Hocr in He1. cbn [snd] in He1.
  destruct (emits_list_stage env ocr w1) as (e2 & He2 & _).
  rewrite Hlist in He2. cbn [snd] in He2.
  destruct (emits_extraction_stage env ocr projects w2) as (e3 & He3 & _).
  rewrite Hext in He3. cbn [snd] in He3.
  apply finish_inl in Hfin. destruct Hfin as (_ & _ & status & He4).
  unfold callback_events in He4. rewrite Hcb in He4.
  exists (e1 ++ e2 ++ e3), status.
  rewrite He4, He3, He2, He1. rewrite <- !app_assoc. reflexivity.
Qed.

Lemma bar_values_of_events evs :
  bar_values (flat_map update_progress evs) = map fst evs.
Proof.
  induction evs as [|ev evs IH]; [reflexivity|].
  cbn [flat_map update_progress app map]. unfold bar_values in *.
  cbn [flat_map app]. rewrite IH. reflexivity.
Qed.

Lemma bar_values_app l1 l2 :
  bar_values (l1 ++ l2) = bar_values l1 ++ bar_values l2.
Proof. unfold bar_values. apply flat_map_app. Qed.

(** X10. When the run fails, [process_uploaded_file] returns normally and
    leaves the stored result of the session as it was; the bar is set back
    to 0 with the message of the failure, both slots are emptied, and the
    message shown carries the error with the prefixes of both functions.
    Every value given to the progress bar lies between 0 and 1. *)
Theorem failed_upload_shows_the_wrapped_error env now session w e0 wb :
  pipeline_body (with_callback env) (mkWorld [] (stdout w) (calls w))
  = (inr e0, wb) ->
  exists shown w',
    process_uploaded_file env now session w = (Returned, session, shown, w')
    /\ shown
       = [ BarValue 0; StatusSlot ]
         ++ flat_map update_progress (events wb)
         ++ [ BarValue 0; StatusText (py "Erreur: " ++ str_exn e0);
              BarEmpty; StatusEmpty;
              Markdown
                (div_open "error-message" ++ py "❌ Erreur lors du traitement: "
                 ++ py "Erreur lors du traitement OCR: " ++ str_exn e0
                 ++ py "</div>") ]
    /\ Forall (fun q => (0 <= q <= 1)%Q) (bar_values shown)
    /\ stdout w' = stdout wb
    /\ calls w' = calls wb.
Proof.
  intros Hbody.
  pose (start := mkWorld [] (stdout w) (calls w)).
  assert (Hrun : parse_pdf_document (with_callback env) start
                 = (inr (Exception (py "Erreur lors du traitement OCR: " ++ str_exn e0)),
                    mkWorld (events wb ++ [(0%Q, py "Erreur: " ++ str_exn e0)])
                      (stdout wb) (calls wb))).
  { unfold parse_pdf_document, try_except. fold start in Hbody. rewrite Hbody.
    reflexivity. }
  destruct (emits_run (with_callback env) start) as (evs & Hev & Hall).
  fold start in Hrun. rewrite Hrun in Hev. cbn [snd events start] in Hev.
  unfold process_uploaded_file. fold start. rewrite Hrun.
  eexists. eexists. split; [reflexivity|].
  cbn [events stdout calls].
  split.
  - rewrite flat_map_app. cbn [flat_map update_progress app fst snd].
    unfold error_message, str_exn at 1. rewrite <- !app_assoc. reflexivity.
  - split; [|split; reflexivity].
    rewrite !bar_values_app, bar_values_of_events, Hev.
    cbn [app]. cbn [bar_values flat_map app].
    constructor; [split; discriminate|].
    rewrite app_nil_r.
    rewrite Forall_map. exact Hall.
Qed.

(** X11. When the run succeeds, [process_uploaded_file] stores the file
    name, the date and the records, which are never an empty list, as the
    last result of the session; the bar has reached 1 before both slots are
    emptied, the message shown counts the records, and the call ends with
    the rerun of the script. Every value given to the progress bar lies
    between 0 and 1. *)
Theorem successful_upload_stores_the_records env now session w recs :
  fst (parse_pdf_document (with_callback env) (mkWorld [] (stdout w) (calls w)))
  = inl recs ->
  exists before status shown w',
    process_uploaded_file env now session w
    = (Rerun, Some (mkLastParsed filename now recs), shown, w')
    /\ shown
       = [ BarValue 0; StatusSlot ] ++ before
         ++ [ BarValue 1; StatusText status; BarEmpty; StatusEmpty;
              Markdown (success_message (List.length recs)); Sleep ]
    /\ recs <> []
    /\ Forall (fun q => (0 <= q <= 1)%Q) (bar_values shown).
Proof.
  intros Hok.
  pose (start := mkWorld [] (stdout w) (calls w)).
  fold start in Hok.
  destruct (run_last_event (with_callback env) start recs eq_refl Hok)
    as (evs & status & Hlast).
  cbn [events start app] in Hlast.
  destruct (emits_run (with_callback env) start) as (all & Hev & Hall).
  cbn [events start app] in Hev.
  assert (Hne : recs <> []).
  { destruct (run_trace _ _ _ Hok)
      as (file_id & url & ocr & text & d & lines & reqs & _ & _ & _ & _ & _ & _
          & Hne & _).
    exact Hne. }
  unfold process_uploaded_file. fold start.
  destruct (parse_pdf_document (with_callback env) start) as [[l|e] w'] eqn:Hrun;
    [|discriminate].
  cbn [fst] in Hok. inversion Hok; subst l.
  cbn [snd] in Hlast, Hev.
  exists (flat_map update_progress evs), status.
  eexists. eexists. split; [reflexivity|].
  split.
  - rewrite Hlast, flat_map_app. cbn [flat_map update_progress app fst snd].
    rewrite <- !app_assoc. reflexivity.
  - split; [exact Hne|].
    rewrite !bar_values_app, bar_values_of_events.
    cbn [bar_values flat_map app].
    constructor; [split; discriminate|].
    rewrite app_nil_r, Hev, Forall_map. exact Hall.
Qed.

(** ** The order of the events of any run *)

(** The order of two computed binary64 numbers. *)
Ltac float_order := vm_compute; discriminate.

Lemma climbs_silent {A} lo hi (m : M A) : silent m -> climbs lo hi m.
Proof.
  intros H w. exists []. rewrite H, app_nil_r.
  split; [reflexivity|]. split; constructor.
Qed.

Lemma climbs_bind {A B} lo mid hi (m : M A) (k : A -> M B) :
  (lo <= mid)%Q -> (mid <= hi)%Q ->
  climbs lo mid m ->
  (forall a w w1, m w = (inl a, w1) -> climbs mid hi (k a)) ->
  climbs lo hi (bind m k).
Proof.
  intros Hlo Hhi Hm Hk w. unfold bind.
  destruct (Hm w) as (e1 & He1 & Hs1 & Hb1).
  assert (Hb1' : Forall (fun q => (lo <= q <= hi)%Q) (map fst e1)).
  { eapply Forall_impl; [|exact Hb1]. intros q [H1 H2]. split; [exact H1|].
    eapply Qle_trans; [exact H2|exact Hhi]. }
  destruct (m w) as [[a|e] w1] eqn:E; cbn [snd] in He1.
  - destruct (Hk a w w1 E w1) as (e2 & He2 & Hs2 & Hb2).
    exists (e1 ++ e2). split; [rewrite He2, He1, app_assoc; reflexivity|].
    rewrite map_app. split.
    + apply sorted_app; [exact Hs1|exact Hs2|].
      intros x y Hx Hy. rewrite Forall_forall in Hb1, Hb2.
      eapply Qle_trans; [apply (Hb1 x Hx)|apply (Hb2 y Hy)].
    + apply Forall_app. split; [exact Hb1'|].
      eapply Forall_impl; [|exact Hb2]. intros q [H1 H2]. split; [|exact H2].
      eapply Qle_trans; [exact Hlo|exact H1].
  - exists e1. split; [exact He1|]. split; assumption.
Qed.

Lemma climbs_callback lo hi env q status :
  (lo <= q)%Q -> (q <= hi)%Q -> climbs lo hi (progress_callback env q status).
Proof.
  intros Hlo Hhi w. unfold progress_callback. destruct (has_callback env).
  - exists [(q, status)]. split; [reflexivity|]. cbn [map fst]. split.
    + repeat constructor.
    + constructor; [split; assumption|constructor].
  - exists []. cbn [ret snd]. rewrite app_nil_r.
    split; [reflexivity|]. split; constructor.
Qed.

(** A silent step, and then a computation that climbs. *)
Lemma climbs_after_silent {A B} lo hi (m : M A) (k : A -> M B) :
  (lo <= hi)%Q -> silent m ->
  (forall a w w1, m w = (inl a, w1) -> climbs lo hi (k a)) ->
  climbs lo hi (bind m k).
Proof.
  intros Hle Hm Hk. apply (climbs_bind lo lo hi); [apply Qle_refl|exact Hle| |exact Hk].
  apply climbs_silent. exact Hm.
Qed.

(** A guarded call of the callback, and then a computation that climbs
    from its progress value. *)
Lemma climbs_after_callback {B} lo hi env q status (k : unit -> M B) :
  (lo <= q)%Q -> (q <= hi)%Q ->
  (forall a, climbs q hi (k a)) ->
  climbs lo hi (bind (progress_callback env q status) k).
Proof.
  intros Hlo Hhi Hk. apply (climbs_bind lo q hi); [exact Hlo|exact Hhi| |].
  - apply climbs_callback; [exact Hlo|apply Qle_refl].
  - intros a ? ? _. apply Hk.
Qed.

Lemma climbs_ocr_stage env :
  climbs (round64 (1 # 10)) (round64 (2 # 10)) (ocr_stage env).
Proof.
  unfold ocr_stage.
  apply climbs_after_silent;
    [float_order|apply silent_lift|intros api_key ? ? _].
  apply climbs_after_silent;
    [float_order
    |destruct api_key; [apply silent_raise|apply silent_ret]
    |intros ? ? ? _].
  apply climbs_after_silent; [float_order|apply silent_lift|intros ? ? ? _].
  apply climbs_after_callback; [float_order|float_order|intros _].
  apply climbs_after_silent; [float_order|apply silent_request|intros ? ? ? _].
  apply climbs_after_silent; [float_order|apply silent_lift|intros ? ? ? _].
  apply climbs_after_silent; [float_order|apply silent_request|intros ? ? ? _].
  apply climbs_after_silent; [float_order|apply silent_lift|intros ? ? ? _].
  apply climbs_after_callback; [float_order|float_order|intros _].
  apply climbs_after_silent; [float_order|apply silent_request|intros ? ? ? _].
  apply climbs_silent, silent_lift.
Qed.

Lemma climbs_list_stage env ocr :
  climbs (round64 (2 # 10)) (round64 (4 # 10)) (list_stage env ocr).
Proof.
  unfold list_stage.
  apply climbs_after_callback; [float_order|float_order|intros _].
  apply climbs_after_silent; [float_order|apply silent_request|intros ? ? ? _].
  apply climbs_after_silent; [float_order|apply silent_lift|intros ? ? ? _].
  apply climbs_after_silent; [float_order|apply silent_print|intros ? ? ? _].
  apply climbs_after_callback; [float_order|float_order|intros _].
  apply climbs_silent.
  apply silent_bind; [apply silent_loads_project_list|intros v].
  apply silent_bind; [apply silent_py_get_default|intros projects].
  apply silent_bind;
    [destruct (truthy projects); [apply silent_ret|apply silent_raise]
    |intros; apply silent_ret].
Qed.

Lemma climbs_extraction_stage env ocr projects :
  climbs (round64 (4 # 10)) 1 (extraction_stage env ocr projects).
Proof.
  unfold extraction_stage.
  apply climbs_after_silent;
    [float_order|apply silent_py_len|intros n w0 w1 Hn].
  apply py_len_inl in Hn. destruct Hn as [-> _].
  apply climbs_after_callback; [float_order|float_order|intros _].
  destruct (int_too_large (Z.of_nat (List.length (py_items projects))))
    eqn:Hfin.
  - intros w. exists []. unfold bind, raise. cbn [snd]. rewrite app_nil_r.
    split; [reflexivity|]. split; constructor.
  - apply climbs_after_silent; [float_order|apply silent_ret|intros ? ? ? _].
    intros wl.
    destruct (loop_events env ocr (List.length (py_items projects))
                (py_items projects) 0%nat [] wl) as (evs & Hev & Hprog).
    exists evs. split; [exact Hev|].
    pose proof (loop_progress_bounds _ _ Hfin Hprog) as Hb.
    destruct Hprog as [Hsorted _]. split; [exact Hsorted|exact Hb].
Qed.

Lemma climbs_finish env parsed : climbs 1 1 (finish env parsed).
Proof.
  unfold finish.
  apply climbs_after_silent;
    [float_order
    |destruct parsed; [apply silent_raise|apply silent_ret]
    |intros ? ? ? _].
  apply climbs_after_callback; [float_order|float_order|intros _].
  apply climbs_silent, silent_ret.
Qed.

Lemma climbs_pipeline_body env :
  climbs (round64 (1 # 10)) 1 (pipeline_body env).
Proof.
  unfold pipeline_body.
  apply (climbs_bind (round64 (1 # 10)) (round64 (2 # 10)) 1);
    [float_order|float_order|apply climbs_ocr_stage|intros ocr ? ? _].
  apply (climbs_bind (round64 (2 # 10)) (round64 (4 # 10)) 1);
    [float_order|float_order|apply climbs_list_stage|intros projects ? ? _].
  apply (climbs_bind (round64 (4 # 10)) 1 1);
    [float_order|float_order|apply climbs_extraction_stage|intros parsed ? ? _].
  apply climbs_finish.
Qed.

(** X12. In every run the progress values handed to the callback, as the
    binary64 numbers the code computes, never decrease, from the value of
    the literal 0.1 up to at most 1, as long as the run has not failed;
    a run that succeeds hands over nothing else, and a run that fails hands
    over, after them, the single event of the failure, whose progress is 0.
    A run without a callback hands over nothing at all. *)
Theorem progress_climbs_until_a_failure env w :
  exists evs last,
    events (snd (parse_pdf_document env w)) = events w ++ evs ++ last
    /\ StronglySorted Qle (map fst evs)
    /\ Forall (fun q => (round64 (1 # 10) <= q <= 1)%Q) (map fst evs)
    /\ match fst (parse_pdf_document env w) with
       | inl _ => last = []
       | inr _ =>
         exists e0, last = callback_events env 0 (py "Erreur: " ++ str_exn e0)
       end
    /\ (has_callback env = false -> evs = [] /\ last = []).
Proof.
  destruct (climbs_pipeline_body env w) as (evs & Hev & Hsorted & Hbounds).
  assert (Hshape : exists last,
             events (snd (parse_pdf_document env w)) = events w ++ evs ++ last
             /\ match fst (parse_pdf_document env w) with
                | inl _ => last = []
                | inr _ =>
                  exists e0,
                    last = callback_events env 0 (py "Erreur: " ++ str_exn e0)
                end).
  { unfold parse_pdf_document, try_except.
    destruct (pipeline_body env w) as [[l|e0] wb]; cbn [snd] in Hev.
    - exists []. cbn [fst snd]. rewrite app_nil_r. auto.
    - unfold bind.
      destruct (progress_callback_run env 0 (py "Erreur: " ++ str_exn e0) wb)
        as (w2 & E & Hev2 & _).
      rewrite E. cbn [raise fst snd].
      exists (callback_events env 0 (py "Erreur: " ++ str_exn e0)).
      split; [rewrite Hev2, Hev, app_assoc; reflexivity|].
      exists e0. reflexivity. }
  destruct Hshape as (last & Hall & Hlast).
  exists evs, last.
  split; [exact Hall|]. split; [exact Hsorted|]. split; [exact Hbounds|].
  split; [exact Hlast|].
  intros Hcb. pose proof (silent_run env Hcb w) as Hs.
  rewrite Hs in Hall.
  rewrite <- (app_nil_r (events w)) in Hall at 1.
  apply app_inv_head in Hall. symmetry in Hall.
  apply app_eq_nil in Hall. exact Hall.
Qed.

(** ** Candidates that are not objects *)

Lemma iteration_of_non_object env ocr n idx project parsed w :
  (forall d, project <> JObj d) ->
  project_iteration env ocr n idx project parsed w
  = (inl parsed,
     mkWorld (events w)
       (stdout w
        ++ [warning_processing idx (RuntimeFault (NoGetAttribute project))])
       (calls w)).
Proof.
  intros H. destruct project; try reflexivity. destruct (H fields eq_refl).
Qed.

Lemma loop_of_non_objects env ocr n projects :
  (forall project d, In project projects -> project <> JObj d) ->
  forall idx parsed w,
  exists w',
    project_loop env ocr n idx projects parsed w = (inl parsed, w')
    /\ events w' = events w
    /\ calls w' = calls w.
Proof.
  induction projects as [|project rest IH]; intros H idx parsed w.
  - exists w. auto.
  - cbn [project_loop]. unfold bind.
    rewrite iteration_of_non_object
      by (intros d; apply H; left; reflexivity).
    destruct (IH (fun p d Hin => H p d (or_intror Hin)) (S idx) parsed
                (mkWorld (events w)
                   (stdout w
                    ++ [warning_processing idx
                          (RuntimeFault (NoGetAttribute project))])
                   (calls w)))
      as (w' & E & Hev & Hcalls).
    exists w'. split; [exact E|]. split; [exact Hev|exact Hcalls].
Qed.

(** X13. When [Liste] has a length and none of the candidates visited is
    an object (its items are strings or numbers, or [Liste] is itself a
    dict or a string, whose keys or characters are then visited), every
    iteration fails on its first [project.get], no request is made for a
    candidate, and the run fails with the message of the run without a
    record. (A length beyond the range of a [float] would fail the run
    before the loop, with the error of the conversion and no request for
    a candidate either.) *)
Theorem candidates_that_are_not_objects_fail_the_run env w ocr w1 projects w2 n :
  ocr_stage env w = (inl ocr, w1) ->
  list_stage env ocr w1 = (inl projects, w2) ->
  py_len projects w2 = (inl n, w2) ->
  (forall project d, In project (py_items projects) -> project <> JObj d) ->
  fst (parse_pdf_document env w)
  = inr (Exception
           (py "Erreur lors du traitement OCR: "
            ++ (if int_too_large (Z.of_nat n)
                then fault_message (IntTooLarge n)
                else py "Aucun projet n'a pu être analysé avec succès")))
  /\ calls (snd (parse_pdf_document env w)) = calls w2.
Proof.
  intros Hocr Hlist Hlen Hnone.
  assert (Hbody : exists wb,
             pipeline_body env w
             = (inr (if int_too_large (Z.of_nat n)
                     then RuntimeFault (IntTooLarge n)
                     else Exception
                            (py "Aucun projet n'a pu être analysé avec succès")),
                wb)
             /\ calls wb = calls w2).
  { unfold pipeline_body. unfold bind at 1. rewrite Hocr.
    unfold bind at 1. rewrite Hlist.
    unfold bind at 1. unfold extraction_stage.
    unfold bind at 1. rewrite Hlen.
    pose proof Hlen as Hn. apply py_len_inl in Hn. destruct Hn as [Hn _].
    unfold bind at 1.
    match goal with
    | |- context [progress_callback env (round64 (5 # 10)) ?st w2] =>
      destruct (progress_callback_run env (round64 (5 # 10)) st w2)
        as (wc & Ec & _ & _ & Hcc)
    end.
    rewrite Ec. unfold bind at 1.
    destruct (int_too_large (Z.of_nat n)).
    - exists wc. split; [reflexivity|exact Hcc].
    - cbn [ret]. rewrite Hn.
      destruct (loop_of_non_objects env ocr (List.length (py_items projects))
                  (py_items projects) Hnone 0%nat [] wc)
        as (wd & Eloop & _ & Hcd).
      rewrite Eloop, finish_empty.
      eexists. split; [reflexivity|]. rewrite Hcd. exact Hcc. }
  destruct Hbody as (wb & Hbody & Hcalls).
  destruct (run_of_failed_body env w _ _ Hbody) as [Hres Hc].
  split; [|rewrite Hc; exact Hcalls].
  rewrite Hres. destruct (int_too_large (Z.of_nat n)); reflexivity.
Qed.

(** ** Excluded and included candidates *)

Lemma included_passes_page_test d :
  included (JObj d) = negb (pages_missing d).
Proof.
  unfold included, pages_missing.
  destruct (truthy (page_debut d)); destruct (truthy (page_fin d)); reflexivity.
Qed.

Lemma excluded_or_included project :
  excluded project = negb (included project).
Proof.
  destruct project; try reflexivity.
  rewrite included_passes_page_test, negb_involutive. reflexivity.
Qed.

(** After the request of a candidate no other request is made. *)
Lemma answer_makes_no_request env idx t s e payload parsed w :
  calls
    (snd
       ((project_data_json <- lift (project_completion env idx payload) ;;
         try_except_decode
           (decode_project t s e project_data_json parsed)
           (fun msg => print (warning_parse t msg) ;;; ret parsed)) w))
  = calls w.
Proof.
  unfold bind at 1, lift.
  destruct (project_completion env idx payload) as [ex|text]; [reflexivity|].
  cbn [ret].
  destruct (json_loads text) as [msg|v] eqn:Hl.
  - rewrite (decode_failure _ _ _ _ _ _ _ Hl). reflexivity.
  - destruct v;
      try (rewrite (decode_not_object _ _ _ _ _ _ _ Hl);
           [reflexivity|intros r; discriminate]).
    rewrite (decode_object _ _ _ _ _ _ _ Hl). reflexivity.
Qed.

(** An included candidate that can be taken to its request makes it. *)
Lemma requestable_makes_request env ocr n idx d parsed w :
  pages_missing d = false ->
  requestable env ocr (JObj d) = true ->
  exists payload,
    calls (snd (project_iteration env ocr n idx (JObj d) parsed w))
    = calls w ++ [ChatComplete REXPrompt payload].
Proof.
  intros Hm Hr. unfold requestable in Hr.
  apply andb_true_iff in Hr. destruct Hr as [Hs Hc].
  destruct (clean_pages ocr (page_debut d) (page_fin d)) as [payload|] eqn:Hp;
    [clear Hc|discriminate].
  rewrite <- (sliceable_candidate_title idx) in Hs.
  assert (Hsl : exists t50,
             has_callback env = true ->
             slice50 (candidate_title idx d) = Some t50).
  { unfold sliceable in Hs.
    destruct (slice50 (candidate_title idx d)) as [t50|].
    - exists t50. reflexivity.
    - exists JNull. intros Hcb. rewrite Hcb in Hs. discriminate. }
  destruct Hsl as [t50 Hsl].
  exists payload.
  pose proof (steps_reach_answer env ocr n idx _ _ _ t50 payload parsed w
                Hm Hsl Hp) as Hsteps.
  pose proof (answer_makes_no_request env idx (candidate_title idx d)
                (page_debut d) (page_fin d) payload parsed
                (mkWorld (events w ++ project_event env n idx t50) (stdout w)
                   (calls w ++ [ChatComplete REXPrompt payload]))) as Hcalls.
  rewrite <- Hsteps in Hcalls. cbn [calls] in Hcalls.
  destruct (project_steps env ocr n idx (page_debut d) (page_fin d)
              (candidate_title idx d) parsed w) as [[l|ex] w1] eqn:E;
    cbn [snd] in Hcalls.
  - rewrite (iteration_of_steps _ _ _ _ _ _ _ _ _ E). exact Hcalls.
  - rewrite (iteration_of_failed_steps _ _ _ _ _ _ _ _ _ E). exact Hcalls.
Qed.

(** What one iteration does with a candidate of either kind. *)
Lemma iteration_account env ocr n idx project parsed w :
  exists line evs reqs w',
    project_iteration env ocr n idx project parsed w
    = (inl (parsed ++ record_list (project_record env ocr idx project)), w')
    /\ events w' = events w ++ evs
    /\ stdout w' = stdout w ++ [line]
    /\ calls w' = calls w ++ reqs
    /\ (List.length (record_list (project_record env ocr idx project))
        <= List.length reqs)%nat
    /\ (List.length reqs <= if included project then 1 else 0)%nat
    /\ (List.length evs <= if included project then 1 else 0)%nat
    /\ (included project = true -> requestable env ocr project = true ->
        List.length reqs = 1%nat)
    /\ (forall d, project = JObj d -> pages_missing d = true ->
        line = warning_no_pages (candidate_title idx d))
    /\ ((forall d, project <> JObj d) ->
        line = warning_processing idx (RuntimeFault (NoGetAttribute project))).
Proof.
  destruct (iteration_trace env ocr n idx project parsed w)
    as (line & reqs & w' & E & Hout & Hcalls & Hshape & Hnone).
  destruct (iteration_events env ocr n idx project parsed w)
    as (evs & Hev & Hevs).
  rewrite E in Hev. cbn [snd] in Hev.
  exists line, evs, reqs, w'.
  split; [exact E|]. split; [exact Hev|]. split; [exact Hout|].
  split; [exact Hcalls|].
  assert (Hrec : (List.length (record_list (project_record env ocr idx project))
                  <= List.length reqs)%nat).
  { destruct Hshape as [->|[payload ->]].
    - rewrite (Hnone eq_refl). apply Nat.le_refl.
    - destruct (project_record env ocr idx project); cbn; lia. }
  split; [exact Hrec|].
  assert (Hdropped : forall line0,
             project_iteration env ocr n idx project parsed w
             = (inl parsed,
                mkWorld (events w) (stdout w ++ [line0]) (calls w)) ->
             reqs = [] /\ evs = [] /\ line = line0).
  { intros line0 H. rewrite H in E. inversion E as [[Hl Hw]]. subst w'.
    cbn [events stdout calls] in *.
    split; [|split].
    - rewrite <- (app_nil_r (calls w)) in Hcalls at 1.
      apply app_inv_head in Hcalls. symmetry. exact Hcalls.
    - rewrite <- (app_nil_r (events w)) in Hev at 1.
      apply app_inv_head in Hev. symmetry. exact Hev.
    - apply app_inv_head in Hout. inversion Hout. reflexivity. }
  destruct project as [| | | | | |d];
    try (match goal with
         | |- context [included ?p] =>
           assert (Hno : forall d0, p <> JObj d0) by (intros d0; discriminate);
           destruct (Hdropped _ (iteration_of_non_object env ocr n idx p parsed w
                                   Hno)) as (-> & -> & ->)
         end;
         cbn [included List.length];
         split; [lia|]; split; [lia|]; split; [discriminate|];
         split; [intros d Hd; discriminate|reflexivity]).
  rewrite included_passes_page_test.
  destruct (pages_missing d) eqn:Hm; cbn [negb].
  - destruct (Hdropped _ (iteration_of_steps _ _ _ _ _ _ _ _ _
                            (steps_pages_missing env ocr n idx _ _ _ parsed w Hm)))
      as (-> & -> & ->).
    cbn [List.length].
    split; [auto|]. split; [auto|]. split; [intros Hf; discriminate|].
    split; [intros d0 Hd _; inversion Hd; reflexivity|].
    intros Hno. destruct (Hno d eq_refl).
  - split; [destruct Hshape as [->|[payload ->]]; cbn; lia|].
    split; [destruct Hevs as [->|[status ->]]; cbn; lia|].
    split.
    + intros _ Hr.
      destruct (requestable_makes_request env ocr n idx d parsed w Hm Hr)
        as [payload Hreq].
      rewrite E in Hreq. cbn [snd] in Hreq. rewrite Hcalls in Hreq.
      apply app_inv_head in Hreq. rewrite Hreq. reflexivity.
    + split; [intros d0 Hd Hm0; inversion Hd; subst d0; congruence|].
      intros Hno. destruct (Hno d eq_refl).
Qed.

(** The loop over a list of candidates, accounted for by kind. *)
Lemma loop_account env ocr n projects :
  forall idx parsed w,
  exists lines evs reqs w',
    project_loop env ocr n idx projects parsed w
    = (inl (parsed ++ loop_records env ocr idx projects), w')
    /\ events w' = events w ++ evs
    /\ stdout w' = stdout w ++ lines
    /\ calls w' = calls w ++ reqs
    /\ List.length lines = List.length projects
    /\ (forall i d,
          nth_error projects i = Some (JObj d) ->
          truthy (page_debut d) = false \/ truthy (page_fin d) = false ->
          project_record env ocr (idx + i) (JObj d) = None
          /\ nth_error lines i
             = Some (warning_no_pages (candidate_title (idx + i) d)))
    /\ (forall i project,
          nth_error projects i = Some project ->
          (forall d, project <> JObj d) ->
          project_record env ocr (idx + i) project = None
          /\ nth_error lines i
             = Some (warning_processing (idx + i)
                       (RuntimeFault (NoGetAttribute project))))
    /\ (List.length (loop_records env ocr idx projects) <= List.length reqs)%nat
    /\ (List.length reqs <= List.length (filter included projects))%nat
    /\ (List.length evs <= List.length (filter included projects))%nat
    /\ ((forall project,
           In project projects -> included project = true ->
           requestable env ocr project = true) ->
        List.length reqs = List.length (filter included projects))
    /\ (List.length (filter excluded projects)
        + List.length (filter included projects))%nat
       = List.length projects.
Proof.
  induction projects as [|project rest IH]; intros idx parsed w.
  - exists [], [], [], w. cbn [project_loop loop_records filter List.length].
    rewrite !app_nil_r.
    split; [reflexivity|]. split; [reflexivity|]. split; [reflexivity|].
    split; [reflexivity|]. split; [reflexivity|].
    split; [intros [|i] d H; discriminate|].
    split; [intros [|i] p H; discriminate|].
    repeat split; auto.
  - destruct (iteration_account env ocr n idx project parsed w)
      as (line & e1 & r1 & w1 & E1 & Hev1 & Hout1 & Hcalls1 & Hrec1 & Hreq1
          & Hevs1 & Hexact1 & Hpages1 & Hother1).
    destruct (IH (S idx)
                (parsed ++ record_list (project_record env ocr idx project)) w1)
      as (lines & e2 & r2 & w2 & E2 & Hev2 & Hout2 & Hcalls2 & Hlen & Hpages
          & Hother & Hrec & Hreq & Hevs & Hexact & Hcount).
    exists (line :: lines), (e1 ++ e2), (r1 ++ r2), w2.
    cbn [project_loop loop_records]. unfold bind. rewrite E1, E2.
    split; [rewrite <- app_assoc; reflexivity|].
    split; [rewrite Hev2, Hev1, <- app_assoc; reflexivity|].
    split; [rewrite Hout2, Hout1, <- app_assoc; reflexivity|].
    split; [rewrite Hcalls2, Hcalls1, <- app_assoc; reflexivity|].
    split; [cbn [List.length]; rewrite Hlen; reflexivity|].
    split.
    { intros [|i] d Hnth Hfalse.
      - cbn [nth_error] in Hnth. inversion Hnth; subst project.
        rewrite Nat.add_0_r.
        assert (Hm : pages_missing d = true).
        { unfold pages_missing. destruct Hfalse as [-> | ->]; cbn [negb];
            [reflexivity|apply orb_true_r]. }
        split.
        + unfold project_record. rewrite Hm. reflexivity.
        + cbn [nth_error]. rewrite (Hpages1 d eq_refl Hm). reflexivity.
      - cbn [nth_error] in Hnth |- *.
        replace (idx + S i)%nat with (S idx + i)%nat by lia.
        apply Hpages; assumption. }
    split.
    { intros [|i] p Hnth Hno.
      - cbn [nth_error] in Hnth. inversion Hnth; subst project.
        rewrite Nat.add_0_r.
        split.
        + destruct p; try reflexivity. destruct (Hno fields eq_refl).
        + cbn [nth_error]. rewrite (Hother1 Hno). reflexivity.
      - cbn [nth_error] in Hnth |- *.
        replace (idx + S i)%nat with (S idx + i)%nat by lia.
        apply Hother; assumption. }
    rewrite !length_app.
    assert (Hfilter : List.length (filter included (project :: rest))
                      = ((if included project then 1 else 0)
                         + List.length (filter included rest))%nat).
    { cbn [filter]. destruct (included project); reflexivity. }
    rewrite Hfilter.
    split; [lia|]. split; [lia|]. split; [lia|]. split.
    { intros Hall.
      assert (H2 : List.length r2 = List.length (filter included rest)).
      { apply Hexact. intros p Hin. apply Hall. right. exact Hin. }
      rewrite H2. f_equal.
      destruct (included project) eqn:Hi.
      - apply Hexact1; [reflexivity|]. apply Hall; [left; reflexivity|exact Hi].
      - lia. }
    cbn [filter]. rewrite (excluded_or_included project).
    destruct (included project); cbn [negb List.length]; lia.
Qed.

(** C4. A candidate whose [PageDebut] or [PageFin] is missing, zero or
    otherwise false is dropped by its iteration before anything is done
    for it: one warning is printed, and there is no exception, no event,
    no request, no change of [parsed_data] and no record. The loop over
    the candidates never raises and prints one line per candidate, for a
    candidate that is no object the warning of its failed [project.get];
    such a candidate is excluded too. The requests and the progress events
    of the loop are at most as many as the included candidates, exactly as
    many requests when every included candidate can be taken to its
    request, and excluded and included candidates add up to the list. *)
Theorem candidate_without_pages_dropped env ocr n projects idx parsed w :
  (forall i d parsed0 w0,
     truthy (page_debut d) = false \/ truthy (page_fin d) = false ->
     project_iteration env ocr n i (JObj d) parsed0 w0
     = (inl parsed0,
        mkWorld (events w0)
          (stdout w0
           ++ [py "Warning: Projet '" ++ py_format (candidate_title i d)
               ++ py "' n'a pas de pages définies, ignoré"])
          (calls w0))
     /\ project_record env ocr i (JObj d) = None
     /\ excluded (JObj d) = true)
  /\ exists lines evs reqs w',
      project_loop env ocr n idx projects parsed w
      = (inl (parsed ++ loop_records env ocr idx projects), w')
      /\ events w' = events w ++ evs
      /\ stdout w' = stdout w ++ lines
      /\ calls w' = calls w ++ reqs
      /\ List.length lines = List.length projects
      /\ (forall i d,
            nth_error projects i = Some (JObj d) ->
            truthy (page_debut d) = false \/ truthy (page_fin d) = false ->
            nth_error lines i
            = Some (py "Warning: Projet '"
                    ++ py_format (candidate_title (idx + i) d)
                    ++ py "' n'a pas de pages définies, ignoré"))
      /\ (forall i project,
            nth_error projects i = Some project ->
            (forall d, project <> JObj d) ->
            excluded project = true
            /\ project_record env ocr (idx + i) project = None
            /\ nth_error lines i
               = Some (py "Warning: Erreur lors du traitement du projet "
                       ++ str_of_nat (idx + i + 1) ++ py ": "
                       ++ fault_message (NoGetAttribute project)))
      /\ (List.length (loop_records env ocr idx projects)
          <= List.length reqs)%nat
      /\ (List.length reqs <= List.length (filter included projects))%nat
      /\ (List.length evs <= List.length (filter included projects))%nat
      /\ ((forall project,
             In project projects -> included project = true ->
             requestable env ocr project = true) ->
          (List.length (filter excluded projects) + List.length reqs)%nat
          = List.length projects)
      /\ (List.length (filter excluded projects)
          + List.length (filter included projects))%nat
         = List.length projects.
Proof.
  split.
  - intros i d parsed0 w0 Hfalse.
    assert (Hm : pages_missing d = true).
    { unfold pages_missing. destruct Hfalse as [-> | ->]; cbn [negb];
        [reflexivity|apply orb_true_r]. }
    split; [|split].
    + apply iteration_of_steps. apply steps_pages_missing. exact Hm.
    + unfold project_record. rewrite Hm. reflexivity.
    + exact Hm.
  - destruct (loop_account env ocr n projects idx parsed w)
      as (lines & evs & reqs & w' & E & Hev & Hout & Hcalls & Hlen & Hpages
          & Hother & Hrec & Hreq & Hevs & Hexact & Hcount).
    exists lines, evs, reqs, w'.
    split; [exact E|]. split; [exact Hev|]. split; [exact Hout|].
    split; [exact Hcalls|]. split; [exact Hlen|].
    split; [intros i d Hnth Hfalse; apply (Hpages i d Hnth Hfalse)|].
    split.
    { intros i project Hnth Hno.
      destruct (Hother i project Hnth Hno) as [Hnone Hline].
      split; [|split; [exact Hnone|exact Hline]].
      destruct project; try reflexivity. destruct (Hno fields eq_refl). }
    split; [exact Hrec|]. split; [exact Hreq|]. split; [exact Hevs|].
    split; [|exact Hcount].
    intros Hall. rewrite (Hexact Hall). exact Hcount.
Qed.

End Run.

End Pipeline.
Export Pipeline.

(* ------------------------------------------------------------------ *)
(** * Range filtering *)

Module NormalizerFacts.

Lemma filtered_pages_int s e ocr :
  filtered_pages (JInt s) (JInt e) ocr
  = Some (filter (fun p => (s <=? index p + 1) && (index p + 1 <=? e)) ocr).
Proof.
  induction ocr as [|p rest IH]; [reflexivity|].
  simpl. rewrite IH. unfold in_range. simpl.
  destruct (s <=? index p + 1); simpl; reflexivity.
Qed.

Lemma filter_transform s e ocr :
  map transform_page
    (filter (fun p => (s <=? index p + 1) && (index p + 1 <=? e)) ocr)
  = filter (in_page_range s e) (map transform_page ocr).
Proof.
  induction ocr as [|p rest IH]; [reflexivity|].
  cbn [map filter].
  change (in_page_range s e (transform_page p))
    with ((s <=? index p + 1) && (index p + 1 <=? e)).
  destruct ((s <=? index p + 1) && (index p + 1 <=? e)); cbn [map];
    rewrite IH; reflexivity.
Qed.

Lemma increasing_filter f ps :
  increasing_pages ps -> increasing_pages (filter f ps).
Proof.
  unfold increasing_pages. induction 1 as [|p ps Hs IH Hall]; simpl.
  - constructor.
  - destruct (f p); [|exact IH].
    constructor; [exact IH|].
    apply Forall_forall. intros q Hq. apply filter_In in Hq.
    rewrite Forall_forall in Hall. apply Hall. apply Hq.
Qed.

Lemma increasing_transform ocr :
  StronglySorted (fun p q => index p < index q) ocr ->
  increasing_pages (transformed_document ocr).
Proof.
  unfold increasing_pages, transformed_document.
  induction 1 as [|p ps Hs IH Hall]; simpl; constructor.
  - exact IH.
  - apply Forall_forall. intros q Hq. apply in_map_iff in Hq.
    destruct Hq as [q0 [<- Hq0]]. rewrite Forall_forall in Hall.
    specialize (Hall q0 Hq0). simpl. lia.
Qed.

(** C2, as the code has it. For every OCR document and integer range, the
    range-filtered payload holds exactly the pages of the whole-document
    payload whose [page_number] lies in the range, in the order of the
    document's pages: nothing is sorted. The page numbers of the result
    are strictly increasing when the indices of the document are. *)
Theorem range_filter_keeps_document_order ocr s e :
  clean_pages ocr (JInt s) (JInt e)
  = Some (dumps_payload (filter (in_page_range s e) (transformed_document ocr)))
  /\ clean_document ocr = dumps_payload (transformed_document ocr)
  /\ (forall p, In p (filter (in_page_range s e) (transformed_document ocr))
                <-> In p (transformed_document ocr) /\ s <= page_number p <= e)
  /\ (StronglySorted (fun p q => index p < index q) ocr ->
      increasing_pages (filter (in_page_range s e) (transformed_document ocr))).
Proof.
  split; [|split; [reflexivity|split]].
  - unfold clean_pages, transformed_pages, transformed_document.
    rewrite filtered_pages_int. simpl. rewrite filter_transform. reflexivity.
  - intros p. rewrite filter_In. unfold in_page_range.
    rewrite andb_true_iff, !Z.leb_le. reflexivity.
  - intros H. apply increasing_filter, increasing_transform. exact H.
Qed.

(** The pages of a document given out of order stay out of order in the
    range-filtered result: page 2 comes before page 1. *)
Lemma range_filter_does_not_sort :
  transformed_pages (JInt 1) (JInt 2) unsorted_document
  = Some [ mkPage 2 (py "deux"); mkPage 1 (py "un") ]
  /\ ~ increasing_pages [ mkPage 2 (py "deux"); mkPage 1 (py "un") ].
Proof.
  split; [reflexivity|].
  intros H. inversion H as [|p ps Hs Hall]; subst.
  inversion Hall as [|q qs Hlt Hrest]; subst. simpl in Hlt. lia.
Qed.

(** The theorem on a sorted document of three pages and the range [2, 3]. *)
Lemma range_filter_witness :
  increasing_pages
    (filter (in_page_range 2 3)
       (transformed_document
          [ mkOcrPage 0 (py "un"); mkOcrPage 1 (py "deux"); mkOcrPage 2 (py "trois") ])).
Proof.
  apply (proj2 (proj2 (proj2
    (range_filter_keeps_document_order
       [ mkOcrPage 0 (py "un"); mkOcrPage 1 (py "deux"); mkOcrPage 2 (py "trois") ]
       2 3)))).
  repeat constructor.
Defined.

(** ** The edges of the range *)

Lemma filter_none {A} (f : A -> bool) l :
  (forall x, In x l -> f x = false) -> filter f l = [].
Proof.
  induction l as [|a l IH]; intros H; [reflexivity|].
  simpl. rewrite (H a (or_introl eq_refl)). apply IH.
  intros x Hx. apply H. right. exact Hx.
Qed.

Lemma filter_all {A} (f : A -> bool) l :
  (forall x, In x l -> f x = true) -> filter f l = l.
Proof.
  induction l as [|a l IH]; intros H; [reflexivity|].
  simpl. rewrite (H a (or_introl eq_refl)). f_equal. apply IH.
  intros x Hx. apply H. right. exact Hx.
Qed.

(** X14. When no page of the document falls in the range (a range past
    the last page, or one whose end is before its start), the result is
    the payload of a document without pages: still a JSON text, whose
    [pages] is the empty list. *)
Theorem range_without_pages_gives_empty_payload ocr s e :
  (forall p, In p ocr -> index p + 1 < s \/ e < index p + 1) ->
  clean_pages ocr (JInt s) (JInt e) = Some (clean_document [])
  /\ decode (clean_document []) = Some (JObj [ (py "pages", JArr []) ]).
Proof.
  intros H. split; [|vm_compute; reflexivity].
  unfold clean_pages, transformed_pages. rewrite filtered_pages_int.
  rewrite filter_none; [reflexivity|].
  intros p Hp. apply andb_false_iff.
  destruct (H p Hp); [left|right]; apply Z.leb_gt; assumption.
Qed.

Lemma range_without_pages_witness :
  clean_pages demo_ocr (JInt 3) (JInt 2) = Some (clean_document []).
Proof.
  refine (proj1 (range_without_pages_gives_empty_payload demo_ocr 3 2 _)).
  intros p Hp. simpl in Hp.
  destruct Hp as [<-|[<-|[<-|[]]]]; simpl; lia.
Defined.

(** X15. When every page of the document falls in the range, the result is
    the very text that [clean_document] gives for the document. *)
Theorem range_covering_document_is_whole_document ocr s e :
  (forall p, In p ocr -> s <= index p + 1 <= e) ->
  clean_pages ocr (JInt s) (JInt e) = Some (clean_document ocr).
Proof.
  intros H.
  unfold clean_pages, transformed_pages. rewrite filtered_pages_int.
  rewrite filter_all; [reflexivity|].
  intros p Hp. apply andb_true_iff.
  destruct (H p Hp); split; apply Z.leb_le; assumption.
Qed.

Lemma range_covering_document_witness :
  clean_pages demo_ocr (JInt 1) (JInt 3) = Some (clean_document demo_ocr).
Proof.
  apply (range_covering_document_is_whole_document demo_ocr 1 3).
  intros p Hp. simpl in Hp.
  destruct Hp as [<-|[<-|[<-|[]]]]; simpl; lia.
Defined.

Lemma filtered_pages_bad_end s v ocr :
  (forall n, py_int_le n v = None) ->
  filtered_pages (JInt s) v ocr
  = if existsb (fun p => s <=? index p + 1) ocr then None else Some [].
Proof.
  intros Hv. induction ocr as [|p rest IH]; [reflexivity|].
  cbn [filtered_pages existsb]. unfold in_range. cbn [py_le_int].
  destruct (s <=? index p + 1); cbn [orb].
  - rewrite Hv. reflexivity.
  - rewrite IH. destruct (existsb (fun p0 => s <=? index p0 + 1) rest);
      reflexivity.
Qed.

(** X16. A bound that cannot be compared with a page number raises only
    where the chained comparison reaches it: a start bound at the first
    page of the document (an empty document gives the empty payload), and
    an end bound at the first page that is not before the start (when all
    pages are before the start, the result is the empty payload). *)
Theorem unorderable_bound_raises_where_compared ocr s first last e :
  (forall n, py_le_int first n = None) ->
  (forall n, py_int_le n last = None) ->
  clean_pages ocr first e
  = match ocr with
    | [] => Some (clean_document [])
    | _ :: _ => None
    end
  /\ clean_pages ocr (JInt s) last
     = if existsb (fun p => s <=? index p + 1) ocr then None
       else Some (clean_document []).
Proof.
  intros Hfirst Hlast. split.
  - destruct ocr as [|p rest]; [reflexivity|].
    unfold clean_pages, transformed_pages. cbn [filtered_pages].
    unfold in_range. rewrite Hfirst. reflexivity.
  - unfold clean_pages, transformed_pages.
    rewrite (filtered_pages_bad_end s last ocr Hlast).
    destruct (existsb (fun p => s <=? index p + 1) ocr); reflexivity.
Qed.

Lemma unorderable_bound_witness :
  clean_pages demo_ocr (JStr (py "1")) (JInt 3) = None
  /\ clean_pages demo_ocr (JInt 4) (JStr (py "fin")) = Some (clean_document []).
Proof.
  destruct (unorderable_bound_raises_where_compared demo_ocr 4
              (JStr (py "1")) (JStr (py "fin")) (JInt 3)) as [H1 H2].
  - intros n. reflexivity.
  - intros n. reflexivity.
  - split; [exact H1|exact H2].
Defined.


End NormalizerFacts.

(* ------------------------------------------------------------------ *)
(** * Runs on the example document *)

Module Scenarios.

(** The run of the example document in an environment, and its stages. *)
Local Abbreviation run env :=
  (parse_pdf_document demo_loads demo_fault demo_repr [] demo_filename env
     initial_world).

Local Abbreviation after_ocr env :=
  (snd (ocr_stage [] demo_filename env initial_world)).

Local Abbreviation after_list env :=
  (list_stage demo_loads env demo_ocr (after_ocr env)).

Local Abbreviation projects_of env :=
  (match fst (after_list env) with
   | inl v => v
   | inr _ => JNull
   end).

Local Abbreviation after_extraction env :=
  (extraction_stage demo_loads demo_fault demo_repr env demo_ocr
     (projects_of env) (snd (after_list env))).

(** The example of the specification: of the candidates A (pages 1 to 3)
    and B (first page 0), A alone yields a record, tagged with its title
    and page bounds. *)
Example run_of_list_a_b :
  fst (run (demo_env list_text))
  = inl [ JObj (tagged (JStr (py "A")) (JInt 1) (JInt 3) answer_fields) ].
Proof. vm_compute. reflexivity. Qed.

(** Of two candidates with pages, the first gets an answer that is not
    JSON: the run goes on and returns the record of the second alone. *)
Example run_with_one_bad_answer :
  fst (run (with_answer (demo_env list_text_a_c) 0 (inr not_json)))
  = inl [ JObj (tagged (JStr (py "C")) (JInt 2) (JInt 3) answer_fields) ].
Proof. vm_compute. reflexivity. Qed.

(** The progress of the third of three candidates is the binary64 number
    the code computes, which is not the fraction 23/30. *)
Example progress_of_third_candidate :
  current_progress 2 3 = (863189928579345 # 1125899906842624)%Q
  /\ ~ (current_progress 2 3 == 23 # 30)%Q.
Proof.
  split; [vm_compute; reflexivity|]. intros H. vm_compute in H. discriminate H.
Qed.

(** C3 fails on the code: the list answer is not JSON, the run has reached
    0.4, and the event of the failure carries 0. *)
Lemma failed_event_resets_progress :
  map fst (events (snd (run (demo_env not_json))))
  = [ round64 (1 # 10); round64 (2 # 10); round64 (3 # 10);
      round64 (4 # 10); 0 ]%Q
  /\ ~ (0 == round64 (4 # 10))%Q.
Proof.
  split; [vm_compute; reflexivity|]. intros H. vm_compute in H. discriminate H.
Qed.

Lemma failed_event_carries_zero_witness :
  exists e0 wb,
    pipeline_body demo_loads demo_fault demo_repr [] demo_filename
      (demo_env not_json) initial_world = (inr e0, wb)
    /\ events (snd (run (demo_env not_json)))
       = events wb ++ [(0%Q, py "Erreur: " ++ str_exn demo_fault e0)].
Proof.
  destruct (failed_event_carries_zero demo_loads demo_fault demo_repr []
              demo_filename (demo_env not_json) initial_world
              (Exception
                 (py "Erreur lors du traitement OCR: "
                  ++ py "Erreur lors du parsing de la liste de projets: "
                  ++ py "Expecting value")))
    as (e0 & wb & Hbody & _ & Hev & _).
  - vm_compute. reflexivity.
  - exists e0, wb. split; [exact Hbody|exact Hev].
Defined.

Lemma progress_nondecreasing_witness :
  exists evs,
    events (snd (run (demo_env list_text))) = events initial_world ++ evs
    /\ StronglySorted Qle (map fst evs)
    /\ Forall (fun q => (0 <= q <= 1)%Q) (map fst evs)
    /\ (true = true -> exists before status, evs = before ++ [(1%Q, status)]).
Proof.
  apply (progress_nondecreasing_on_success demo_loads demo_fault demo_repr []
           demo_filename (demo_env list_text) initial_world
           [ JObj (tagged (JStr (py "A")) (JInt 1) (JInt 3) answer_fields) ]).
  vm_compute. reflexivity.
Defined.

Lemma no_record_fails_run_witness :
  fst (run (demo_env list_text_b))
  = inr (Exception
           (py "Erreur lors du traitement OCR: "
            ++ py "Aucun projet n'a pu être analysé avec succès")).
Proof.
  refine (proj1
            (proj2 (no_record_fails_run demo_loads demo_fault demo_repr []
                      demo_filename (demo_env list_text_b) initial_world)
               demo_ocr (after_ocr (demo_env list_text_b))
               (projects_of (demo_env list_text_b))
               (snd (after_list (demo_env list_text_b)))
               []
               (snd (after_extraction (demo_env list_text_b)))
               _ _ _)
            eq_refl).
  - vm_compute. reflexivity.
  - vm_compute. reflexivity.
  - vm_compute. reflexivity.
Defined.

Lemma list_parse_failure_witness :
  fst (run (demo_env not_json))
  = inr (Exception
           (py "Erreur lors du traitement OCR: "
            ++ py "Erreur lors du parsing de la liste de projets: "
            ++ py "Expecting value"))
  /\ project_requests (snd (run (demo_env not_json)))
     = project_requests initial_world.
Proof.
  destruct (list_parse_failure_stops_run demo_loads demo_fault demo_repr []
              demo_filename (demo_env not_json) initial_world demo_ocr
              (after_ocr (demo_env not_json)) not_json (py "Expecting value"))
    as (Hres & _ & Hreq).
  - vm_compute. reflexivity.
  - reflexivity.
  - vm_compute. reflexivity.
  - split; [exact Hres|exact Hreq].
Defined.

(** The candidates A and B of the example list: B, whose first page is 0,
    prints its warning and nothing else is done for it; the loop makes one
    request, and with the one excluded candidate that is the two of the
    list. *)
Lemma candidate_without_pages_witness :
  project_iteration demo_loads demo_fault demo_repr (demo_env list_text)
    demo_ocr 2 1 (JObj fields_b) [] initial_world
  = (inl [],
     mkWorld []
       ([] ++ [py "Warning: Projet '" ++ py "B"
               ++ py "' n'a pas de pages définies, ignoré"])
       [])
  /\ exists lines reqs,
      stdout (snd (project_loop demo_loads demo_fault demo_repr
                     (demo_env list_text) demo_ocr 2 0
                     [JObj fields_a; JObj fields_b] [] initial_world))
      = [] ++ lines
      /\ calls (snd (project_loop demo_loads demo_fault demo_repr
                       (demo_env list_text) demo_ocr 2 0
                       [JObj fields_a; JObj fields_b] [] initial_world))
         = [] ++ reqs
      /\ nth_error lines 1
         = Some (py "Warning: Projet '" ++ py "B"
                 ++ py "' n'a pas de pages définies, ignoré")
      /\ (1 + List.length reqs)%nat = 2%nat.
Proof.
  destruct (candidate_without_pages_dropped demo_loads demo_fault demo_repr
              (demo_env list_text) demo_ocr 2
              [JObj fields_a; JObj fields_b] 0%nat [] initial_world)
    as (Hdrop
        & lines & evs & reqs & w' & E & _ & Hout & Hcalls & _ & Hpages & _ & _
        & _ & _ & Hexact & _).
  split.
  - apply (Hdrop 1%nat fields_b [] initial_world). left. vm_compute. reflexivity.
  - exists lines, reqs. rewrite E. cbn [snd].
    split; [exact Hout|]. split; [exact Hcalls|]. split.
    + apply (Hpages 1%nat fields_b eq_refl). left. vm_compute. reflexivity.
    + apply Hexact.
      intros project [<-|[<-|[]]] _; vm_compute; reflexivity.
Defined.

Lemma record_metadata_witness :
  exists record,
    fst (project_iteration demo_loads demo_fault demo_repr
           (demo_env list_text) demo_ocr 2 0 (JObj fields_a) [] initial_world)
    = inl ([] ++ [JObj record])
    /\ dict_get (py "_project_title") record = Some (JStr (py "A"))
    /\ dict_get (py "_page_debut") record = Some (JInt 1)
    /\ dict_get (py "_page_fin") record = Some (JInt 3).
Proof.
  destruct (record_carries_candidate_metadata demo_loads demo_fault demo_repr
              (demo_env list_text) demo_ocr 2 0 fields_a
              (dumps_payload (transformed_document demo_ocr)) answer_text
              answer_fields [] initial_world)
    as (record & H0 & H1 & H2 & H3 & _).
  - vm_compute. reflexivity.
  - intros _. vm_compute. reflexivity.
  - vm_compute. reflexivity.
  - reflexivity.
  - vm_compute. reflexivity.
  - exists record. split; [exact H0|]. split; [exact H1|].
    split; [exact H2|exact H3].
Defined.


Lemma parse_failure_isolated_witness :
  project_record demo_loads (with_answer (demo_env list_text) 0 (inr not_json))
    demo_ocr 0 (JObj fields_a) = None
  /\ project_record demo_loads (with_answer (demo_env list_text) 0 (inr not_json))
       demo_ocr 1 (JObj fields_a)
     = project_record demo_loads (demo_env list_text) demo_ocr 1 (JObj fields_a).
Proof.
  destruct (parse_failure_is_isolated demo_loads demo_fault demo_repr
              (demo_env list_text) demo_ocr 2 0 not_json
              (py "Expecting value"))
    as (H1 & H2 & _).
  - vm_compute. reflexivity.
  - split; [apply H1|apply H2; discriminate].
Defined.

(** A run with an empty key: the failure, and no request. *)
Lemma missing_api_key_witness :
  fst (run keyless_env)
  = inr (Exception
           (py "Erreur lors du traitement OCR: "
            ++ py "MISTRAL_API_KEY not found in environment variables"))
  /\ calls (snd (run keyless_env)) = [].
Proof.
  rewrite (missing_api_key_makes_no_request demo_loads demo_fault demo_repr []
             demo_filename keyless_env initial_world
             (ValueError (py "MISTRAL_API_KEY not found in environment variables"))).
  - split; reflexivity.
  - right. split; reflexivity.
Defined.

(** A run whose list answer has no candidate. *)
Lemma empty_project_list_witness :
  fst (run (demo_env list_text_empty))
  = inr (Exception
           (py "Erreur lors du traitement OCR: "
            ++ py "Aucun projet trouvé dans le document"))
  /\ project_requests (snd (run (demo_env list_text_empty))) = [].
Proof.
  destruct (empty_project_list_stops_run demo_loads demo_fault demo_repr []
              demo_filename (demo_env list_text_empty) initial_world demo_ocr
              (after_ocr (demo_env list_text_empty)) list_text_empty
              [ (py "Liste", JArr []) ])
    as (Hres & _ & Hreq).
  - vm_compute. reflexivity.
  - reflexivity.
  - vm_compute. reflexivity.
  - vm_compute. reflexivity.
  - split; [exact Hres|exact Hreq].
Defined.

(** The candidate A when the service is not available. *)
Lemma failure_after_request_witness :
  fst (project_iteration demo_loads demo_fault demo_repr
         (with_answer (demo_env list_text) 0 (inl unavailable))
         demo_ocr 2 0 (JObj fields_a) [] initial_world)
  = inl []
  /\ project_record demo_loads
       (with_answer (demo_env list_text) 0 (inl unavailable))
       demo_ocr 0 (JObj fields_a) = None.
Proof.
  destruct (failure_after_request_is_isolated demo_loads demo_fault demo_repr
              (with_answer (demo_env list_text) 0 (inl unavailable))
              demo_ocr 2 0 fields_a (JStr (py "A"))
              (dumps_payload (transformed_document demo_ocr)) [] initial_world)
    with (ex := unavailable) as (Hit & Hrec & _).
  - vm_compute. reflexivity.
  - intros _. vm_compute. reflexivity.
  - vm_compute. reflexivity.
  - left. reflexivity.
  - split; [rewrite Hit; reflexivity|exact Hrec].
Defined.

(** A candidate whose first page is a string, on a document with pages. *)
Lemma unorderable_bounds_witness :
  project_record demo_loads (demo_env list_text) demo_ocr 0
    (JObj fields_text_bound) = None.
Proof.
  refine (proj2 (unorderable_bounds_drop_candidate demo_loads demo_fault
                   demo_repr (demo_env list_text) demo_ocr 2 0 fields_text_bound
                   (JStr (py "A")) [] initial_world _ _ _)).
  - vm_compute. reflexivity.
  - intros _. vm_compute. reflexivity.
  - vm_compute. reflexivity.
Defined.

(** A candidate whose title is the number 7: dropped with a callback,
    recorded without one. *)
Lemma uncuttable_title_witness :
  project_record demo_loads (demo_env list_text) demo_ocr 0
    (JObj fields_numbered) = None
  /\ fst (project_iteration demo_loads demo_fault demo_repr
            (without_callback (demo_env list_text)) demo_ocr 2 0
            (JObj fields_numbered) [] initial_world)
     = inl ([] ++ [JObj (tagged (JInt 7) (JInt 1) (JInt 3) answer_fields)]).
Proof.
  destruct (uncuttable_title_drops_candidate_with_callback demo_loads
              demo_fault demo_repr (demo_env list_text) demo_ocr 2 0
              fields_numbered (dumps_payload (transformed_document demo_ocr))
              answer_text answer_fields [] initial_world)
    as (Hwith & Hwithout).
  - vm_compute. reflexivity.
  - vm_compute. reflexivity.
  - vm_compute. reflexivity.
  - reflexivity.
  - vm_compute. reflexivity.
  - split; [exact (proj2 (Hwith eq_refl))|rewrite Hwithout; reflexivity].
Defined.


(** The requests of the example run. *)
Lemma requests_witness :
  exists file_id url ocr text v reqs,
    ocr_process (demo_env list_text) url = inr ocr
    /\ list_completion (demo_env list_text) (clean_document ocr) = inr text
    /\ demo_loads text = inr v
    /\ calls (snd (run (demo_env list_text)))
       = calls initial_world
         ++ [ FilesUpload demo_filename []; GetSignedUrl file_id;
              OcrProcess url; ChatComplete listPrompt (clean_document ocr) ]
         ++ reqs
    /\ Forall (fun c => is_project_request c = true) reqs
    /\ (1 <= List.length reqs)%nat
    /\ (List.length reqs <= List.length (listed_candidates v))%nat.
Proof.
  apply (requests_of_a_successful_run demo_loads demo_fault demo_repr []
           demo_filename (demo_env list_text) initial_world
           [ JObj (tagged (JStr (py "A")) (JInt 1) (JInt 3) answer_fields) ]).
  vm_compute. reflexivity.
Defined.

(** The example run with and without its callback. *)
Lemma callback_independence_witness :
  fst (run (demo_env list_text))
  = fst (run (without_callback (demo_env list_text)))
  /\ stdout (snd (run (demo_env list_text)))
     = stdout (snd (run (without_callback (demo_env list_text))))
  /\ calls (snd (run (demo_env list_text)))
     = calls (snd (run (without_callback (demo_env list_text)))).
Proof.
  apply (callback_does_not_change_the_result demo_loads demo_fault demo_repr []
           demo_filename (demo_env list_text) initial_world).
  intros doc text v Htext Hl.
  inversion Htext; subst text.
  vm_compute in Hl. inversion Hl; subst v.
  vm_compute. reflexivity.
Defined.

(** An upload whose list answer is not JSON: the call returns and stores
    nothing. *)
Lemma failed_upload_witness :
  exists shown w',
    process_uploaded_file demo_loads demo_fault demo_repr [] demo_filename
      (demo_env not_json) (py "04/11/2026 10:00") None initial_world
    = (Returned, None, shown, w')
    /\ Forall (fun q => (0 <= q <= 1)%Q) (bar_values shown).
Proof.
  destruct (failed_upload_shows_the_wrapped_error demo_loads demo_fault
              demo_repr [] demo_filename (demo_env not_json)
              (py "04/11/2026 10:00") None initial_world
              (Exception
                 (py "Erreur lors du parsing de la liste de projets: "
                  ++ py "Expecting value"))
              (snd (pipeline_body demo_loads demo_fault demo_repr [] demo_filename
                      (with_callback (demo_env not_json)) initial_world)))
    as (shown & w' & Hcall & _ & Hbar & _).
  - vm_compute. reflexivity.
  - exists shown, w'. split; [exact Hcall|exact Hbar].
Defined.

(** The upload of the example document: one record is stored. *)
Lemma successful_upload_witness :
  exists before status shown w',
    process_uploaded_file demo_loads demo_fault demo_repr [] demo_filename
      (demo_env list_text) (py "04/11/2026 10:00") None initial_world
    = (Rerun,
       Some (mkLastParsed demo_filename (py "04/11/2026 10:00")
               [ JObj (tagged (JStr (py "A")) (JInt 1) (JInt 3) answer_fields) ]),
       shown, w')
    /\ shown
       = [ BarValue 0; StatusSlot ] ++ before
         ++ [ BarValue 1; StatusText status; BarEmpty; StatusEmpty;
              Markdown (success_message 1); Sleep ].
Proof.
  destruct (successful_upload_stores_the_records demo_loads demo_fault
              demo_repr [] demo_filename (demo_env list_text)
              (py "04/11/2026 10:00") None initial_world
              [ JObj (tagged (JStr (py "A")) (JInt 1) (JInt 3) answer_fields) ])
    as (before & status & shown & w' & Hcall & Hshown & _).
  - vm_compute. reflexivity.
  - exists before, status, shown, w'. split; [exact Hcall|exact Hshown].
Defined.

(** A run whose list holds two names instead of two objects. *)
Lemma not_objects_witness :
  fst (run (demo_env list_text_names))
  = inr (Exception
           (py "Erreur lors du traitement OCR: "
            ++ py "Aucun projet n'a pu être analysé avec succès"))
  /\ project_requests (snd (run (demo_env list_text_names))) = [].
Proof.
  destruct (candidates_that_are_not_objects_fail_the_run demo_loads demo_fault
              demo_repr [] demo_filename (demo_env list_text_names)
              initial_world demo_ocr
              (after_ocr (demo_env list_text_names))
              (projects_of (demo_env list_text_names))
              (snd (after_list (demo_env list_text_names))) 2)
    as [Hres Hcalls].
  - vm_compute. reflexivity.
  - vm_compute. reflexivity.
  - vm_compute. reflexivity.
  - intros project d Hin. vm_compute in Hin.
    destruct Hin as [<-|[<-|[]]]; discriminate.
  - split; [exact Hres|].
    unfold project_requests. rewrite Hcalls. vm_compute. reflexivity.
Defined.


End Scenarios.

(* ------------------------------------------------------------------ *)
(** * The wire payload read back *)

Module WireFacts.

(** ** Integers *)

Lemma size_nat_bound n : (n < 2 ^ N.of_nat (N.size_nat n))%N.
Proof.
  destruct n as [|p]; [reflexivity|]. cbn [N.size_nat].
  induction p as [p IH|p IH|]; cbn [Pos.size_nat].
  - rewrite Nat2N.inj_succ, N.pow_succ_r'. lia.
  - rewrite Nat2N.inj_succ, N.pow_succ_r'. lia.
  - reflexivity.
Qed.

Lemma pow2_succ f : (2 ^ N.of_nat (S f) = 2 * 2 ^ N.of_nat f)%N.
Proof. rewrite Nat2N.inj_succ, N.pow_succ_r'. reflexivity. Qed.

Lemma is_digit_spec c : is_digit c = true <-> (48 <= c <= 57)%N.
Proof.
  unfold is_digit. rewrite andb_true_iff, !N.leb_le. reflexivity.
Qed.

Lemma dec_digits_S f n acc :
  dec_digits (S f) n acc
  = if (n <? 10)%N then (48 + n mod 10)%N :: acc
    else dec_digits f (n / 10)%N ((48 + n mod 10)%N :: acc).
Proof. reflexivity. Qed.

Lemma div_mod_10 n :
  exists q r, (n = 10 * q + r /\ r < 10 /\ n / 10 = q /\ n mod 10 = r)%N.
Proof.
  exists (n / 10)%N, (n mod 10)%N. split; [|split; [|split; reflexivity]].
  - apply N.div_mod. discriminate.
  - apply N.mod_upper_bound. discriminate.
Qed.

(** The digits [dec_digits] pushes in front of [tl]: at least one, all of
    them digits, no leading zero except for zero itself, and their value
    is [n]. *)
Lemma dec_digits_shape f : forall n tl,
  (n < 2 ^ N.of_nat (S f))%N ->
  exists d ds,
    dec_digits (S f) n tl = d :: ds ++ tl
    /\ is_digit d = true
    /\ Forall (fun c => is_digit c = true) ds
    /\ (n = 0%N -> d = 48%N /\ ds = [])
    /\ (n <> 0%N -> d <> 48%N)
    /\ digits_value 0 (d :: ds) = n.
Proof.
  assert (Hsmall : forall n tl q r,
             (n = 10 * q + r)%N -> (r < 10)%N -> (n < 10)%N ->
             exists d ds,
               (48 + r)%N :: tl = d :: ds ++ tl
               /\ is_digit d = true
               /\ Forall (fun c => is_digit c = true) ds
               /\ (n = 0%N -> d = 48%N /\ ds = [])
               /\ (n <> 0%N -> d <> 48%N)
               /\ digits_value 0 (d :: ds) = n).
  { intros n tl q r Hn Hr Hlt. exists (48 + r)%N, [].
    split; [reflexivity|].
    split; [apply (proj2 (is_digit_spec _)); lia|].
    split; [constructor|].
    split; [intros H0; split; [f_equal; lia|reflexivity]|].
    split; [lia|]. unfold digits_value. cbn [fold_left]. lia. }
  induction f as [|f IH]; intros n tl Hn;
    destruct (div_mod_10 n) as (q & r & Hn_eq & Hr & Hq & Hm);
    rewrite dec_digits_S, ?Hq, ?Hm.
  - change (n < 2)%N in Hn.
    destruct (N.ltb_spec n 10); [|lia].
    rewrite ?Hm. apply (Hsmall n tl q r); assumption.
  - destruct (N.ltb_spec n 10) as [Hlt|Hge].
    + apply (Hsmall n tl q r); assumption.
    + assert (Hdiv : (q < 2 ^ N.of_nat (S f))%N).
      { rewrite pow2_succ in Hn. lia. }
      destruct (IH q ((48 + r)%N :: tl) Hdiv)
        as (d & ds & E & Hd & Hds & _ & Hnz & Hval).
      exists d, (ds ++ [(48 + r)%N]).
      split; [rewrite E, <- app_assoc; reflexivity|].
      split; [exact Hd|].
      split; [apply Forall_app; split;
              [exact Hds
              |constructor; [apply (proj2 (is_digit_spec _)); lia|constructor]]|].
      split; [intros H0; lia|].
      split; [intros _; apply Hnz; lia|].
      change (d :: ds ++ [(48 + r)%N]) with ((d :: ds) ++ [(48 + r)%N]).
      unfold digits_value in *. rewrite fold_left_app, Hval.
      cbn [fold_left]. lia.
Qed.

Lemma scan_digits_app ds : forall acc rest,
  Forall (fun c => is_digit c = true) ds ->
  match rest with
  | [] => True
  | c :: _ => is_digit c = false
  end ->
  scan_digits (ds ++ rest) acc = (digits_value acc ds, rest).
Proof.
  induction ds as [|d ds IH]; intros acc rest Hds Hrest.
  - simpl. destruct rest as [|c r]; [reflexivity|].
    simpl. rewrite Hrest. reflexivity.
  - inversion Hds; subst. cbn [app scan_digits].
    rewrite H1. rewrite IH by assumption. reflexivity.
Qed.

Lemma scan_nat_str n rest :
  ends_number rest -> scan_nat (str_of_N n ++ rest) = Some (n, rest).
Proof.
  intros Hrest. unfold str_of_N.
  destruct (dec_digits_shape (N.size_nat n) n [])
    as (d & ds & E & Hd & Hds & Hz & Hnz & Hval).
  { rewrite pow2_succ. pose proof (size_nat_bound n). lia. }
  rewrite E, app_nil_r. cbn [app]. unfold scan_nat.
  destruct (N.eqb_spec d 48) as [->|Hne].
  - destruct (N.eq_dec n 0) as [->|Hn0].
    + destruct (Hz eq_refl) as [_ ->]. reflexivity.
    + destruct (Hnz Hn0). reflexivity.
  - rewrite Hd. rewrite scan_digits_app.
    + f_equal. f_equal. rewrite <- Hval. unfold digits_value. simpl.
      reflexivity.
    + exact Hds.
    + destruct rest; [exact I|apply Hrest].
Qed.

Lemma str_of_Z_head z :
  exists c cs, str_of_Z z = c :: cs /\ (c = 45%N \/ is_digit c = true).
Proof.
  unfold str_of_Z, str_of_N.
  destruct (dec_digits_shape (N.size_nat (Z.abs_N z)) (Z.abs_N z) [])
    as (d & ds & E & Hd & _).
  { rewrite pow2_succ. pose proof (size_nat_bound (Z.abs_N z)). lia. }
  rewrite E. destruct (z <? 0); eexists; eexists; split;
    try reflexivity; auto.
Qed.

Lemma scan_int_str z rest :
  ends_number rest -> scan_int (str_of_Z z ++ rest) = Some (z, rest).
Proof.
  intros Hrest. unfold scan_int, str_of_Z.
  destruct (Z.ltb_spec z 0) as [Hneg|Hpos].
  - cbn [app]. rewrite N.eqb_refl.
    rewrite scan_nat_str by exact Hrest.
    replace (- Z.of_N (Z.abs_N z)) with z by lia.
    destruct rest as [|c r]; [reflexivity|].
    destruct Hrest as (_ & H1 & H2 & H3).
    apply N.eqb_neq in H1, H2, H3. rewrite H1, H2, H3. reflexivity.
  - destruct (dec_digits_shape (N.size_nat (Z.abs_N z)) (Z.abs_N z) [])
      as (d & ds & E & Hd & _).
    { rewrite pow2_succ. pose proof (size_nat_bound (Z.abs_N z)). lia. }
    pose proof (scan_nat_str (Z.abs_N z) rest Hrest) as Hscan.
    unfold str_of_N in *. rewrite E in *. cbn [app] in *.
    apply (proj1 (is_digit_spec _)) in Hd.
    destruct (N.eqb_spec d 45); [lia|].
    rewrite Hscan.
    replace (Z.of_N (Z.abs_N z)) with z by lia.
    destruct rest as [|c r]; [reflexivity|].
    destruct Hrest as (_ & H1 & H2 & H3).
    apply N.eqb_neq in H1, H2, H3. rewrite H1, H2, H3. reflexivity.
Qed.

(** ** Strings *)

Ltac dm_lia := zify; Z.to_euclidean_division_equations; lia.

Ltac decide_tests :=
  repeat match goal with
         | |- context [(?a <=? ?b)%N] => destruct (N.leb_spec a b); try lia
         | |- context [(?a <? ?b)%N] => destruct (N.ltb_spec a b); try lia
         | |- context [(?a =? ?b)%N] => destruct (N.eqb_spec a b); try lia
         end;
  cbn [andb orb negb].

Lemma hex_val_digit d : (d < 16)%N -> hex_val (hex_digit d) = Some d.
Proof.
  intros H. unfold hex_digit, hex_val, is_digit.
  destruct (N.ltb_spec d 10); decide_tests; f_equal; lia.
Qed.

Lemma hex4_val_hex4 n :
  (n < 65536)%N ->
  exists h1 h2 h3 h4,
    hex4 n = [h1; h2; h3; h4] /\ hex4_val h1 h2 h3 h4 = Some n.
Proof.
  intros H. unfold hex4. do 4 eexists. split; [reflexivity|].
  unfold hex4_val. rewrite !hex_val_digit by dm_lia.
  f_equal. dm_lia.
Qed.

Lemma scanstring_u h1 h2 h3 h4 r2 :
  scanstring (92 :: 117 :: h1 :: h2 :: h3 :: h4 :: r2)%N
  = match hex4_val h1 h2 h3 h4 with
    | None => None
    | Some uni =>
      match r2 with
      | b :: u :: g1 :: g2 :: g3 :: g4 :: r3 =>
        if (is_high_surrogate uni && (b =? 92) && (u =? 117))%N then
          match hex4_val g1 g2 g3 g4 with
          | None => None
          | Some uni2 =>
            if is_low_surrogate uni2 then
              cons_result
                (65536 + N.lor (N.shiftl (uni - 55296) 10) (uni2 - 56320))%N
                (scanstring r3)
            else cons_result uni (scanstring r2)
          end
        else cons_result uni (scanstring r2)
      | _ => cons_result uni (scanstring r2)
      end
    end.
Proof. reflexivity. Qed.

Lemma scanstring_plain c tail :
  c <> 34%N -> c <> 92%N -> (32 <= c)%N ->
  scanstring (c :: tail) = cons_result c (scanstring tail).
Proof.
  intros H1 H2 H3. cbn [scanstring]. decide_tests. reflexivity.
Qed.

(** A [\uXXXX] escape of a code point that is no high surrogate. *)
Lemma scan_u_escape n tail :
  (n < 65536)%N -> is_high_surrogate n = false ->
  scanstring (u_escape n ++ tail) = cons_result n (scanstring tail).
Proof.
  intros Hn Hhigh.
  destruct (hex4_val_hex4 n Hn) as (h1 & h2 & h3 & h4 & E & Hv).
  unfold u_escape. rewrite E. cbn [app]. rewrite scanstring_u, Hv.
  destruct tail as [|b [|u [|g1 [|g2 [|g3 [|g4 r3]]]]]]; try reflexivity.
  rewrite Hhigh. reflexivity.
Qed.

Lemma land_pow2_small a k x :
  (x < 2 ^ k)%N -> N.land (a * 2 ^ k) x = 0%N.
Proof.
  intros Hx. apply N.bits_inj. intros i.
  rewrite N.land_spec, N.bits_0.
  destruct (N.ltb_spec i k) as [Hlt|Hge].
  - rewrite N.mul_pow2_bits_low by exact Hlt. reflexivity.
  - destruct (N.eq_dec x 0) as [->|Hx0].
    + rewrite N.bits_0. apply andb_false_r.
    + rewrite (N.bits_above_log2 x i); [apply andb_false_r|].
      apply N.lt_le_trans with k; [|exact Hge].
      apply N.log2_lt_pow2; [lia|exact Hx].
Qed.

Lemma lor_pow2_small a k x :
  (x < 2 ^ k)%N -> N.lor (a * 2 ^ k) x = (a * 2 ^ k + x)%N.
Proof.
  intros Hx. pose proof (land_pow2_small a k x Hx) as H.
  rewrite <- (N.lxor_lor _ _ H). symmetry. apply N.add_nocarry_lxor. exact H.
Qed.

(** The surrogate pair of a code point above 0xFFFF, and the code point
    the decoder makes of the pair. *)
Lemma surrogate_pair c :
  (65536 <= c < 1114112)%N ->
  let n := (c - 65536)%N in
  let s1 := N.lor 55296 (N.land (N.shiftr n 10) 1023) in
  let s2 := N.lor 56320 (N.land n 1023) in
  (55296 <= s1 <= 56319)%N /\ (56320 <= s2 <= 57343)%N
  /\ (65536 + N.lor (N.shiftl (s1 - 55296) 10) (s2 - 56320))%N = c.
Proof.
  intros Hc n s1 s2.
  assert (E1 : s1 = (55296 + n / 1024)%N).
  { unfold s1. change 1023%N with (N.ones 10).
    rewrite N.land_ones, N.shiftr_div_pow2.
    change 55296%N with (54 * 2 ^ 10)%N.
    rewrite lor_pow2_small by (apply N.mod_upper_bound; discriminate).
    change (2 ^ 10)%N with 1024%N. unfold n. dm_lia. }
  assert (E2 : s2 = (56320 + n mod 1024)%N).
  { unfold s2. change 1023%N with (N.ones 10).
    rewrite N.land_ones.
    change 56320%N with (55 * 2 ^ 10)%N.
    rewrite lor_pow2_small by (apply N.mod_upper_bound; discriminate).
    change (2 ^ 10)%N with 1024%N. reflexivity. }
  rewrite E1, E2. split; [unfold n; dm_lia|]. split; [unfold n; dm_lia|].
  replace (55296 + n / 1024 - 55296)%N with (n / 1024)%N by dm_lia.
  replace (56320 + n mod 1024 - 56320)%N with (n mod 1024)%N by dm_lia.
  rewrite N.shiftl_mul_pow2.
  rewrite lor_pow2_small by (apply N.mod_upper_bound; discriminate).
  change (2 ^ 10)%N with 1024%N. unfold n. dm_lia.
Qed.

Lemma scan_surrogate_pair c tail :
  (65536 <= c < 1114112)%N ->
  scanstring
    (u_escape (N.lor 55296 (N.land (N.shiftr (c - 65536) 10) 1023))
     ++ u_escape (N.lor 56320 (N.land (c - 65536) 1023)) ++ tail)
  = cons_result c (scanstring tail).
Proof.
  intros Hc. destruct (surrogate_pair c Hc) as (H1 & H2 & H3).
  set (s1 := N.lor 55296 (N.land (N.shiftr (c - 65536) 10) 1023)) in *.
  set (s2 := N.lor 56320 (N.land (c - 65536) 1023)) in *.
  destruct (hex4_val_hex4 s1) as (h1 & h2 & h3 & h4 & E & Hv); [lia|].
  destruct (hex4_val_hex4 s2) as (g1 & g2 & g3 & g4 & E' & Hv'); [lia|].
  unfold u_escape. rewrite E, E'. cbn [app]. rewrite scanstring_u, Hv, Hv'.
  unfold is_high_surrogate, is_low_surrogate.
  decide_tests. rewrite H3. reflexivity.
Qed.

(** The decoder reads one escaped character back. *)
Lemma scan_escape_char c tail :
  scalar_value c ->
  scanstring (escape_char c ++ tail) = cons_result c (scanstring tail).
Proof.
  intros Hc. unfold escape_char.
  destruct (N.eqb_spec c 34) as [->|H34]; [reflexivity|].
  destruct (N.eqb_spec c 92) as [->|H92]; [reflexivity|].
  destruct (N.eqb_spec c 10) as [->|H10]; [reflexivity|].
  destruct (N.eqb_spec c 13) as [->|H13]; [reflexivity|].
  destruct (N.eqb_spec c 9) as [->|H9]; [reflexivity|].
  destruct (N.eqb_spec c 8) as [->|H8]; [reflexivity|].
  destruct (N.eqb_spec c 12) as [->|H12]; [reflexivity|].
  destruct (N.leb_spec 32 c) as [Hlo|Hlo];
    [destruct (N.leb_spec c 126) as [Hhi|Hhi]|]; cbn [andb].
  - apply scanstring_plain; assumption.
  - destruct (N.ltb_spec c 65536) as [Hs|Hs].
    + apply scan_u_escape; [exact Hs|].
      unfold is_high_surrogate. unfold scalar_value in Hc. decide_tests; try reflexivity.
    + rewrite <- app_assoc. apply scan_surrogate_pair.
      unfold scalar_value in Hc. lia.
  - destruct (N.ltb_spec c 65536) as [Hs|Hs]; [|lia].
    apply scan_u_escape; [exact Hs|].
    unfold is_high_surrogate. decide_tests; try reflexivity.
Qed.

Lemma scan_escaped s : forall rest,
  Forall scalar_value s ->
  scanstring (flat_map escape_char s ++ 34%N :: rest) = Some (s, rest).
Proof.
  induction s as [|c s IH]; intros rest Hs.
  - reflexivity.
  - inversion Hs; subst. cbn [flat_map]. rewrite <- app_assoc.
    rewrite scan_escape_char by assumption. rewrite IH by assumption.
    reflexivity.
Qed.

(** [scanstring] reads [json.dumps(s)] back as [s]. *)
Lemma scan_dumps_str s rest :
  Forall scalar_value s ->
  exists body,
    dumps_str s ++ rest = 34%N :: body
    /\ scanstring body = Some (s, rest).
Proof.
  intros Hs. exists (flat_map escape_char s ++ 34%N :: rest). split.
  - unfold dumps_str. cbn [app]. rewrite <- app_assoc. reflexivity.
  - apply scan_escaped. exact Hs.
Qed.

(** ** The equations of the decoder *)

Lemma parse_value_string f body :
  parse_value (S f) (34%N :: body)
  = match scanstring body with
    | Some (x, rest) => Some (JStr x, rest)
    | None => None
    end.
Proof. reflexivity. Qed.

Lemma parse_value_object f r :
  parse_value (S f) (123%N :: r)
  = match skip_ws r with
    | c' :: r' =>
      if (c' =? 125)%N then Some (JObj [], r')
      else
        match parse_members f (c' :: r') with
        | Some (pairs, rest) => Some (JObj (dict_of_pairs pairs), rest)
        | None => None
        end
    | [] => None
    end.
Proof. reflexivity. Qed.

Lemma parse_value_array f r :
  parse_value (S f) (91%N :: r)
  = match skip_ws r with
    | c' :: r' =>
      if (c' =? 93)%N then Some (JArr [], r')
      else
        match parse_elements f (c' :: r') with
        | Some (items, rest) => Some (JArr items, rest)
        | None => None
        end
    | [] => None
    end.
Proof. reflexivity. Qed.

Lemma parse_elements_eq f s :
  parse_elements (S f) s
  = match parse_value f s with
    | None => None
    | Some (v, r) =>
      match skip_ws r with
      | [] => None
      | c :: r' =>
        if (c =? 93)%N then Some ([v], r')
        else if (c =? 44)%N then
          match parse_elements f (skip_ws r') with
          | Some (vs, rest) => Some (v :: vs, rest)
          | None => None
          end
        else None
      end
    end.
Proof. reflexivity. Qed.

Lemma parse_members_eq f r :
  parse_members (S f) (34%N :: r)
  = match scanstring r with
    | None => None
    | Some (k, r1) =>
      match skip_ws r1 with
      | [] => None
      | c1 :: r2 =>
        if (c1 =? 58)%N then
          match parse_value f (skip_ws r2) with
          | None => None
          | Some (v, r3) =>
            match skip_ws r3 with
            | [] => None
            | c2 :: r4 =>
              if (c2 =? 125)%N then Some ([(k, v)], r4)
              else if (c2 =? 44)%N then
                match parse_members f (skip_ws r4) with
                | Some (kvs, rest) => Some ((k, v) :: kvs, rest)
                | None => None
                end
              else None
            end
          end
        else None
      end
    end.
Proof. reflexivity. Qed.

Lemma parse_value_number f c r :
  c = 45%N \/ is_digit c = true ->
  parse_value (S f) (c :: r)
  = match scan_int (c :: r) with
    | Some (z, rest) => Some (JInt z, rest)
    | None => None
    end.
Proof.
  intros Hc.
  assert (H : (c = 45 \/ 48 <= c <= 57)%N).
  { destruct Hc as [->|Hd]; [left; reflexivity|right].
    apply is_digit_spec. exact Hd. }
  cbn [parse_value]. decide_tests. reflexivity.
Qed.

Lemma parse_value_int f z rest :
  ends_number rest ->
  parse_value (S f) (str_of_Z z ++ rest) = Some (JInt z, rest).
Proof.
  intros Hrest. pose proof (scan_int_str z rest Hrest) as Hscan.
  destruct (str_of_Z_head z) as (c & cs & E & Hc).
  rewrite E in *. cbn [app] in *.
  rewrite parse_value_number by exact Hc. rewrite Hscan. reflexivity.
Qed.

Lemma parse_value_str f s rest :
  Forall scalar_value s ->
  parse_value (S f) (dumps_str s ++ rest) = Some (JStr s, rest).
Proof.
  intros Hs. destruct (scan_dumps_str s rest Hs) as (body & E & Hscan).
  rewrite E, parse_value_string, Hscan. reflexivity.
Qed.

(** ** White space and literals *)

Lemma skip_ws_stop c rest :
  is_ws c = false -> skip_ws (c :: rest) = c :: rest.
Proof. intros H. cbn [skip_ws]. rewrite H. reflexivity. Qed.

Lemma skip_ws_spaces n c rest :
  is_ws c = false -> skip_ws (repeat 32%N n ++ c :: rest) = c :: rest.
Proof.
  intros H. induction n as [|n IH]; [apply skip_ws_stop; exact H|exact IH].
Qed.

Lemma skip_ws_indent k c rest :
  is_ws c = false -> skip_ws (newline_indent k ++ c :: rest) = c :: rest.
Proof.
  intros H. unfold newline_indent.
  change (skip_ws (repeat 32%N (2 * k) ++ c :: rest) = c :: rest).
  apply skip_ws_spaces. exact H.
Qed.

Lemma skip_ws_space c rest :
  is_ws c = false -> skip_ws (32%N :: c :: rest) = c :: rest.
Proof. intros H. apply (skip_ws_spaces 1 c rest H). Qed.

Lemma py_open_brace : py "{" = [123%N].
Proof. reflexivity. Qed.

Lemma py_close_brace : py "}" = [125%N].
Proof. reflexivity. Qed.

Lemma py_open_bracket : py "[" = [91%N].
Proof. reflexivity. Qed.

Lemma py_close_bracket : py "]" = [93%N].
Proof. reflexivity. Qed.

Lemma py_empty_list : py "[]" = [91%N; 93%N].
Proof. reflexivity. Qed.

Lemma py_comma : py "," = [44%N].
Proof. reflexivity. Qed.

Lemma py_colon : py ": " = [58%N; 32%N].
Proof. reflexivity. Qed.

Ltac literal_scalar :=
  match goal with
  | |- Forall scalar_value (py ?s) =>
    let v := eval vm_compute in (py s) in
    change (py s) with v;
    repeat (constructor; [left; reflexivity|]); constructor
  end.

Lemma key_pages : Forall scalar_value (py "pages").
Proof. literal_scalar. Qed.

Lemma key_page_number : Forall scalar_value (py "page_number").
Proof. literal_scalar. Qed.

Lemma key_content : Forall scalar_value (py "content").
Proof. literal_scalar. Qed.

Lemma dumps_str_head s rest :
  exists body, dumps_str s ++ rest = 34%N :: body.
Proof. unfold dumps_str. cbn [app]. eexists. reflexivity. Qed.

(** ** Members of an object *)

(** The last member of an object: its key, a colon and a space, the text
    of its value, a new line, and the closing brace. *)
Lemma member_last f k vtext v j rest :
  Forall scalar_value k ->
  skip_ws (32%N :: vtext ++ newline_indent j ++ 125%N :: rest)
  = vtext ++ newline_indent j ++ 125%N :: rest ->
  parse_value f (vtext ++ newline_indent j ++ 125%N :: rest)
  = Some (v, newline_indent j ++ 125%N :: rest) ->
  parse_members (S f)
    (dumps_str k ++ 58%N :: 32%N :: vtext ++ newline_indent j ++ 125%N :: rest)
  = Some ([(k, v)], rest).
Proof.
  intros Hk Hskip Hval.
  destruct (scan_dumps_str k
              (58%N :: 32%N :: vtext ++ newline_indent j ++ 125%N :: rest) Hk)
    as (body & E & Hscan).
  rewrite E, parse_members_eq, Hscan.
  rewrite skip_ws_stop by reflexivity.
  change ((58 =? 58)%N) with true. cbv beta iota.
  rewrite Hskip, Hval.
  rewrite skip_ws_indent by reflexivity.
  reflexivity.
Qed.

(** A member followed by another: a comma and a new line after its value. *)
Lemma member_more f k vtext v j c more :
  Forall scalar_value k ->
  is_ws c = false ->
  skip_ws (32%N :: vtext ++ 44%N :: newline_indent j ++ c :: more)
  = vtext ++ 44%N :: newline_indent j ++ c :: more ->
  parse_value f (vtext ++ 44%N :: newline_indent j ++ c :: more)
  = Some (v, 44%N :: newline_indent j ++ c :: more) ->
  parse_members (S f)
    (dumps_str k ++ 58%N :: 32%N :: vtext ++ 44%N :: newline_indent j ++ c :: more)
  = match parse_members f (c :: more) with
    | Some (kvs, rest) => Some ((k, v) :: kvs, rest)
    | None => None
    end.
Proof.
  intros Hk Hc Hskip Hval.
  destruct (scan_dumps_str k
              (58%N :: 32%N :: vtext ++ 44%N :: newline_indent j ++ c :: more) Hk)
    as (body & E & Hscan).
  rewrite E, parse_members_eq, Hscan.
  rewrite skip_ws_stop by reflexivity.
  change ((58 =? 58)%N) with true. cbv beta iota.
  rewrite Hskip, Hval.
  rewrite skip_ws_stop by reflexivity.
  change ((44 =? 125)%N) with false. change ((44 =? 44)%N) with true.
  cbv beta iota.
  rewrite skip_ws_indent by exact Hc.
  reflexivity.
Qed.

Lemma skip_ws_before_int z rest :
  skip_ws (32%N :: str_of_Z z ++ rest) = str_of_Z z ++ rest.
Proof.
  destruct (str_of_Z_head z) as (c & cs & E & Hc). rewrite E. cbn [app].
  apply skip_ws_space.
  assert (H : (c = 45 \/ 48 <= c <= 57)%N).
  { destruct Hc as [->|Hd]; [left; reflexivity|right].
    apply is_digit_spec. exact Hd. }
  unfold is_ws. decide_tests; try reflexivity.
Qed.

Lemma skip_ws_before_str s rest :
  skip_ws (32%N :: dumps_str s ++ rest) = dumps_str s ++ rest.
Proof.
  destruct (dumps_str_head s rest) as (body & E). rewrite E.
  apply skip_ws_space. reflexivity.
Qed.

(** ** Pages *)

(** The text of a page, written with its characters. *)
Lemma dumps_page_text p rest :
  dumps_page p ++ rest
  = 123%N :: newline_indent 3
    ++ dumps_str (py "page_number") ++ 58%N :: 32%N :: str_of_Z (page_number p)
    ++ 44%N :: newline_indent 3
    ++ dumps_str (py "content") ++ 58%N :: 32%N :: dumps_str (content p)
    ++ newline_indent 2 ++ 125%N :: rest.
Proof.
  unfold dumps_page, dumps_int.
  rewrite py_open_brace, py_close_brace, py_comma, py_colon.
  repeat (rewrite <- app_assoc; cbn [app]). reflexivity.
Qed.

Lemma page_fields p :
  dict_of_pairs
    [ (py "page_number", JInt (page_number p)); (py "content", JStr (content p)) ]
  = [ (py "page_number", JInt (page_number p)); (py "content", JStr (content p)) ].
Proof.
  unfold dict_of_pairs. cbn [fold_left fst snd dict_set].
  replace (str_eqb (py "content") (py "page_number")) with false
    by (vm_compute; reflexivity).
  reflexivity.
Qed.

(** The decoder reads the text of a page back as the page's object. *)
Lemma parse_page f p rest :
  text_page p ->
  parse_value (S (S (S (S f)))) (dumps_page p ++ rest) = Some (page_value p, rest).
Proof.
  intros Hp. rewrite dumps_page_text, parse_value_object.
  destruct (dumps_str_head (py "page_number")
              (58%N :: 32%N :: str_of_Z (page_number p)
               ++ 44%N :: newline_indent 3
               ++ dumps_str (py "content") ++ 58%N :: 32%N :: dumps_str (content p)
               ++ newline_indent 2 ++ 125%N :: rest)) as (body1 & E1).
  destruct (dumps_str_head (py "content")
              (58%N :: 32%N :: dumps_str (content p)
               ++ newline_indent 2 ++ 125%N :: rest)) as (body2 & E2).
  rewrite E1. rewrite skip_ws_indent by reflexivity.
  change ((34 =? 125)%N) with false. cbv beta iota.
  rewrite <- E1, E2.
  rewrite (member_more (S (S f)) (py "page_number")
             (str_of_Z (page_number p)) (JInt (page_number p)) 3 34%N body2
             key_page_number eq_refl).
  - rewrite <- E2.
    rewrite (member_last (S f) (py "content") (dumps_str (content p))
               (JStr (content p)) 2 rest key_content).
    + unfold page_value. rewrite page_fields. reflexivity.
    + apply skip_ws_before_str.
    + apply parse_value_str. exact Hp.
  - apply skip_ws_before_int.
  - apply parse_value_int. cbn. repeat split; discriminate.
Qed.

Lemma dumps_page_head p rest :
  exists body, dumps_page p ++ rest = 123%N :: body.
Proof. rewrite dumps_page_text. eexists. reflexivity. Qed.

(** ** The list of pages and the payload *)

Lemma dumps_items_cons p q ps rest :
  dumps_items (p :: q :: ps) ++ rest
  = dumps_page p ++ 44%N :: newline_indent 2 ++ dumps_items (q :: ps) ++ rest.
Proof.
  cbn [dumps_items]. rewrite py_comma.
  repeat (rewrite <- app_assoc; cbn [app]). reflexivity.
Qed.

Lemma dumps_items_head p ps rest :
  exists body, dumps_items (p :: ps) ++ rest = 123%N :: body.
Proof.
  destruct ps as [|q ps].
  - apply dumps_page_head.
  - rewrite dumps_items_cons. apply dumps_page_head.
Qed.

(** The elements of a non-empty list of pages, up to the closing bracket. *)
Lemma parse_items ps : forall f rest,
  ps <> [] ->
  Forall text_page ps ->
  parse_elements (List.length ps + 4 + f)
    (dumps_items ps ++ newline_indent 1 ++ 93%N :: rest)
  = Some (map page_value ps, rest).
Proof.
  induction ps as [|p ps IH]; intros f rest Hne Hps; [contradiction|].
  inversion Hps as [|p0 ps0 Hp Hrest]; subst.
  change (List.length (p :: ps) + 4 + f)%nat
    with (S (List.length ps + 4 + f)).
  rewrite parse_elements_eq.
  replace (List.length ps + 4 + f)%nat
    with (S (S (S (S (List.length ps + f))))) by lia.
  destruct ps as [|q ps].
  - cbn [dumps_items]. rewrite parse_page by exact Hp.
    rewrite skip_ws_indent by reflexivity. reflexivity.
  - rewrite dumps_items_cons, parse_page by exact Hp.
    rewrite skip_ws_stop by reflexivity.
    change ((44 =? 93)%N) with false. change ((44 =? 44)%N) with true.
    cbv beta iota.
    destruct (dumps_items_head q ps (newline_indent 1 ++ 93%N :: rest))
      as (body & E).
    rewrite E, skip_ws_indent by reflexivity. rewrite <- E.
    replace (S (S (S (S (List.length (q :: ps) + f)))))
      with (List.length (q :: ps) + 4 + f)%nat by lia.
    rewrite IH by (assumption || discriminate). reflexivity.
Qed.

(** The text of the list of pages, read back as the list of their objects. *)
Lemma parse_page_list ps f rest :
  Forall text_page ps ->
  parse_value (S (List.length ps + 4 + f)) (dumps_page_list ps ++ rest)
  = Some (JArr (map page_value ps), rest).
Proof.
  intros Hps. destruct ps as [|p ps].
  - cbn [dumps_page_list]. rewrite py_empty_list. cbn [app].
    rewrite parse_value_array. cbn [skip_ws]. reflexivity.
  - cbn [dumps_page_list]. rewrite py_open_bracket, py_close_bracket.
    repeat (rewrite <- app_assoc; cbn [app]).
    rewrite parse_value_array.
    destruct (dumps_items_head p ps (newline_indent 1 ++ 93%N :: rest))
      as (body & E).
    rewrite E, skip_ws_indent by reflexivity.
    change ((123 =? 93)%N) with false. cbv beta iota. rewrite <- E.
    rewrite parse_items by (assumption || discriminate). reflexivity.
Qed.

Lemma skip_ws_before_list ps rest :
  skip_ws (32%N :: dumps_page_list ps ++ rest) = dumps_page_list ps ++ rest.
Proof.
  destruct ps as [|p ps]; cbn [dumps_page_list];
    rewrite ?py_empty_list, ?py_open_bracket; cbn [app];
    apply skip_ws_space; reflexivity.
Qed.

Lemma dumps_payload_text ps :
  dumps_payload ps
  = 123%N :: newline_indent 1
    ++ dumps_str (py "pages") ++ 58%N :: 32%N :: dumps_page_list ps
    ++ newline_indent 0 ++ 125%N :: [].
Proof.
  unfold dumps_payload.
  rewrite py_open_brace, py_close_brace, py_colon.
  repeat (rewrite <- app_assoc; cbn [app]). reflexivity.
Qed.

(** With fuel for the nesting and the pages, the decoder reads the whole
    payload back. *)
Lemma parse_payload_text ps f :
  Forall text_page ps ->
  parse_value (S (S (S (List.length ps + 4 + f)))) (dumps_payload ps)
  = Some (payload_value ps, []).
Proof.
  intros Hps. rewrite dumps_payload_text, parse_value_object.
  destruct (dumps_str_head (py "pages")
              (58%N :: 32%N :: dumps_page_list ps
               ++ newline_indent 0 ++ 125%N :: [])) as (body & E).
  rewrite E, skip_ws_indent by reflexivity.
  change ((34 =? 125)%N) with false. cbv beta iota. rewrite <- E.
  rewrite (member_last (S (List.length ps + 4 + f)) (py "pages")
             (dumps_page_list ps) (JArr (map page_value ps)) 0 [] key_pages).
  - reflexivity.
  - apply skip_ws_before_list.
  - apply parse_page_list. exact Hps.
Qed.

(** The text of a payload is long enough to be its own fuel. *)
Lemma dumps_page_length p : (1 <= List.length (dumps_page p))%nat.
Proof.
  destruct (dumps_page_head p []) as (body & E).
  rewrite app_nil_r in E. rewrite E. cbn [List.length]. lia.
Qed.

Lemma dumps_items_length ps :
  (List.length ps <= List.length (dumps_items ps))%nat.
Proof.
  induction ps as [|p ps IH]; [apply Nat.le_refl|].
  destruct ps as [|q ps].
  - cbn [dumps_items List.length]. apply dumps_page_length.
  - pose proof (dumps_items_cons p q ps []) as E.
    apply (f_equal (@List.length N)) in E.
    rewrite !length_app in E. cbn [List.length] in E.
    rewrite !length_app in E. cbn [List.length] in E.
    pose proof (dumps_page_length p).
    cbn [List.length] in IH |- *. lia.
Qed.

Lemma dumps_payload_length ps :
  (List.length ps + 6 <= List.length (dumps_payload ps))%nat.
Proof.
  pose proof (dumps_payload_text ps) as E.
  apply (f_equal (@List.length N)) in E.
  cbn [List.length] in E. rewrite !length_app in E.
  cbn [List.length] in E. rewrite !length_app in E.
  cbn [List.length] in E.
  assert (H : (List.length ps <= List.length (dumps_page_list ps) + 4)%nat).
  { destruct ps as [|p ps]; [cbn [List.length]; lia|].
    cbn [dumps_page_list]. rewrite !length_app.
    pose proof (dumps_items_length (p :: ps)). lia. }
  assert (Hk : (2 <= List.length (dumps_str (py "pages")))%nat).
  { unfold dumps_str. cbn [List.length]. rewrite length_app.
    cbn [List.length]. lia. }
  change (List.length (newline_indent 1)) with 3%nat in E.
  change (List.length (newline_indent 0)) with 1%nat in E.
  lia.
Qed.

Lemma read_pages_back ps : pages_of_values (map page_value ps) = Some ps.
Proof.
  induction ps as [|[n c] ps IH]; [reflexivity|].
  cbn [map pages_of_values]. rewrite IH.
  unfold page_of_value, page_value. cbn [dict_get page_number content].
  rewrite str_eqb_refl.
  replace (str_eqb (py "content") (py "page_number")) with false
    by (vm_compute; reflexivity).
  rewrite str_eqb_refl. reflexivity.
Qed.

(** C9. For every normalised document whose contents are texts (sequences
    of Unicode scalar values, ASCII or not), the payload written by
    [json.dumps(..., indent=2)] decodes to the object it stands for, and
    reading the pages of that object gives back the [page_number] and the
    [content] of every page, in the same order. *)
Theorem payload_round_trip ps :
  Forall text_page ps ->
  decode (dumps_payload ps) = Some (payload_value ps)
  /\ parse_payload (dumps_payload ps) = Some ps.
Proof.
  intros Hps.
  assert (Hdecode : decode (dumps_payload ps) = Some (payload_value ps)).
  { unfold decode.
    assert (Hskip : skip_ws (dumps_payload ps) = dumps_payload ps).
    { rewrite dumps_payload_text. apply skip_ws_stop. reflexivity. }
    rewrite Hskip.
    pose proof (dumps_payload_length ps) as Hlen.
    replace (S (List.length (dumps_payload ps)))
      with (S (S (S (List.length ps + 4
                     + (List.length (dumps_payload ps) - List.length ps - 6)))))
      by lia.
    rewrite parse_payload_text by exact Hps. reflexivity. }
  split; [exact Hdecode|].
  unfold parse_payload. rewrite Hdecode. unfold payload_value.
  cbn [dict_get]. rewrite str_eqb_refl. apply read_pages_back.
Qed.

(** Outside the texts: a Python [str] may hold a high surrogate followed by
    a low one as two characters, which no JSON decoder produces; written
    as two escapes, they are read back as one character. *)
Example surrogates_are_joined :
  parse_payload (dumps_payload [ mkPage 1 [55357%N; 56832%N] ])
  = Some [ mkPage 1 [128512%N] ].
Proof. vm_compute. reflexivity. Qed.

Lemma payload_round_trip_witness :
  parse_payload (dumps_payload accented_document) = Some accented_document.
Proof.
  refine (proj2 (payload_round_trip accented_document _)).
  unfold accented_document, text_page.
  let v := eval vm_compute in (py "Mare de la Prée, à l'été") in
  change (py "Mare de la Prée, à l'été") with v.
  repeat (constructor; cbn [content];
          repeat (constructor;
                  [first [left; reflexivity
                         |right; split; [discriminate|reflexivity]]|])).
Defined.

(** ** The characters of a payload *)

Lemma hex_digit_printable d :
  (d < 16)%N -> (32 <= hex_digit d <= 126)%N.
Proof.
  intros H. unfold hex_digit. destruct (N.ltb_spec d 10); lia.
Qed.

Lemma u_escape_printable n :
  Forall (fun c => (c = 10 \/ 32 <= c <= 126)%N) (u_escape n).
Proof.
  unfold u_escape, hex4.
  repeat (constructor;
          [right;
           first [lia | apply hex_digit_printable; apply N.mod_lt; discriminate]|]).
  constructor.
Qed.

Lemma escape_char_printable c :
  Forall (fun c => (c = 10 \/ 32 <= c <= 126)%N) (escape_char c).
Proof.
  unfold escape_char.
  repeat match goal with
         | |- context [if (c =? ?k)%N then _ else _] =>
           destruct (c =? k)%N;
             [repeat (constructor; [right; lia|]); constructor|]
         end.
  destruct ((32 <=? c) && (c <=? 126))%N eqn:Hp.
  - apply andb_true_iff in Hp. destruct Hp as [Hl Hu].
    apply N.leb_le in Hl, Hu. constructor; [right; lia|constructor].
  - destruct (c <? 65536)%N.
    + apply u_escape_printable.
    + cbv zeta. apply Forall_app. split; apply u_escape_printable.
Qed.

Lemma dumps_str_printable s :
  Forall (fun c => (c = 10 \/ 32 <= c <= 126)%N) (dumps_str s).
Proof.
  unfold dumps_str. constructor; [right; lia|].
  apply Forall_app. split.
  - induction s as [|c s IH]; [constructor|].
    cbn [flat_map]. apply Forall_app. split; [apply escape_char_printable|exact IH].
  - constructor; [right; lia|constructor].
Qed.

Lemma dumps_int_printable z :
  Forall (fun c => (c = 10 \/ 32 <= c <= 126)%N) (dumps_int z).
Proof.
  assert (Hn : forall n, Forall (fun c => (c = 10 \/ 32 <= c <= 126)%N) (str_of_N n)).
  { intros n. unfold str_of_N.
    assert (Hlt : (n < 2 ^ N.of_nat (S (N.size_nat n)))%N).
    { rewrite pow2_succ. pose proof (size_nat_bound n). lia. }
    destruct (dec_digits_shape (N.size_nat n) n [] Hlt)
      as (d & ds & E & Hd & Hds & _).
    rewrite E, app_nil_r.
    constructor.
    - apply is_digit_spec in Hd. right. lia.
    - eapply Forall_impl; [|exact Hds].
      intros c Hc. apply is_digit_spec in Hc. right. lia. }
  unfold dumps_int, str_of_Z. destruct (z <? 0).
  - constructor; [right; lia|apply Hn].
  - apply Hn.
Qed.

Lemma newline_indent_printable k :
  Forall (fun c => (c = 10 \/ 32 <= c <= 126)%N) (newline_indent k).
Proof.
  unfold newline_indent. constructor; [left; reflexivity|].
  induction (2 * k)%nat as [|m IH]; [constructor|].
  cbn [repeat]. constructor; [right; lia|exact IH].
Qed.

Lemma literal_printable (s : pystr) :
  forallb (fun c => (c =? 10) || ((32 <=? c) && (c <=? 126)))%N s = true ->
  Forall (fun c => (c = 10 \/ 32 <= c <= 126)%N) s.
Proof.
  induction s as [|c s IH]; intros H; [constructor|].
  cbn [forallb] in H. apply andb_true_iff in H. destruct H as [Hc Hs].
  constructor; [|apply IH; exact Hs].
  apply orb_true_iff in Hc. destruct Hc as [Hc|Hc].
  - left. apply N.eqb_eq. exact Hc.
  - apply andb_true_iff in Hc. destruct Hc as [Hl Hu].
    apply N.leb_le in Hl, Hu. right. lia.
Qed.

Ltac printable_parts :=
  repeat first
    [ apply Forall_app; split
    | apply dumps_str_printable
    | apply dumps_int_printable
    | apply newline_indent_printable
    | apply literal_printable; vm_compute; reflexivity ].

Lemma dumps_page_printable p :
  Forall (fun c => (c = 10 \/ 32 <= c <= 126)%N) (dumps_page p).
Proof. unfold dumps_page. printable_parts. Qed.

Lemma dumps_items_printable ps :
  Forall (fun c => (c = 10 \/ 32 <= c <= 126)%N) (dumps_items ps).
Proof.
  induction ps as [|p rest IH]; [constructor|].
  destruct rest as [|q rest]; [apply dumps_page_printable|].
  change (dumps_items (p :: q :: rest))
    with (dumps_page p ++ py "," ++ newline_indent 2 ++ dumps_items (q :: rest)).
  apply Forall_app; split; [apply dumps_page_printable|].
  apply Forall_app; split; [apply literal_printable; vm_compute; reflexivity|].
  apply Forall_app; split; [apply newline_indent_printable|exact IH].
Qed.

Lemma dumps_payload_printable ps :
  Forall (fun c => (c = 10 \/ 32 <= c <= 126)%N) (dumps_payload ps).
Proof.
  unfold dumps_payload.
  apply Forall_app; split; [apply literal_printable; vm_compute; reflexivity|].
  apply Forall_app; split; [apply newline_indent_printable|].
  apply Forall_app; split; [apply dumps_str_printable|].
  apply Forall_app; split; [apply literal_printable; vm_compute; reflexivity|].
  apply Forall_app; split.
  - unfold dumps_page_list. destruct ps as [|p rest].
    + apply literal_printable. vm_compute. reflexivity.
    + apply Forall_app; split; [apply literal_printable; vm_compute; reflexivity|].
      apply Forall_app; split; [apply newline_indent_printable|].
      apply Forall_app; split; [apply dumps_items_printable|].
      apply Forall_app; split; [apply newline_indent_printable|].
      apply literal_printable. vm_compute. reflexivity.
  - apply Forall_app; split; [apply newline_indent_printable|].
    apply literal_printable. vm_compute. reflexivity.
Qed.

(** X17. Whatever characters the pages hold, the text of a payload, for the
    whole document or for a range, is made of line breaks and printable
    ASCII characters only: every other character is escaped. *)
Theorem payload_is_printable_ascii ocr start_page end_page :
  Forall (fun c => (c = 10 \/ 32 <= c <= 126)%N) (clean_document ocr)
  /\ match clean_pages ocr start_page end_page with
     | Some payload => Forall (fun c => (c = 10 \/ 32 <= c <= 126)%N) payload
     | None => True
     end.
Proof.
  split.
  - apply dumps_payload_printable.
  - unfold clean_pages.
    destruct (transformed_pages start_page end_page ocr); cbn [option_map];
      [apply dumps_payload_printable|exact I].
Qed.

(** ** Reading a range back *)

Lemma parse_dumps_payload ps :
  Forall text_page ps -> parse_payload (dumps_payload ps) = Some ps.
Proof.
  intros Hps.
  assert (Hdecode : decode (dumps_payload ps) = Some (payload_value ps)).
  { unfold decode.
    assert (Hskip : skip_ws (dumps_payload ps) = dumps_payload ps).
    { rewrite dumps_payload_text. apply skip_ws_stop. reflexivity. }
    rewrite Hskip.
    pose proof (dumps_payload_length ps) as Hlen.
    replace (S (List.length (dumps_payload ps)))
      with (S (S (S (List.length ps + 4
                     + (List.length (dumps_payload ps) - List.length ps - 6)))))
      by lia.
    rewrite parse_payload_text by exact Hps. reflexivity. }
  unfold parse_payload. rewrite Hdecode. unfold payload_value.
  cbn [dict_get]. rewrite str_eqb_refl. apply read_pages_back.
Qed.

(** X18. For a document of texts and an integer range, reading back the
    payload of the range gives exactly the pages that reading back the
    payload of the whole document gives, restricted to those whose
    [page_number] lies in the range, in the same order. *)
Theorem range_payload_reads_back_as_filtered_document ocr s e :
  Forall (fun p => Forall scalar_value (markdown p)) ocr ->
  exists whole part,
    parse_payload (clean_document ocr) = Some whole
    /\ clean_pages ocr (JInt s) (JInt e) = Some part
    /\ parse_payload part = Some (filter (in_page_range s e) whole)
    /\ List.length whole = List.length ocr.
Proof.
  intros Htext.
  assert (Hall : Forall text_page (transformed_document ocr)).
  { unfold transformed_document. apply Forall_map.
    eapply Forall_impl; [|exact Htext]. intros p Hp. exact Hp. }
  exists (transformed_document ocr),
         (dumps_payload (filter (in_page_range s e) (transformed_document ocr))).
  split; [apply parse_dumps_payload; exact Hall|].
  split.
  - unfold clean_pages, transformed_pages, transformed_document.
    rewrite NormalizerFacts.filtered_pages_int. cbn [option_map].
    rewrite NormalizerFacts.filter_transform. reflexivity.
  - split.
    + apply parse_dumps_payload.
      apply Forall_forall. intros p Hp. apply filter_In in Hp.
      rewrite Forall_forall in Hall. apply Hall. apply Hp.
    + unfold transformed_document. apply length_map.
Qed.

Lemma range_payload_reads_back_witness :
  exists whole part,
    parse_payload (clean_document demo_ocr) = Some whole
    /\ clean_pages demo_ocr (JInt 2) (JInt 3) = Some part
    /\ parse_payload part = Some (filter (in_page_range 2 3) whole)
    /\ List.length whole = 3%nat.
Proof.
  apply (range_payload_reads_back_as_filtered_document demo_ocr 2 3).
  unfold demo_ocr.
  let v := eval vm_compute in (py "Mare de la Prée") in
  change (py "Mare de la Prée") with v.
  let v := eval vm_compute in (py "Travaux") in
  change (py "Travaux") with v.
  let v := eval vm_compute in (py "Suivi") in
  change (py "Suivi") with v.
  repeat (constructor; cbn [markdown];
          repeat (constructor;
                  [first [left; reflexivity
                         |right; split; [discriminate|reflexivity]]|])).
Defined.


End WireFacts.

(* ------------------------------------------------------------------ *)
(** * The views of a record *)

Module ViewFacts.

Section Facts.

Variable repr_other : json -> pystr.
Variable str_title : pystr -> pystr.

(** Two different literals. *)
Ltac literals_differ :=
  let H := fresh "H" in intro H; vm_compute in H; discriminate H.

(** ** Lookups in the flat data *)

Lemma dict_get_app k d1 d2 :
  dict_get k (d1 ++ d2)
  = match dict_get k d1 with
    | Some v => Some v
    | None => dict_get k d2
    end.
Proof.
  induction d1 as [|[k1 v1] d1 IH]; [reflexivity|].
  simpl. destruct (str_eqb k k1); [reflexivity|exact IH].
Qed.

Lemma dict_get_absent k d :
  ~ In k (map fst d) -> dict_get k d = None.
Proof.
  induction d as [|[k1 v1] d IH]; intros H; [reflexivity|].
  simpl in *. rewrite str_eqb_neq by (intro E; apply H; left; congruence).
  apply IH. intro Hin. apply H. right. exact Hin.
Qed.

Lemma dict_get_rev k d :
  NoDup (map fst d) -> dict_get k (rev d) = dict_get k d.
Proof.
  induction d as [|[k1 v1] d IH]; intros Hd; [reflexivity|].
  simpl in Hd. inversion Hd as [|x l Hnot Hrest]; subst.
  cbn [rev]. rewrite dict_get_app, (IH Hrest). cbn [dict_get].
  destruct (str_eqb k k1) eqn:E.
  - apply str_eqb_eq in E. subst k1.
    rewrite (dict_get_absent k d Hnot). reflexivity.
  - destruct (dict_get k d); reflexivity.
Qed.

Lemma dict_get_update_items k items :
  forall flat_data,
    dict_get k (update_items items flat_data)
    = match dict_get k (rev items) with
      | Some v => Some v
      | None => dict_get k flat_data
      end.
Proof.
  unfold update_items.
  induction items as [|[k1 v1] items IH]; intros flat_data; [reflexivity|].
  cbn [fold_left fst snd rev]. rewrite IH, dict_get_app.
  destruct (dict_get k (rev items)); [reflexivity|].
  cbn [dict_get]. destruct (str_eqb k k1) eqn:E.
  - apply str_eqb_eq in E. subst k1. apply dict_get_set_same.
  - apply dict_get_set_other. intro H. subst k1.
    rewrite str_eqb_refl in E. discriminate.
Qed.

Lemma dict_get_map_values (f : json -> json) k d :
  dict_get k (map (fun kv => (fst kv, f (snd kv))) d)
  = option_map f (dict_get k d).
Proof.
  induction d as [|[k1 v1] d IH]; [reflexivity|].
  simpl. destruct (str_eqb k k1); [reflexivity|exact IH].
Qed.

Lemma flatten_section_value name project flat_data k :
  distinct_keys project ->
  str_eqb name (py "Enjeux") = false ->
  dict_get k (flatten_section name project flat_data)
  = match block_value repr_other name k project with
    | Some v => Some v
    | None => dict_get k flat_data
    end.
Proof.
  intros Hd Hname. unfold flatten_section, block_value. rewrite Hname.
  destruct (dict_get name project) as [v|] eqn:E; [|reflexivity].
  destruct v; try reflexivity.
  rewrite dict_get_update_items, (dict_get_rev k fields (Hd _ _ E)).
  reflexivity.
Qed.

Lemma flatten_enjeux_value project flat_data k :
  distinct_keys project ->
  dict_get k (flatten_enjeux repr_other project flat_data)
  = match block_value repr_other (py "Enjeux") k project with
    | Some v => Some v
    | None => dict_get k flat_data
    end.
Proof.
  intros Hd. unfold flatten_enjeux, block_value.
  rewrite str_eqb_refl.
  destruct (dict_get (py "Enjeux") project) as [v|] eqn:E; [|reflexivity].
  destruct v; try reflexivity.
  rewrite dict_get_update_items, dict_get_rev.
  - rewrite dict_get_map_values. reflexivity.
  - rewrite map_map. cbn [fst]. exact (Hd _ _ E).
Qed.

Lemma copy_field_get name project flat_data k :
  dict_get k (copy_field name project flat_data)
  = if str_eqb k name
    then match dict_get name project with
         | Some v => Some v
         | None => dict_get k flat_data
         end
    else dict_get k flat_data.
Proof.
  unfold copy_field. destruct (str_eqb k name) eqn:E.
  - apply str_eqb_eq in E. subst k.
    destruct (dict_get name project); [apply dict_get_set_same|reflexivity].
  - destruct (dict_get name project); [|reflexivity].
    apply dict_get_set_other. intro H. subst k.
    rewrite str_eqb_refl in E. discriminate.
Qed.

(** X19. What the flat data of a record holds under a key: for one of the
    three keys [_project_title], [_page_debut], [_page_fin] that the record
    has, the value of the record; otherwise the value of the key in the
    last block, in the order [Presentation] to [Documents], that is a dict
    holding the key (a list of [Enjeux] joined with commas); and nothing
    when no block holds it. A key of an earlier block is overwritten by a
    later block with the same key. *)
Theorem flat_data_holds_last_block_value project k :
  distinct_keys project ->
  dict_get k (flatten_project_data repr_other project)
  = match (if is_metadata_key k then dict_get k project else None) with
    | Some v => Some v
    | None => last_value repr_other block_names k project
    end.
Proof.
  intros Hd. unfold flatten_project_data. cbv zeta.
  rewrite !copy_field_get.
  rewrite !(flatten_section_value _ _ _ _ Hd) by reflexivity.
  rewrite (flatten_enjeux_value _ _ _ Hd).
  rewrite !(flatten_section_value _ _ _ _ Hd) by reflexivity.
  cbn [dict_get].
  assert (Hlast :
            match block_value repr_other (py "Documents") k project with
            | Some v => Some v
            | None =>
              match block_value repr_other (py "Travaux") k project with
              | Some v => Some v
              | None =>
                match block_value repr_other (py "Valorisation") k project with
                | Some v => Some v
                | None =>
                  match block_value repr_other (py "Contexte") k project with
                  | Some v => Some v
                  | None =>
                    match block_value repr_other (py "Directives") k project with
                    | Some v => Some v
                    | None =>
                      match block_value repr_other (py "Typologie") k project with
                      | Some v => Some v
                      | None =>
                        match block_value repr_other (py "Enjeux") k project with
                        | Some v => Some v
                        | None =>
                          match block_value repr_other (py "Description") k project with
                          | Some v => Some v
                          | None =>
                            match block_value repr_other (py "Objectif") k project with
                            | Some v => Some v
                            | None =>
                              match block_value repr_other (py "Presentation") k project with
                              | Some v => Some v
                              | None => None
                              end
                            end
                          end
                        end
                      end
                    end
                  end
                end
              end
            end
            = last_value repr_other block_names k project).
  { unfold block_names. cbn [last_value].
    destruct (block_value repr_other (py "Documents") k project); [reflexivity|].
    destruct (block_value repr_other (py "Travaux") k project); [reflexivity|].
    destruct (block_value repr_other (py "Valorisation") k project); [reflexivity|].
    destruct (block_value repr_other (py "Contexte") k project); [reflexivity|].
    destruct (block_value repr_other (py "Directives") k project); [reflexivity|].
    destruct (block_value repr_other (py "Typologie") k project); [reflexivity|].
    destruct (block_value repr_other (py "Enjeux") k project); [reflexivity|].
    destruct (block_value repr_other (py "Description") k project); [reflexivity|].
    destruct (block_value repr_other (py "Objectif") k project); [reflexivity|].
    destruct (block_value repr_other (py "Presentation") k project); reflexivity. }
  rewrite Hlast. unfold is_metadata_key.
  destruct (str_eqb k (py "_page_fin")) eqn:E3.
  - apply str_eqb_eq in E3. subst k.
    replace (str_eqb (py "_page_fin") (py "_page_debut")) with false
      by (vm_compute; reflexivity).
    replace (str_eqb (py "_page_fin") (py "_project_title")) with false
      by (vm_compute; reflexivity).
    cbn [orb]. destruct (dict_get (py "_page_fin") project); reflexivity.
  - destruct (str_eqb k (py "_page_debut")) eqn:E2.
    + apply str_eqb_eq in E2. subst k.
      replace (str_eqb (py "_page_debut") (py "_project_title")) with false
        by (vm_compute; reflexivity).
      cbn [orb]. destruct (dict_get (py "_page_debut") project); reflexivity.
    + destruct (str_eqb k (py "_project_title")) eqn:E1.
      * apply str_eqb_eq in E1. subst k. cbn [orb].
        destruct (dict_get (py "_project_title") project); reflexivity.
      * reflexivity.
Qed.

(** ** The flat data of a record of the pipeline *)

Lemma flatten_section_tagged name t s e r flat_data :
  name <> py "_project_title" -> name <> py "_page_debut" ->
  name <> py "_page_fin" ->
  flatten_section name (tagged t s e r) flat_data
  = flatten_section name r flat_data.
Proof.
  intros H1 H2 H3. unfold flatten_section.
  destruct (tagged_fields t s e r) as (_ & _ & _ & Hother).
  rewrite (Hother name H1 H2 H3). reflexivity.
Qed.

Lemma flatten_enjeux_tagged t s e r flat_data :
  flatten_enjeux repr_other (tagged t s e r) flat_data
  = flatten_enjeux repr_other r flat_data.
Proof.
  unfold flatten_enjeux.
  destruct (tagged_fields t s e r) as (_ & _ & _ & Hother).
  rewrite (Hother (py "Enjeux")) by literals_differ. reflexivity.
Qed.

(** X20. The flat data of a record of the pipeline (a parsed object with
    the three fields attached) holds the title and the page bounds of the
    candidate under [_project_title], [_page_debut] and [_page_fin],
    whatever the blocks of the object hold under these keys; under every
    other key it holds what the flat data of the parsed object holds. *)
Theorem flat_data_of_a_tagged_record t s e r :
  dict_get (py "_project_title")
    (flatten_project_data repr_other (tagged t s e r)) = Some t
  /\ dict_get (py "_page_debut")
       (flatten_project_data repr_other (tagged t s e r)) = Some s
  /\ dict_get (py "_page_fin")
       (flatten_project_data repr_other (tagged t s e r)) = Some e
  /\ forall k,
       is_metadata_key k = false ->
       dict_get k (flatten_project_data repr_other (tagged t s e r))
       = dict_get k (flatten_project_data repr_other r).
Proof.
  destruct (tagged_fields t s e r) as (Ht & Hs & He & _).
  unfold flatten_project_data. cbv zeta.
  rewrite !flatten_section_tagged by literals_differ.
  rewrite flatten_enjeux_tagged.
  repeat split.
  - rewrite !copy_field_get, Ht.
    replace (str_eqb (py "_project_title") (py "_page_fin")) with false
      by (vm_compute; reflexivity).
    replace (str_eqb (py "_project_title") (py "_page_debut")) with false
      by (vm_compute; reflexivity).
    rewrite str_eqb_refl. reflexivity.
  - rewrite !copy_field_get, Hs.
    replace (str_eqb (py "_page_debut") (py "_page_fin")) with false
      by (vm_compute; reflexivity).
    rewrite str_eqb_refl. reflexivity.
  - rewrite copy_field_get, He, str_eqb_refl. reflexivity.
  - intros k Hk. unfold is_metadata_key in Hk.
    apply orb_false_iff in Hk. destruct Hk as [Hk H3].
    apply orb_false_iff in Hk. destruct Hk as [H1 H2].
    rewrite !copy_field_get, H1, H2, H3. reflexivity.
Qed.

(** ** The details of a record *)

Lemma truthy_get_any k d :
  truthy (get k d) = true -> any_value d = true.
Proof.
  unfold get, dict_get_default, any_value.
  induction d as [|[k1 v1] d IH]; simpl; [discriminate|].
  destruct (str_eqb k k1).
  - intros ->. reflexivity.
  - intros H. rewrite (IH H). apply orb_true_r.
Qed.

Lemma strings_of_none l :
  strings_of l = None
  <-> existsb (fun v => match v with JStr _ => false | _ => true end) l = true.
Proof.
  induction l as [|v l IH]; simpl.
  - split; discriminate.
  - destruct v; simpl; try (split; reflexivity).
    destruct (strings_of l); simpl.
    + split; [discriminate|]. intros H. apply IH in H. discriminate.
    + split; [intros _; apply IH; reflexivity|reflexivity].
Qed.

Lemma html_description_none doc_data :
  html_description repr_other doc_data = None <-> resume_raises doc_data = true.
Proof.
  unfold html_description, resume_raises.
  destruct (dict_get (py "Description") doc_data) as [v|];
    [|split; discriminate].
  destruct v; try (split; discriminate).
  destruct (truthy (get (py "resume") fields)) eqn:Ht.
  - rewrite (truthy_get_any _ _ Ht).
    destruct (get (py "resume") fields); simpl in *;
      first [split; [reflexivity|reflexivity] | split; discriminate | idtac];
      try (split; [intros _; exact Ht | reflexivity]).
  - destruct (any_value fields);
      destruct (get (py "resume") fields); simpl in *;
        split; congruence.
Qed.

Lemma html_enjeux_none doc_data :
  html_enjeux repr_other doc_data = None <-> enjeux_raises doc_data = true.
Proof.
  unfold html_enjeux, enjeux_raises.
  destruct (dict_get (py "Enjeux") doc_data) as [v|];
    [|split; discriminate].
  destruct v; try (split; discriminate).
  unfold enjeux_item.
  destruct (get (py "enjeux") fields) as [| | | | |items|] eqn:Hg;
    try (destruct (any_value fields); split; discriminate).
  destruct items as [|first rest].
  - destruct (any_value fields); split; discriminate.
  - assert (Hany : any_value fields = true).
    { apply (truthy_get_any (py "enjeux")). rewrite Hg. reflexivity. }
    rewrite Hany.
    rewrite <- (strings_of_none (first :: rest)).
    destruct (strings_of (first :: rest)); simpl; split; congruence.
Qed.

(** X21. [format_expanded_data] raises in exactly two cases: the record
    has a dict [Description] whose [resume] is a true value other than a
    string or a list (a number, for one), or a dict [Enjeux] whose
    [enjeux] is a list holding something else than strings. In every
    other case it returns its text. *)
Theorem details_fail_exactly_on_resume_or_enjeux doc_data :
  format_expanded_data repr_other str_title doc_data = None
  <-> resume_raises doc_data = true \/ enjeux_raises doc_data = true.
Proof.
  unfold format_expanded_data.
  destruct doc_data as [|kv rest].
  - split; [discriminate|]. intros [H|H]; discriminate H.
  - rewrite <- html_description_none, <- html_enjeux_none.
    destruct (html_description repr_other (kv :: rest));
      destruct (html_enjeux repr_other (kv :: rest));
      split; try discriminate; try (intros [H|H]; discriminate H); auto.
Qed.

Lemma dict_set_not_empty k v d : dict_set k v d <> [].
Proof.
  destruct d as [|[k1 v1] d]; simpl; [discriminate|].
  destruct (str_eqb k k1); discriminate.
Qed.

Lemma details_of_tagged t s e r kv rest :
  tagged t s e r = kv :: rest ->
  format_expanded_data repr_other str_title (kv :: rest)
  = match html_description repr_other r, html_enjeux repr_other r with
    | Some description, Some enjeux =>
      Some (div_open "expanded-content"
            ++ html_presentation repr_other r
            ++ html_objectif repr_other r
            ++ description
            ++ enjeux
            ++ html_keyed repr_other str_title (py "Typologie")
                 (py "🔧 Typologie - Ingénierie écologique") false r
            ++ html_keyed repr_other str_title (py "Directives")
                 (py "🇪🇺 Référence directives européennes") false r
            ++ html_contexte repr_other r
            ++ html_keyed repr_other str_title (py "Valorisation")
                 (py "🏆 Valorisation de l'opération") true r
            ++ html_travaux repr_other r
            ++ html_documents repr_other r
            ++ py "</div>")
    | _, _ => None
    end.
Proof.
  intros E. cbn [format_expanded_data]. rewrite <- E.
  destruct (tagged_fields t s e r) as (_ & _ & _ & Hother).
  unfold html_description, html_enjeux, html_presentation, html_objectif,
    html_keyed, html_contexte, html_travaux, html_documents.
  rewrite !Hother by literals_differ. reflexivity.
Qed.

(** X22. The details of a record of the pipeline do not depend on the
    three fields attached to it: they are the details of the parsed object
    itself; only for an empty parsed object, whose details are the text of
    the missing data, the record shows the empty frame instead. *)
Theorem details_ignore_the_attached_fields t s e r :
  (r <> [] ->
   format_expanded_data repr_other str_title (tagged t s e r)
   = format_expanded_data repr_other str_title r)
  /\ format_expanded_data repr_other str_title (tagged t s e [])
     = Some empty_details
  /\ format_expanded_data repr_other str_title []
     = Some (py "Aucune donnée disponible").
Proof.
  split; [|split; [|reflexivity]].
  - intros Hr.
    destruct (tagged t s e r) as [|kv rest] eqn:E.
    + exfalso. unfold tagged in E. exact (dict_set_not_empty _ _ _ E).
    + rewrite (details_of_tagged t s e r kv rest E).
      destruct r as [|kv0 r0]; [contradiction|]. reflexivity.
  - destruct (tagged t s e []) as [|kv rest] eqn:E.
    + exfalso. unfold tagged in E. exact (dict_set_not_empty _ _ _ E).
    + rewrite (details_of_tagged t s e [] kv rest E). reflexivity.
Qed.

Lemma falsy_get_of_falsy_values k d :
  any_value d = false -> truthy (get k d) = false.
Proof.
  intros H. destruct (truthy (get k d)) eqn:E; [|reflexivity].
  rewrite (truthy_get_any _ _ E) in H. discriminate.
Qed.

(** X23. A record that is not empty and in which every block that is a
    dict holds only false values (empty strings, [None], zero, empty
    lists) has the empty frame as its details: no group is opened, no
    heading is shown. *)
Theorem blocks_without_values_show_nothing doc_data :
  doc_data <> [] ->
  (forall name section,
      In name block_names ->
      dict_get name doc_data = Some (JObj section) ->
      any_value section = false) ->
  format_expanded_data repr_other str_title doc_data = Some empty_details.
Proof.
  intros Hne Hall.
  assert (Hblock : forall name,
             In name block_names ->
             forall (A : Type) (f : list (pystr * json) -> A) (a : A),
               (forall section, any_value section = false -> f section = a) ->
               match dict_get name doc_data with
               | Some (JObj section) => f section
               | _ => a
               end = a).
  { intros name Hin A f a Hf.
    destruct (dict_get name doc_data) as [v|] eqn:E; [|reflexivity].
    destruct v; try reflexivity. apply Hf. exact (Hall _ _ Hin E). }
  assert (Hp : html_presentation repr_other doc_data = []).
  { unfold html_presentation.
    apply (Hblock (py "Presentation")); [simpl; tauto|].
    intros section ->. reflexivity. }
  assert (Ho : html_objectif repr_other doc_data = []).
  { unfold html_objectif.
    apply (Hblock (py "Objectif")); [simpl; tauto|].
    intros section H. rewrite (falsy_get_of_falsy_values _ _ H). reflexivity. }
  assert (Hd : html_description repr_other doc_data = Some []).
  { unfold html_description.
    apply (Hblock (py "Description")); [simpl; tauto|].
    intros section ->. reflexivity. }
  assert (He : html_enjeux repr_other doc_data = Some []).
  { unfold html_enjeux.
    apply (Hblock (py "Enjeux")); [simpl; tauto|].
    intros section ->. reflexivity. }
  assert (Hk : forall name heading link,
             In name block_names ->
             html_keyed repr_other str_title name heading link doc_data = []).
  { intros name heading link Hin. unfold html_keyed.
    apply (Hblock name Hin). intros section ->. reflexivity. }
  assert (Hc : html_contexte repr_other doc_data = []).
  { unfold html_contexte.
    apply (Hblock (py "Contexte")); [simpl; tauto|].
    intros section ->. reflexivity. }
  assert (Ht : html_travaux repr_other doc_data = []).
  { unfold html_travaux.
    apply (Hblock (py "Travaux")); [simpl; tauto|].
    intros section H. rewrite (falsy_get_of_falsy_values _ _ H). reflexivity. }
  assert (Hdoc : html_documents repr_other doc_data = []).
  { unfold html_documents.
    apply (Hblock (py "Documents")); [simpl; tauto|].
    intros section ->. reflexivity. }
  unfold format_expanded_data.
  destruct doc_data as [|kv rest]; [contradiction|].
  rewrite Hd, He, Hp, Ho, Hc, Ht, Hdoc.
  rewrite !Hk by (simpl; tauto).
  reflexivity.
Qed.

(** ** The rows of the table *)

(** X24. The row of a record of the pipeline shows the title and the page
    bounds of its candidate, never the defaults [Sans titre] and [N/A],
    and as details those of the parsed object; the table has one row per
    record, and none at all when the details of one record raise. *)
Theorem row_of_a_tagged_record t s e r :
  r <> [] ->
  table_row repr_other str_title (tagged t s e r)
  = match format_expanded_data repr_other str_title r with
    | Some details =>
      Some [ (py "Titre du projet", t); (py "Page début", s);
             (py "Page fin", e); (py "Détails", JStr details) ]
    | None => None
    end
  /\ forall projects rows,
       table_rows repr_other str_title projects = Some rows ->
       List.length rows = List.length projects.
Proof.
  intros Hr. split.
  - unfold table_row. cbv zeta. unfold dict_get_default.
    destruct (tagged_fields t s e r) as (Ht & Hs & He & _).
    rewrite Ht, Hs, He.
    destruct (tagged t s e r) as [|kv rest] eqn:E.
    + exfalso. unfold tagged in E. exact (dict_set_not_empty _ _ _ E).
    + rewrite (details_of_tagged t s e r kv rest E).
      destruct r as [|kv0 r0]; [contradiction|]. reflexivity.
  - induction projects as [|project rest IH]; intros rows H.
    + inversion H. reflexivity.
    + cbn [table_rows] in H.
      destruct (table_row repr_other str_title project); [|discriminate].
      destruct (table_rows repr_other str_title rest) as [rows'|];
        [|discriminate].
      inversion H; subst. simpl. rewrite (IH rows' eq_refl). reflexivity.
Qed.

(** X25. The rows of the table are built only when the details of every
    record are: one record whose details raise leaves no row at all, for
    any of the records. *)
Theorem one_failing_record_leaves_no_table projects :
  table_rows repr_other str_title projects = None
  <-> Exists
        (fun project =>
           format_expanded_data repr_other str_title project = None)
        projects.
Proof.
  induction projects as [|project rest IH].
  - split; [discriminate|]. intros H. inversion H.
  - cbn [table_rows]. unfold table_row at 1. cbv zeta.
    destruct (format_expanded_data repr_other str_title project) as [details|]
      eqn:E.
    + destruct (table_rows repr_other str_title rest) as [rows|]; cbn [option_map].
      * split; [discriminate|]. intros H.
        inversion H as [x l Hx|x l Hx]; subst.
        -- rewrite E in Hx. discriminate.
        -- apply IH in Hx. discriminate.
      * split; [|reflexivity]. intros _.
        apply Exists_cons_tl. apply IH. reflexivity.
    + split; [|reflexivity]. intros _. apply Exists_cons_hd. exact E.
Qed.

(** ** The name of the exported file *)

Lemma strip_prefix_app old rest : strip_prefix old (old ++ rest) = Some rest.
Proof.
  induction old as [|c old IH]; [reflexivity|].
  simpl. rewrite N.eqb_refl. exact IH.
Qed.

Lemma replace_absent old new s :
  occurs old s = false -> replace_from old new 0 s = s.
Proof.
  induction s as [|c s IH]; intros H; [reflexivity|].
  cbn [occurs] in H. cbn [replace_from].
  destruct (strip_prefix old (c :: s)); [discriminate|].
  rewrite (IH H). reflexivity.
Qed.

Lemma replace_skip old new passed :
  forall rest,
    replace_from old new (List.length passed) (passed ++ rest)
    = replace_from old new 0 rest.
Proof.
  induction passed as [|c passed IH]; intros rest.
  - destruct rest; reflexivity.
  - cbn [List.length app replace_from]. apply IH.
Qed.

Lemma replace_first c old new before rest :
  ~ In c before ->
  replace_from (c :: old) new 0 (before ++ (c :: old) ++ rest)
  = before ++ new ++ replace_from (c :: old) new 0 rest.
Proof.
  induction before as [|b before IH]; intros Hnot.
  - cbn [app]. cbn [replace_from].
    change (c :: old ++ rest) with ((c :: old) ++ rest).
    rewrite strip_prefix_app.
    replace (List.length (c :: old) - 1)%nat with (List.length old)
      by (cbn [List.length]; lia).
    rewrite replace_skip. reflexivity.
  - assert (Hb : (c =? b)%N = false).
    { apply N.eqb_neq. intro E. apply Hnot. left. symmetry. exact E. }
    change ((b :: before) ++ (c :: old) ++ rest)
      with (b :: (before ++ (c :: old) ++ rest)).
    remember (before ++ (c :: old) ++ rest) as tail eqn:Htail.
    cbn [replace_from strip_prefix]. rewrite Hb. subst tail.
    rewrite IH by (intro Hin; apply Hnot; right; exact Hin).
    reflexivity.
Qed.

(** X26. The name of the exported file: a file name without the text
    [.pdf] (an upper-case extension, for one) keeps its whole name before
    [_REX_export.xlsx]; a name made of a base without a dot and of the
    extension [.pdf] loses the extension. *)
Theorem export_name_drops_the_pdf_extension filename base :
  (occurs (py ".pdf") filename = false ->
   export_file_name filename = filename ++ py "_REX_export.xlsx")
  /\ (~ In 46%N base ->
      export_file_name (base ++ py ".pdf") = base ++ py "_REX_export.xlsx").
Proof.
  split.
  - intros H. unfold export_file_name, py_replace.
    rewrite (replace_absent _ _ _ H). reflexivity.
  - intros H. unfold export_file_name, py_replace.
    change (py ".pdf") with (46%N :: py "pdf").
    rewrite <- (app_nil_r (46%N :: py "pdf")) at 2.
    rewrite (replace_first 46%N (py "pdf") [] base [] H).
    cbn [replace_from]. rewrite !app_nil_r. reflexivity.
Qed.

End Facts.

(** ** The views on example records *)

Lemma flat_data_witness :
  dict_get (py "autres") (flatten_project_data demo_repr demo_record)
  = Some (JStr (py "deux"))
  /\ dict_get (py "enjeux") (flatten_project_data demo_repr demo_record)
     = Some (JStr (py "eau, climat"))
  /\ dict_get (py "_page_debut") (flatten_project_data demo_repr demo_record)
     = Some (JInt 1)
  /\ dict_get (py "Presentation") (flatten_project_data demo_repr demo_record)
     = None.
Proof.
  assert (Hd : distinct_keys demo_record).
  { intros name section H. unfold demo_record in H. cbn [dict_get] in H.
    repeat match type of H with
           | (if ?c then _ else _) = _ =>
             destruct c;
               [inversion H; subst;
                repeat (constructor;
                        [cbn [map fst In];
                         intros Hin;
                         repeat (destruct Hin as [Hin|Hin];
                                 [vm_compute in Hin; discriminate Hin|]);
                         exact Hin|]);
                constructor|]
           end.
    discriminate H. }
  split; [|split; [|split]];
    rewrite (flat_data_holds_last_block_value demo_repr demo_record _ Hd);
    vm_compute; reflexivity.
Defined.

Lemma row_witness :
  table_row demo_repr (fun s => s) (tagged (JStr (py "A")) (JInt 1) (JInt 3) answer_fields)
  = match format_expanded_data demo_repr (fun s => s) answer_fields with
    | Some details =>
      Some [ (py "Titre du projet", JStr (py "A")); (py "Page début", JInt 1);
             (py "Page fin", JInt 3); (py "Détails", JStr details) ]
    | None => None
    end.
Proof.
  refine (proj1 (row_of_a_tagged_record demo_repr (fun s => s)
                   (JStr (py "A")) (JInt 1) (JInt 3) answer_fields _)).
  discriminate.
Defined.

(** The flat data of the record of the example run. *)
Lemma tagged_flat_data_witness :
  dict_get (py "_project_title")
    (flatten_project_data demo_repr
       (tagged (JStr (py "A")) (JInt 1) (JInt 3) answer_fields))
  = Some (JStr (py "A"))
  /\ dict_get (py "Titre")
       (flatten_project_data demo_repr
          (tagged (JStr (py "A")) (JInt 1) (JInt 3) answer_fields))
     = Some (JStr (py "Mare")).
Proof.
  destruct (flat_data_of_a_tagged_record demo_repr
              (JStr (py "A")) (JInt 1) (JInt 3) answer_fields)
    as (Ht & _ & _ & Hother).
  split; [exact Ht|].
  rewrite (Hother (py "Titre")) by (vm_compute; reflexivity).
  vm_compute. reflexivity.
Defined.

Lemma details_fail_witness :
  format_expanded_data demo_repr (fun s => s) numbered_resume = None
  /\ format_expanded_data demo_repr (fun s => s) answer_fields <> None.
Proof.
  split.
  - apply (proj2 (details_fail_exactly_on_resume_or_enjeux demo_repr
                    (fun s => s) numbered_resume)).
    left. reflexivity.
  - intros H.
    apply (proj1 (details_fail_exactly_on_resume_or_enjeux demo_repr
                    (fun s => s) answer_fields)) in H.
    destruct H as [H|H]; discriminate H.
Defined.

Lemma failing_record_witness :
  table_rows demo_repr (fun s => s) [ answer_fields; numbered_resume ] = None.
Proof.
  apply (proj2 (one_failing_record_leaves_no_table demo_repr (fun s => s)
                  [ answer_fields; numbered_resume ])).
  apply Exists_cons_tl. apply Exists_cons_hd. reflexivity.
Defined.

Lemma details_of_record_witness :
  format_expanded_data demo_repr (fun s => s)
    (tagged (JStr (py "A")) (JInt 1) (JInt 3) answer_fields)
  = format_expanded_data demo_repr (fun s => s) answer_fields.
Proof.
  apply (proj1 (details_ignore_the_attached_fields demo_repr (fun s => s)
                  (JStr (py "A")) (JInt 1) (JInt 3) answer_fields)).
  discriminate.
Defined.

Lemma blank_record_witness :
  format_expanded_data demo_repr (fun s => s) blank_record = Some empty_details.
Proof.
  apply (blocks_without_values_show_nothing demo_repr (fun s => s) blank_record).
  - discriminate.
  - intros name section Hin H. unfold blank_record in H. cbn [dict_get] in H.
    repeat match type of H with
           | (if ?c then _ else _) = _ =>
             destruct c; [inversion H; subst; reflexivity|]
           end.
    discriminate H.
Defined.

Lemma export_name_witness :
  export_file_name (py "rapport.PDF") = py "rapport.PDF" ++ py "_REX_export.xlsx"
  /\ export_file_name (py "rapport" ++ py ".pdf")
     = py "rapport" ++ py "_REX_export.xlsx".
Proof.
  destruct (export_name_drops_the_pdf_extension (py "rapport.PDF") (py "rapport"))
    as [H1 H2].
  split.
  - apply H1. vm_compute. reflexivity.
  - apply H2. vm_compute. intros H.
    repeat (destruct H as [H|H]; [discriminate H|]). exact H.
Defined.

End ViewFacts.

(* ------------------------------------------------------------------ *)
(** * The start of the application *)

Module StartupFacts.

Import Startup.

Section Facts.

Variable json_loads : pystr -> pystr + json.
Variable dumps_schema : json -> pystr.

(** The blocks of [main] leave the keys they do not load as they are. *)
Lemma load_rex_schema_keeps files s :
  let s' := snd (fst (load_rex_schema json_loads files s)) in
  (forall v, rex_schema s = Some v -> rex_schema s' = Some v)
  /\ rex_list_schema s' = rex_list_schema s
  /\ rex_prompt s' = rex_prompt s
  /\ list_prompt s' = list_prompt s.
Proof.
  unfold load_rex_schema.
  destruct (rex_schema s) as [v0|] eqn:E; cbn [fst snd].
  - repeat split; auto. intros v Hv. rewrite E. exact Hv.
  - destruct (load_schema json_loads files (py "REX.schema.json")) as [schema errors].
    destruct (truthy schema); cbn [fst snd rex_schema rex_list_schema rex_prompt list_prompt];
      repeat split; auto; intros v Hv; discriminate Hv.
Qed.

Lemma load_rex_list_schema_keeps files s :
  let s' := snd (fst (load_rex_list_schema json_loads files s)) in
  rex_schema s' = rex_schema s
  /\ (forall v, rex_list_schema s = Some v -> rex_list_schema s' = Some v)
  /\ rex_prompt s' = rex_prompt s
  /\ list_prompt s' = list_prompt s.
Proof.
  unfold load_rex_list_schema.
  destruct (rex_list_schema s) as [v0|] eqn:E; cbn [fst snd].
  - repeat split; auto. intros v Hv. rewrite E. exact Hv.
  - destruct (load_schema json_loads files (py "REXlist.schema.json"))
      as [schema errors].
    destruct (truthy schema); cbn [fst snd rex_schema rex_list_schema rex_prompt list_prompt];
      repeat split; auto; intros v Hv; discriminate Hv.
Qed.

Lemma load_rex_prompt_keeps files s :
  let s' := snd (fst (load_rex_prompt dumps_schema files s)) in
  rex_schema s' = rex_schema s
  /\ rex_list_schema s' = rex_list_schema s
  /\ (forall v, rex_prompt s = Some v -> rex_prompt s' = Some v)
  /\ list_prompt s' = list_prompt s.
Proof.
  unfold load_rex_prompt.
  destruct (rex_prompt s) as [v0|] eqn:E; cbn [fst snd].
  - repeat split; auto. intros v Hv. rewrite E. exact Hv.
  - destruct (load_prompt dumps_schema files (py "REXPrompt.md")
                (stored JNull (rex_schema s))) as [prompt errors].
    destruct (prompt_missing prompt);
      cbn [fst snd rex_schema rex_list_schema rex_prompt list_prompt];
      repeat split; auto; intros v Hv; discriminate Hv.
Qed.

Lemma load_list_prompt_keeps files s :
  let s' := snd (fst (load_list_prompt dumps_schema files s)) in
  rex_schema s' = rex_schema s
  /\ rex_list_schema s' = rex_list_schema s
  /\ rex_prompt s' = rex_prompt s
  /\ (forall v, list_prompt s = Some v -> list_prompt s' = Some v).
Proof.
  unfold load_list_prompt.
  destruct (list_prompt s) as [v0|] eqn:E; cbn [fst snd].
  - repeat split; auto. intros v Hv. rewrite E. exact Hv.
  - destruct (load_prompt dumps_schema files (py "listPrompt.md")
                (stored JNull (rex_list_schema s))) as [prompt errors].
    destruct (prompt_missing prompt);
      cbn [fst snd rex_schema rex_list_schema rex_prompt list_prompt];
      repeat split; auto; intros v Hv; discriminate Hv.
Qed.

(** The session after a run of [main] is that of the last block reached. *)
Lemma main_session files s :
  let s1 := snd (fst (load_rex_schema json_loads files s)) in
  let s2 := snd (fst (load_rex_list_schema json_loads files s1)) in
  let s3 := snd (fst (load_rex_prompt dumps_schema files s2)) in
  let s4 := snd (fst (load_list_prompt dumps_schema files s3)) in
  let s' := snd (fst (main json_loads dumps_schema files s)) in
  s' = s1 \/ s' = s2 \/ s' = s3 \/ s' = s4.
Proof.
  cbv zeta. unfold main.
  destruct (load_rex_schema json_loads files s) as [[go1 s1] e1]. cbn [fst snd].
  destruct go1; cbn [negb]; [|left; reflexivity].
  destruct (load_rex_list_schema json_loads files s1) as [[go2 s2] e2].
  cbn [fst snd].
  destruct go2; cbn [negb]; [|right; left; reflexivity].
  destruct (load_rex_prompt dumps_schema files s2) as [[go3 s3] e3].
  cbn [fst snd].
  destruct go3; cbn [negb]; [|right; right; left; reflexivity].
  destruct (load_list_prompt dumps_schema files s3) as [[go4 s4] e4].
  cbn [fst snd].
  destruct go4; cbn [negb]; right; right; right; reflexivity.
Qed.

(** X27. A run of [main] never loads again a key that is in the session,
    whatever its value: a schema or a prompt stored by an earlier run,
    [None] after a failed load included, is there unchanged after the
    run. *)
Theorem main_never_reloads_a_stored_key files s :
  (forall v, rex_schema s = Some v ->
             rex_schema (snd (fst (main json_loads dumps_schema files s))) = Some v)
  /\ (forall v, rex_list_schema s = Some v ->
                rex_list_schema (snd (fst (main json_loads dumps_schema files s)))
                = Some v)
  /\ (forall v, rex_prompt s = Some v ->
                rex_prompt (snd (fst (main json_loads dumps_schema files s)))
                = Some v)
  /\ (forall v, list_prompt s = Some v ->
                list_prompt (snd (fst (main json_loads dumps_schema files s)))
                = Some v).
Proof.
  pose proof (load_rex_schema_keeps files s) as (A1 & A2 & A3 & A4).
  set (s1 := snd (fst (load_rex_schema json_loads files s))) in *.
  pose proof (load_rex_list_schema_keeps files s1) as (B1 & B2 & B3 & B4).
  set (s2 := snd (fst (load_rex_list_schema json_loads files s1))) in *.
  pose proof (load_rex_prompt_keeps files s2) as (C1 & C2 & C3 & C4).
  set (s3 := snd (fst (load_rex_prompt dumps_schema files s2))) in *.
  pose proof (load_list_prompt_keeps files s3) as (D1 & D2 & D3 & D4).
  set (s4 := snd (fst (load_list_prompt dumps_schema files s3))) in *.
  pose proof (main_session files s) as Hs. cbv zeta in Hs.
  fold s1 s2 s3 s4 in Hs.
  split; [|split; [|split]]; intros v Hv.
  - assert (H1 : rex_schema s1 = Some v) by (apply A1; exact Hv).
    assert (H2 : rex_schema s2 = Some v) by (rewrite B1; exact H1).
    assert (H3 : rex_schema s3 = Some v) by (rewrite C1; exact H2).
    assert (H4 : rex_schema s4 = Some v) by (rewrite D1; exact H3).
    destruct Hs as [-> | [-> | [-> | ->]]]; assumption.
  - assert (H1 : rex_list_schema s1 = Some v) by (rewrite A2; exact Hv).
    assert (H2 : rex_list_schema s2 = Some v) by (apply B2; exact H1).
    assert (H3 : rex_list_schema s3 = Some v) by (rewrite C2; exact H2).
    assert (H4 : rex_list_schema s4 = Some v) by (rewrite D2; exact H3).
    destruct Hs as [-> | [-> | [-> | ->]]]; assumption.
  - assert (H1 : rex_prompt s1 = Some v) by (rewrite A3; exact Hv).
    assert (H2 : rex_prompt s2 = Some v) by (rewrite B3; exact H1).
    assert (H3 : rex_prompt s3 = Some v) by (apply C3; exact H2).
    assert (H4 : rex_prompt s4 = Some v) by (rewrite D3; exact H3).
    destruct Hs as [-> | [-> | [-> | ->]]]; assumption.
  - assert (H1 : list_prompt s1 = Some v) by (rewrite A4; exact Hv).
    assert (H2 : list_prompt s2 = Some v) by (rewrite B4; exact H1).
    assert (H3 : list_prompt s3 = Some v) by (rewrite C4; exact H2).
    assert (H4 : list_prompt s4 = Some v) by (apply D4; exact H3).
    destruct Hs as [-> | [-> | [-> | ->]]]; assumption.
Qed.

(** X28. When the schema file [REX.schema.json] cannot be loaded (or holds
    a false value), a run of [main] on a session without the schema stops
    after storing that value under the key of the schema. A later run on a
    session that holds [None] as its schema and has no prompt yet does not
    stop for the schema: once the list schema is there, it loads
    [REXPrompt.md] with that [None], and the prompt stored is the text of
    the file as it is, with its placeholder left in place. *)
Theorem failed_schema_load_leaves_the_placeholder files s :
  rex_schema s = None ->
  truthy (fst (load_schema json_loads files (py "REX.schema.json"))) = false ->
  main json_loads dumps_schema files s
  = (Stopped,
     mkSession (Some (fst (load_schema json_loads files (py "REX.schema.json"))))
       (rex_list_schema s) (rex_prompt s) (list_prompt s),
     snd (load_schema json_loads files (py "REX.schema.json"))
     ++ [py "Failed to load REX schema."])
  /\ forall later s1 c content,
       rex_schema s1 = Some JNull ->
       rex_prompt s1 = None ->
       (rex_list_schema s1 = None ->
        truthy (fst (load_schema json_loads later (py "REXlist.schema.json")))
        = true) ->
       file_exists later (py "REXPrompt.md") = true ->
       read_text later (py "REXPrompt.md") = inr (c :: content) ->
       rex_prompt (snd (fst (main json_loads dumps_schema later s1)))
       = Some (Some (c :: content)).
Proof.
  intros Hs Hfalse. split.
  - unfold main, load_rex_schema. rewrite Hs.
    destruct (load_schema json_loads files (py "REX.schema.json"))
      as [schema errors].
    cbn [fst snd] in *. rewrite Hfalse. reflexivity.
  - intros later s1 c content Hschema Hprompt Hlist Hex Hread.
    assert (H1 : load_rex_schema json_loads later s1 = (true, s1, [])).
    { unfold load_rex_schema. rewrite Hschema. reflexivity. }
    assert (H2 : exists s2 e2,
               load_rex_list_schema json_loads later s1 = (true, s2, e2)
               /\ rex_schema s2 = Some JNull /\ rex_prompt s2 = None).
    { unfold load_rex_list_schema.
      destruct (rex_list_schema s1) as [v|] eqn:E.
      - exists s1, []. auto.
      - specialize (Hlist eq_refl).
        destruct (load_schema json_loads later (py "REXlist.schema.json"))
          as [schema errors].
        cbn [fst] in Hlist. rewrite Hlist.
        eexists. eexists. split; [reflexivity|].
        cbn [rex_schema rex_prompt]. auto. }
    destruct H2 as (s2 & e2 & H2 & Hschema2 & Hprompt2).
    assert (H3 : exists s3,
               load_rex_prompt dumps_schema later s2 = (true, s3, [])
               /\ rex_prompt s3 = Some (Some (c :: content))).
    { unfold load_rex_prompt, load_prompt. rewrite Hprompt2, Hschema2.
      cbn [stored]. rewrite Hex, Hread. cbn [negb prompt_missing].
      eexists. split; reflexivity. }
    destruct H3 as (s3 & H3 & Hprompt3).
    pose proof (load_list_prompt_keeps later s3) as (_ & _ & D3 & _).
    unfold main. rewrite H1. cbn [negb]. rewrite H2. cbn [negb].
    rewrite H3. cbn [negb].
    destruct (load_list_prompt dumps_schema later s3) as [[go4 s4] e4].
    cbn [fst snd] in D3.
    destruct go4; cbn [negb fst snd]; rewrite D3; exact Hprompt3.
Qed.

(** X29. The prompt that [load_prompt] returns for a file it can read: the
    text of the file as it is when no schema is given or when the text
    does not hold the placeholder; and, when the placeholder comes after a
    text without an opening brace and is not repeated, the text with the
    dumped schema in its place, the schema itself being copied as it is. *)
Theorem prompt_gets_the_schema_at_the_placeholder files name schema content :
  file_exists files name = true ->
  read_text files name = inr content ->
  fst (load_prompt dumps_schema files name JNull) = Some content
  /\ (occurs (py "{{ SCHEMA_JSON }}") content = false ->
      fst (load_prompt dumps_schema files name schema) = Some content)
  /\ (forall before after,
        schema <> JNull ->
        content = before ++ py "{{ SCHEMA_JSON }}" ++ after ->
        ~ In 123%N before ->
        occurs (py "{{ SCHEMA_JSON }}") after = false ->
        fst (load_prompt dumps_schema files name schema)
        = Some (before ++ dumps_schema schema ++ after)).
Proof.
  intros Hex Hread. unfold load_prompt. rewrite Hex, Hread. cbn [negb].
  split; [reflexivity|]. split.
  - intros Habsent. unfold py_replace.
    destruct schema; cbn [fst];
      rewrite ?(ViewFacts.replace_absent _ _ _ Habsent); reflexivity.
  - intros before after Hschema -> Hbefore Hafter.
    assert (Hreplaced :
              py_replace (py "{{ SCHEMA_JSON }}") (dumps_schema schema)
                (before ++ py "{{ SCHEMA_JSON }}" ++ after)
              = before ++ dumps_schema schema ++ after).
    { unfold py_replace.
      change (py "{{ SCHEMA_JSON }}") with (123%N :: py "{ SCHEMA_JSON }}").
      rewrite (ViewFacts.replace_first 123%N (py "{ SCHEMA_JSON }}")
                 (dumps_schema schema) before after Hbefore).
      change (123%N :: py "{ SCHEMA_JSON }}") with (py "{{ SCHEMA_JSON }}").
      rewrite (ViewFacts.replace_absent _ _ _ Hafter). reflexivity. }
    destruct schema; cbn [fst]; rewrite ?Hreplaced; try reflexivity.
    destruct (Hschema eq_refl).
Qed.

End Facts.

(** ** A session started without its schema *)

Lemma stored_key_witness :
  rex_schema
    (snd (fst (main demo_loads demo_dumps files_without_schema
                 (mkSession (Some JNull) None None None))))
  = Some JNull.
Proof.
  apply (proj1 (main_never_reloads_a_stored_key demo_loads demo_dumps
                  files_without_schema (mkSession (Some JNull) None None None))).
  reflexivity.
Defined.

Lemma failed_schema_witness :
  main demo_loads demo_dumps files_without_schema empty_session
  = (Stopped, Startup.mkSession (Some JNull) None None None,
     [ py "Schema file not found: " ++ py "REX.schema.json";
       py "Failed to load REX schema." ])
  /\ rex_prompt
       (snd (fst (main demo_loads demo_dumps files_without_schema
                    (Startup.mkSession (Some JNull) None None None))))
     = Some (Some (py "Analyse le projet selon {{ SCHEMA_JSON }} et réponds en JSON.")).
Proof.
  destruct (failed_schema_load_leaves_the_placeholder demo_loads demo_dumps
              files_without_schema empty_session) as [Hstop Hlater].
  - reflexivity.
  - vm_compute. reflexivity.
  - split.
    + rewrite Hstop. vm_compute. reflexivity.
    + set (text := py "Analyse le projet selon {{ SCHEMA_JSON }} et réponds en JSON.").
      assert (Htext : exists c content, text = c :: content)
        by (eexists; eexists; vm_compute; reflexivity).
      destruct Htext as (c & content & Htext).
      rewrite Htext.
      apply (Hlater files_without_schema
               (Startup.mkSession (Some JNull) None None None) c content).
      * reflexivity.
      * reflexivity.
      * intros _. vm_compute. reflexivity.
      * vm_compute. reflexivity.
      * rewrite <- Htext. vm_compute. reflexivity.
Defined.

Lemma prompt_schema_witness :
  fst (load_prompt demo_dumps files_without_schema (py "REXPrompt.md")
         (JObj [(py "a", JInt 1)]))
  = Some (py "Analyse le projet selon " ++ py "<schema>"
          ++ py " et réponds en JSON.").
Proof.
  destruct (prompt_gets_the_schema_at_the_placeholder demo_dumps
              files_without_schema (py "REXPrompt.md") (JObj [(py "a", JInt 1)])
              (py "Analyse le projet selon {{ SCHEMA_JSON }} et réponds en JSON."))
    as (_ & _ & Hinject).
  - vm_compute. reflexivity.
  - vm_compute. reflexivity.
  - apply (Hinject (py "Analyse le projet selon ") (py " et réponds en JSON.")).
    + discriminate.
    + vm_compute. reflexivity.
    + vm_compute. intros H.
      repeat (destruct H as [H|H]; [discriminate H|]). exact H.
    + vm_compute. reflexivity.
Defined.

End StartupFacts.
